(** * A shallow embedding of the AI dark-mode extension

    The development follows the JavaScript sources of the repository:

    - [Learning]  : [ai-learning.js] (class [AILearningEngine]);
    - [Server]    : [server/server.js] ([generateSmartCSS] and its endpoint);
    - [Content]   : the content script [content.js], with [parseColor],
                    [detectDarkModeIssues], [calculateContrast] and the
                    [runtime.onMessage] listener;
    - [AddDarkClass] : the content script that adds the class
                    [universal-dark-mode] to the page ([add-dark-class.js] in
                    the README's file list), with [injectGeminiCssPatch],
                    [isLikelyMenu] and [analyzeDarkModeIssues];
    - [Popup]     : the popup script ([trackFixSuccess]).

    Conventions of the model.

    - A JavaScript string is a [string]: a sequence of code units, here
      restricted to the range 0..255 (Latin-1).
    - A JavaScript number is an IEEE double.  Counts, ratios and colour
      channels are computed here with exact rationals ([Q]), so a result
      is the number the double approximates.  What [parseFloat] returns is
      a [JS.number], which may be [NaN] or infinite; elsewhere [NaN] is
      [None] where an operation can produce it.  [Math.pow] is a parameter
      of the functions that call it.
    - A JavaScript object used as a dictionary is an association list in
      insertion order with unique keys ([JS.obj]).
    - [localStorage] holds JSON text; the model keeps the parsed, typed
      value of each key the code uses.
    - Host services ([Date.now], [window.location.href], the URL parser)
      are arguments of the functions that use them. *)

From Stdlib Require Import String Ascii List ZArith QArith Qminmax Qround Qabs Bool Arith Lia Lqa.
From Stdlib Require Import Permutation Sorted.
Import ListNotations.

Close Scope Q_scope.
Local Open Scope list_scope.
Local Open Scope string_scope.

(** ** JavaScript built-ins used by the sources *)

Module JS.

(** *** Characters and strings *)

Definition code (c : ascii) : nat := nat_of_ascii c.

(** [\d] *)
Definition is_digit (c : ascii) : bool :=
  (48 <=? code c)%nat && (code c <=? 57)%nat.

(** [\s], and the characters [trim] strips, within Latin-1:
    TAB, LF, VT, FF, CR, SPACE and NBSP. *)
Definition is_space (c : ascii) : bool :=
  match code c with
  | 9 | 10 | 11 | 12 | 13 | 32 | 160 => true
  | _ => false
  end.

(** [[a-f\d]] under the [i] flag. *)
Definition is_hex (c : ascii) : bool :=
  is_digit c
  || ((97 <=? code c)%nat && (code c <=? 102)%nat)
  || ((65 <=? code c)%nat && (code c <=? 70)%nat).

Definition lower_char (c : ascii) : ascii :=
  let n := code c in
  if ((65 <=? n)%nat && (n <=? 90)%nat)
     || ((192 <=? n)%nat && (n <=? 222)%nat && negb (n =? 215)%nat)
  then ascii_of_nat (n + 32) else c.

Fixpoint toLowerCase (s : string) : string :=
  match s with
  | EmptyString => EmptyString
  | String c r => String (lower_char c) (toLowerCase r)
  end.

Definition startsWith (s p : string) : bool := prefix p s.

(** [s.includes(p)] *)
Fixpoint includes (s p : string) : bool :=
  prefix p s ||
  match s with
  | EmptyString => false
  | String _ r => includes r p
  end.

Fixpoint trimStart (s : string) : string :=
  match s with
  | String c r => if is_space c then trimStart r else s
  | EmptyString => EmptyString
  end.

(** Drops trailing white space; the result of the recursive call is empty
    exactly when the rest of the string is blank. *)
Fixpoint trimEnd (s : string) : string :=
  match s with
  | EmptyString => EmptyString
  | String c r =>
      match trimEnd r with
      | EmptyString => if is_space c then EmptyString else String c EmptyString
      | r' => String c r'
      end
  end.

Definition trim (s : string) : string := trimEnd (trimStart s).

(** [s.split(c)] for a one-character separator: the pieces between the
    occurrences of [c]; one more piece than there are occurrences. *)
Fixpoint split (c : ascii) (s : string) : list string :=
  match s with
  | EmptyString => [EmptyString]
  | String d r =>
      if Ascii.eqb d c then EmptyString :: split c r
      else match split c r with
           | p :: ps => String d p :: ps
           | [] => [String d EmptyString]
           end
  end.

(** The line feed and the double quote, for the text of templates. *)
Definition nl : string := String "010"%char EmptyString.
Definition dq : string := String "034"%char EmptyString.

(** [a.join(sep)] *)
Definition join (sep : string) (a : list string) : string := String.concat sep a.

(** A JavaScript string is truthy when it is not empty. *)
Definition truthy (s : string) : bool :=
  match s with EmptyString => false | _ => true end.

Definition str_eqb_list (a b : list string) : bool :=
  if list_eq_dec string_dec a b then true else false.

(** *** Numbers *)

Fixpoint digits_value (base : Z) (digit : ascii -> Z) (acc : Z) (s : string) : Z :=
  match s with
  | EmptyString => acc
  | String c r => digits_value base digit (acc * base + digit c)%Z r
  end.

Definition dec_digit (c : ascii) : Z := Z.of_nat (code c - 48).

Definition hex_digit (c : ascii) : Z :=
  let n := code c in
  if is_digit c then Z.of_nat (n - 48)
  else if (97 <=? n)%nat then Z.of_nat (n - 87)
  else Z.of_nat (n - 55).

(** [parseInt(s)] on a non-empty string of decimal digits: the exact
    value, which a double rounds beyond 2^53. *)
Definition parseInt (s : string) : Z := digits_value 10 dec_digit 0 s.

(** [parseInt(s, 16)] on a non-empty string of hexadecimal digits. *)
Definition parseInt16 (s : string) : Z := digits_value 16 hex_digit 0 s.

Definition Qltb (x y : Q) : bool := negb (Qle_bool y x).
Definition Qgtb (x y : Q) : bool := Qltb y x.
Definition Qgeb (x y : Q) : bool := Qle_bool y x.

(** Decimal text of a natural number, as [String(n)] prints a count. *)
Fixpoint nat_digits (fuel n : nat) (acc : string) : string :=
  match fuel with
  | O => acc
  | S f =>
      let acc' := String (ascii_of_nat (48 + n mod 10)) acc in
      if (n <? 10)%nat then acc' else nat_digits f (n / 10) acc'
  end.

Definition nat_to_string (n : nat) : string := nat_digits (S n) n EmptyString.

(** The longest prefix of [s] whose characters satisfy [p], and the rest. *)
Fixpoint span (p : ascii -> bool) (s : string) : string * string :=
  match s with
  | EmptyString => (EmptyString, EmptyString)
  | String c r =>
      if p c then let '(a, b) := span p r in (String c a, b)
      else (EmptyString, s)
  end.

(** [s.match(/\d+/g)]: the maximal runs of digits, left to right
    ([null] and the empty array are both []). *)
Fixpoint digitRuns (s : string) (run : string) : list string :=
  match s with
  | EmptyString => if truthy run then [run] else []
  | String c r =>
      if is_digit c then digitRuns r (run ++ String c EmptyString)
      else if truthy run then run :: digitRuns r EmptyString
      else digitRuns r EmptyString
  end.

(** A number that may be [NaN] or infinite. *)
Inductive number : Type :=
| NaN
| Num (q : Q)
| Inf (negative : bool).

Definition num_ltb (x : number) (y : Q) : bool :=
  match x with
  | Num q => Qltb q y
  | Inf negative => negative
  | NaN => false
  end.

Definition num_gtb (x : number) (y : Q) : bool :=
  match x with
  | Num q => Qltb y q
  | Inf negative => negb negative
  | NaN => false
  end.

(** [x === 0] *)
Definition num_is_zero (x : number) : bool :=
  match x with
  | Num q => Qeq_bool q 0
  | _ => false
  end.

(** The exponent part of a decimal literal: [e] or [E], a sign, digits.
    Without digits there is no exponent part. *)
Definition exponent (s : string) : Z :=
  match s with
  | String c r =>
      if (code c =? 101)%nat || (code c =? 69)%nat then
        let '(neg, r') := match r with
                          | String "-" t => (true, t)
                          | String "+" t => (false, t)
                          | _ => (false, r)
                          end in
        let '(ds, _) := span is_digit r' in
        if truthy ds then (if neg then - parseInt ds else parseInt ds)%Z else 0%Z
      else 0%Z
  | EmptyString => 0%Z
  end.

(** [parseFloat(s)]: leading white space, a sign, then [Infinity] or the
    longest decimal literal; [NaN] when there is none. *)
Definition parseFloat (s : string) : number :=
  let s := trimStart s in
  let '(neg, s) := match s with
                   | String "-" r => (true, r)
                   | String "+" r => (false, r)
                   | _ => (false, s)
                   end in
  if prefix "Infinity" s then Inf neg
  else
    let '(ip, r) := span is_digit s in
    let '(fp, r') := match r with
                     | String "." t => span is_digit t
                     | _ => (EmptyString, r)
                     end in
    if truthy ip || truthy fp then
      let m := parseInt (ip ++ fp) in
      let e := (exponent r' - Z.of_nat (String.length fp))%Z in
      let q := if (0 <=? e)%Z then inject_Z (m * Z.pow 10 e)
               else (inject_Z m / inject_Z (Z.pow 10 (- e)))%Q in
      Num (if neg then (- q)%Q else q)
    else NaN.

(** [parseInt(s, 16)] on any string: white space, a sign, an optional
    [0x], then the longest run of hexadecimal digits; [None] is [NaN]. *)
Definition parseIntHex (s : string) : option Z :=
  let s := trimStart s in
  let '(neg, s) := match s with
                   | String "-" r => (true, r)
                   | String "+" r => (false, r)
                   | _ => (false, s)
                   end in
  let s := match s with
           | String "0" (String x r) =>
               if (code x =? 120)%nat || (code x =? 88)%nat then r else s
           | _ => s
           end in
  let '(ds, _) := span is_hex s in
  if truthy ds then Some (if neg then - parseInt16 ds else parseInt16 ds)%Z else None.

(** [s.slice(i, j)] for [0 <= i <= j]. *)
Definition slice (i j : nat) (s : string) : string := substring i (j - i) s.

(** [s.slice(i)] *)
Fixpoint drop (i : nat) (s : string) : string :=
  match i, s with
  | S n, String _ r => drop n r
  | _, _ => s
  end.

(** *** Objects used as dictionaries *)

Definition obj (V : Type) : Type := list (string * V).

Fixpoint get {V} (o : obj V) (k : string) : option V :=
  match o with
  | [] => None
  | (k', v) :: r => if String.eqb k k' then Some v else get r k
  end.

(** [o[k] = v]: an existing key keeps its place, a new key goes last. *)
Fixpoint set {V} (o : obj V) (k : string) (v : V) : obj V :=
  match o with
  | [] => [(k, v)]
  | (k', v') :: r =>
      if String.eqb k k' then (k', v) :: r else (k', v') :: set r k v
  end.

Definition keys {V} (o : obj V) : list string := map fst o.

(** The property names every object literal inherits from
    [Object.prototype]; [o[k]] is truthy for them even when [o] has no
    such key of its own. *)
Definition prototype_keys : list string :=
  [ "constructor"; "__proto__"; "hasOwnProperty"; "isPrototypeOf";
    "propertyIsEnumerable"; "toLocaleString"; "toString"; "valueOf";
    "__defineGetter__"; "__defineSetter__"; "__lookupGetter__";
    "__lookupSetter__" ].

Definition inherited (k : string) : bool :=
  existsb (String.eqb k) prototype_keys.

(** *** [Array.prototype.sort] with the comparator [(a, b) => b[1] - a[1]]:
    a stable sort by decreasing count.  Elements are inserted from the
    right, each in front of the first element that does not count more,
    so equal counts keep their order. *)
Fixpoint insert_desc {A} (cnt : A -> nat) (x : A) (l : list A) : list A :=
  match l with
  | [] => [x]
  | y :: r => if (cnt y <=? cnt x)%nat then x :: l else y :: insert_desc cnt x r
  end.

Definition sort_desc {A} (cnt : A -> nat) (l : list A) : list A :=
  fold_right (insert_desc cnt) [] l.

(** [a.slice(-n)]: the last [n] elements. *)
Definition slice_last {A} (n : nat) (a : list A) : list A :=
  skipn (List.length a - n) a.

(** [a.splice(0, n)]: what is left of [a] after the call. *)
Definition splice_front {A} (n : nat) (a : list A) : list A := skipn n a.

(** [Array.prototype.sort] with any comparator, as the same stable
    insertion: [keeps x y] tells that the comparator leaves [x] in front of
    [y] (it is not positive on them). *)
Fixpoint insert_by {A} (keeps : A -> A -> bool) (x : A) (l : list A) : list A :=
  match l with
  | [] => [x]
  | y :: r => if keeps x y then x :: l else y :: insert_by keeps x r
  end.

Definition sort_by {A} (keeps : A -> A -> bool) (l : list A) : list A :=
  fold_right (insert_by keeps) [] l.

(** [Math.round] *)
Definition round (x : Q) : Z := Qfloor (x + 0.5)%Q.

(** [s.replace(/c/g, t)] for a one-character pattern. *)
Fixpoint replaceAll (c : ascii) (t : string) (s : string) : string :=
  match s with
  | EmptyString => EmptyString
  | String d r => if Ascii.eqb d c then t ++ replaceAll c t r else String d (replaceAll c t r)
  end.

End JS.

(** ** The learning engine ([ai-learning.js]) *)

Module Learning.

(** An entry of the [darkmode_feedback] list. *)
Record Feedback := {
  tag : string;
  classes : list string;
  xpath : string;
  description : string;
  url : string;
  timestamp : Z;
  fixed : bool;
  appliedCSS : option string;
  userRating : option string;
  lastUpdated : option Z
}.

(** The argument [elementData] of the engine's methods. *)
Record ElementData := {
  ed_tag : string;
  ed_classes : list string;
  ed_description : string
}.

Record Problem := { p_count : nat; examples : list Feedback }.
Record Fix := { count : nat; cssFixes : list string }.
Record Site := { issues : list Feedback; fixes : list string }.

(** The object [extractPatterns] builds. *)
Record Patterns := {
  commonProblems : JS.obj Problem;
  successfulFixes : JS.obj Fix;
  elementTypes : JS.obj unit;
  websitePatterns : JS.obj Site;
  confidence : JS.obj Q
}.

(** An entry of the [darkmode_success] list. *)
Record SuccessData := {
  sd_elementData : ElementData;
  sd_appliedCSS : string;
  sd_userRating : string;
  sd_timestamp : Z;
  sd_domain : string;
  effectivenessScore : Q
}.

(** The keys of [localStorage] the engine reads and writes. *)
Record Storage := {
  darkmode_feedback : list Feedback;
  darkmode_patterns : option Patterns;
  darkmode_success : list SuccessData
}.

Definition learningThreshold : Q := 0.7%Q.

(** [`${tag}.${classes.join('.')}`] *)
Definition elementKey (t : string) (cs : list string) : string :=
  t ++ "." ++ JS.join "." cs.

Definition categorizeProlem (description : string) : string :=
  let d := JS.toLowerCase description in
  if JS.includes d "transparent" || JS.includes d "invisible" then "transparent_background"
  else if JS.includes d "contrast" || JS.includes d "hard to read" then "poor_contrast"
  else if JS.includes d "menu" || JS.includes d "dropdown" then "menu_issues"
  else if JS.includes d "text" || JS.includes d "font" then "text_visibility"
  else "general_dark_mode".

(** The result of an [async] method: the value it resolves to, or the
    [TypeError] it rejects with. *)
Inductive outcome (A : Type) : Type :=
| Resolved (a : A)
| Rejected.
Arguments Resolved {A} a.
Arguments Rejected {A}.

(** The object [generateLearningReport] resolves to. *)
Record Report := {
  totalFeedback : nat;
  mostCommonProblems : list (string * Problem);
  topSuccessfulFixes : list (string * Q);
  domainSpecialization : nat;
  overallSuccessRate : Q;
  learningConfidence : Q
}.

Section WithHost.

(** [new URL(url).hostname]; [None] when the constructor throws. *)
Variable hostname : string -> option string.

Definition extractDomain (u : string) : string :=
  match hostname u with
  | Some h => h
  | None => "unknown"
  end.

Definition emptyPatterns : Patterns :=
  {| commonProblems := []; successfulFixes := []; elementTypes := [];
     websitePatterns := []; confidence := [] |}.

(** The body of the [forEach] of [extractPatterns] for one entry.  The key
    of [websitePatterns] is a host name: when it is a property every
    object inherits, [patterns.websitePatterns[domain]] is truthy without
    an [issues] array and the [push] throws a [TypeError] ([None]). *)
Definition recordFeedback (p : Patterns) (f : Feedback) : option Patterns :=
  let problemKey := categorizeProlem (description f) in
  let pr := match JS.get (commonProblems p) problemKey with
            | Some x => x
            | None => {| p_count := 0; examples := [] |}
            end in
  let problems' :=
    JS.set (commonProblems p) problemKey
      {| p_count := S (p_count pr); examples := examples pr ++ [f] |} in
  let fixes' :=
    if fixed f then
      let k := elementKey (tag f) (classes f) in
      let fx := match JS.get (successfulFixes p) k with
                | Some x => x
                | None => {| count := 0; cssFixes := [] |}
                end in
      JS.set (successfulFixes p) k
        {| count := S (count fx);
           cssFixes := match appliedCSS f with
                       | Some css => if JS.truthy css then cssFixes fx ++ [css]
                                     else cssFixes fx
                       | None => cssFixes fx
                       end |}
    else successfulFixes p in
  let domain := extractDomain (url f) in
  match JS.get (websitePatterns p) domain with
  | Some site =>
      Some {| commonProblems := problems'; successfulFixes := fixes';
              elementTypes := elementTypes p;
              websitePatterns :=
                JS.set (websitePatterns p) domain
                  {| issues := issues site ++ [f]; fixes := fixes site |};
              confidence := confidence p |}
  | None =>
      if JS.inherited domain then None
      else
        Some {| commonProblems := problems'; successfulFixes := fixes';
                elementTypes := elementTypes p;
                websitePatterns :=
                  JS.set (websitePatterns p) domain
                    {| issues := [f]; fixes := [] |};
                confidence := confidence p |}
  end.

Fixpoint recordAll (p : Patterns) (fs : list Feedback) : option Patterns :=
  match fs with
  | [] => Some p
  | f :: r =>
      match recordFeedback p f with
      | Some p' => recordAll p' r
      | None => None
      end
  end.

(** [Math.min(fix.count / 10, 1.0)] *)
Definition confidenceOf (fx : Fix) : Q :=
  Qmin (inject_Z (Z.of_nat (count fx)) / 10)%Q 1%Q.

(** The second loop of [extractPatterns]: one confidence per key of
    [successfulFixes], in the order of the keys. *)
Definition scoreAll (fixes : JS.obj Fix) : JS.obj Q :=
  map (fun kv => (fst kv, confidenceOf (snd kv))) fixes.

Definition extractPatterns (feedbackData : list Feedback) : option Patterns :=
  match recordAll emptyPatterns feedbackData with
  | Some p =>
      Some {| commonProblems := commonProblems p;
              successfulFixes := successfulFixes p;
              elementTypes := elementTypes p;
              websitePatterns := websitePatterns p;
              confidence := scoreAll (successfulFixes p) |}
  | None => None
  end.

(** [analyzeFeedbackPatterns]: the patterns of the stored feedback, which
    are stored in turn; when [extractPatterns] throws, the [catch] returns
    the empty object [{}] ([None]) and nothing is stored. *)
Definition analyzeFeedbackPatterns (st : Storage) : option Patterns * Storage :=
  match extractPatterns (darkmode_feedback st) with
  | Some p =>
      (Some p, {| darkmode_feedback := darkmode_feedback st;
                  darkmode_patterns := Some p;
                  darkmode_success := darkmode_success st |})
  | None => (None, st)
  end.

(** [extractCSSRules]: the pieces between closing braces, trimmed, each
    with its brace put back; a piece that was blank is dropped. *)
Definition extractCSSRules (css : string) : list string :=
  filter (fun rule => (1 <? String.length rule)%nat)
    (map (fun rule => JS.trim rule ++ "}") (JS.split "}" css)).

(** [freq[k] = (freq[k] || 0) + 1] *)
Definition bump (freq : JS.obj nat) (k : string) : JS.obj nat :=
  JS.set freq k (S (match JS.get freq k with Some n => n | None => 0 end)).

(** [Object.entries(freq).filter(c >= 2).sort(descending).map(key)] *)
Definition popular (freq : JS.obj nat) : list string :=
  map fst (JS.sort_desc snd (filter (fun kv => (2 <=? snd kv)%nat) freq)).

(** [findMostSuccessfulCSS]; [None] is [null]. *)
Definition findMostSuccessfulCSS (fixes : list string) : option string :=
  match fixes with
  | [] => None
  | _ =>
      let ruleFrequency :=
        fold_left (fun freq css => fold_left bump (extractCSSRules css) freq)
                  fixes [] in
      Some (JS.join JS.nl (popular ruleFrequency))
  end.

Definition findCommonProblemsInDomain (items : list Feedback) : list string :=
  popular (fold_left (fun freq issue => bump freq (categorizeProlem (description issue)))
                     items []).

Definition css_transparent_background : string :=
  JS.join JS.nl
    [ "";
      "                        .menu, .dropdown, [class*=" ++ JS.dq ++ "menu" ++ JS.dq
        ++ "], [class*=" ++ JS.dq ++ "dropdown" ++ JS.dq ++ "] {";
      "                            background-color: #222 !important;";
      "                            border: 1px solid #444 !important;";
      "                        }";
      "                    " ].

Definition css_poor_contrast : string :=
  JS.join JS.nl
    [ "";
      "                        * {";
      "                            color: #e0e0e0 !important;";
      "                        }";
      "                        a, .link {";
      "                            color: #58a6ff !important;";
      "                        }";
      "                    " ].

Definition css_menu_issues : string :=
  JS.join JS.nl
    [ "";
      "                        nav, .navigation, .nav-menu {";
      "                            background-color: #1a1a1a !important;";
      "                            color: #ffffff !important;";
      "                        }";
      "                    " ].

Definition generateDomainSpecificCSS (commonProblems : list string) : string :=
  JS.join JS.nl
    (flat_map (fun problem =>
       if String.eqb problem "transparent_background" then [css_transparent_background]
       else if String.eqb problem "poor_contrast" then [css_poor_contrast]
       else if String.eqb problem "menu_issues" then [css_menu_issues]
       else []) commonProblems).

Record DomainPattern := { dp_confidence : Q; recommendedCSS : option string }.

Definition analyzeDomainPattern (domainData : Site) : DomainPattern :=
  let totalIssues := List.length (issues domainData) in
  let fixedIssues := List.length (filter fixed (issues domainData)) in
  if (totalIssues <? 3)%nat then {| dp_confidence := 0%Q; recommendedCSS := None |}
  else
    {| dp_confidence := (inject_Z (Z.of_nat fixedIssues) / inject_Z (Z.of_nat totalIssues))%Q;
       recommendedCSS :=
         Some (generateDomainSpecificCSS (findCommonProblemsInDomain (issues domainData))) |}.

(** What [generatePredictiveCSS] resolves to; [css] is [null] when there
    is nothing to join. *)
Record Prediction := {
  css : option string;
  pr_confidence : Q;
  source : string;
  basedOn : string
}.

(** The second check of [generatePredictiveCSS]: the site's own bucket. *)
Definition domainPrediction (p : Patterns) (domain : string) : outcome (option Prediction) :=
  match JS.get (websitePatterns p) domain with
  | Some site =>
      let domainPattern := analyzeDomainPattern site in
      if JS.Qgtb (dp_confidence domainPattern) 0.5%Q then
        Resolved (Some {| css := recommendedCSS domainPattern;
                          pr_confidence := dp_confidence domainPattern;
                          source := "domain_pattern";
                          basedOn := "Similar issues on " ++ domain |})
      else Resolved None
  | None => if JS.inherited domain then Rejected else Resolved None
  end.

(** [generatePredictiveCSS(elementData, pageContext)]; [pageUrl] is
    [pageContext.url].  [Resolved None] is the [null] that sends the caller
    to the remote generator.  When [analyzeFeedbackPatterns] returned [{}],
    reading [patterns.confidence[elementKey]] throws. *)
Definition generatePredictiveCSS (elementData : ElementData) (pageUrl : string)
    (st : Storage) : outcome (option Prediction) * Storage :=
  let '(patterns, st') := analyzeFeedbackPatterns st in
  match patterns with
  | None => (Rejected, st')
  | Some p =>
      let k := elementKey (ed_tag elementData) (ed_classes elementData) in
      let domain := extractDomain pageUrl in
      match JS.get (confidence p) k with
      | Some c =>
          if JS.Qgeb c learningThreshold then
            match JS.get (successfulFixes p) k with
            | Some successful =>
                (Resolved
                   (Some {| css := findMostSuccessfulCSS (cssFixes successful);
                            pr_confidence := c;
                            source := "learned_pattern";
                            basedOn := JS.nat_to_string (count successful)
                                       ++ " previous fixes" |}),
                 st')
            | None => (Rejected, st')
            end
          else (domainPrediction p domain, st')
      | None => (domainPrediction p domain, st')
      end
  end.

Definition calculateEffectivenessScore (rating : string) : Q :=
  if String.eqb rating "up" then 1%Q
  else if String.eqb rating "down" then 0%Q
  else if String.eqb rating "neutral" then 0.5%Q
  else 0.3%Q.

(** [updateFeedbackWithSuccess]: the first entry with the element's tag and
    classes takes the rating. *)
Fixpoint updateFirst (e : ElementData) (css rating : string) (now : Z)
    (fs : list Feedback) : option (list Feedback) :=
  match fs with
  | [] => None
  | f :: r =>
      if String.eqb (tag f) (ed_tag e) && JS.str_eqb_list (classes f) (ed_classes e)
      then Some ({| tag := tag f; classes := classes f; xpath := xpath f;
                    description := description f; url := url f;
                    timestamp := timestamp f;
                    fixed := String.eqb rating "up";
                    appliedCSS := Some css;
                    userRating := Some rating;
                    lastUpdated := Some now |} :: r)
      else match updateFirst e css rating now r with
           | Some r' => Some (f :: r')
           | None => None
           end
  end.

Definition updateFeedbackWithSuccess (e : ElementData) (css rating : string)
    (now : Z) (st : Storage) : Storage :=
  match updateFirst e css rating now (darkmode_feedback st) with
  | Some fs => {| darkmode_feedback := fs;
                  darkmode_patterns := darkmode_patterns st;
                  darkmode_success := darkmode_success st |}
  | None => st
  end.

(** [trackFixSuccess(elementData, appliedCSS, userRating)]; [href] is
    [window.location.href], [now] and [later] the two readings of
    [Date.now()]. *)
Definition trackFixSuccess (href : string) (now later : Z)
    (elementData : ElementData) (css rating : string) (st : Storage)
    : SuccessData * Storage :=
  let successData :=
    {| sd_elementData := elementData; sd_appliedCSS := css;
       sd_userRating := rating; sd_timestamp := now;
       sd_domain := extractDomain href;
       effectivenessScore := calculateEffectivenessScore rating |} in
  let successMetrics := (darkmode_success st ++ [successData])%list in
  let successMetrics :=
    if (500 <? List.length successMetrics)%nat
    then JS.slice_last 500 successMetrics else successMetrics in
  let st1 := {| darkmode_feedback := darkmode_feedback st;
                darkmode_patterns := darkmode_patterns st;
                darkmode_success := successMetrics |} in
  (successData, updateFeedbackWithSuccess elementData css rating later st1).

(** [calculateOverallConfidence]: the mean of the confidence values. *)
Definition calculateOverallConfidence (p : Patterns) : Q :=
  match confidence p with
  | [] => 0%Q
  | cs => (fold_left Qplus (map snd cs) 0%Q / inject_Z (Z.of_nat (List.length cs)))%Q
  end.

(** [generateLearningReport()].  When [analyzeFeedbackPatterns] returned
    [{}], [Object.values(patterns.commonProblems)] throws. *)
Definition generateLearningReport (st : Storage) : outcome Report * Storage :=
  let '(patterns, st') := analyzeFeedbackPatterns st in
  match patterns with
  | None => (Rejected, st')
  | Some p =>
      let successMetrics := darkmode_success st' in
      (Resolved
         {| totalFeedback :=
              fold_left (fun sum pr => (sum + p_count pr)%nat) (map snd (commonProblems p)) 0%nat;
            mostCommonProblems :=
              firstn 5 (JS.sort_desc (fun kv => p_count (snd kv)) (commonProblems p));
            topSuccessfulFixes :=
              firstn 10
                (JS.sort_by (fun a b => Qle_bool (snd b) (snd a))
                   (filter (fun kv => JS.Qgeb (snd kv) 0.5%Q) (confidence p)));
            domainSpecialization := List.length (JS.keys (websitePatterns p));
            overallSuccessRate :=
              if (0 <? List.length successMetrics)%nat then
                (inject_Z (Z.of_nat (List.length
                    (filter (fun m => JS.Qgeb (effectivenessScore m) 0.7%Q) successMetrics)))
                 / inject_Z (Z.of_nat (List.length successMetrics)))%Q
              else 0%Q;
            learningConfidence := calculateOverallConfidence p |},
       st')
  end.

End WithHost.

End Learning.

(** ** The popup script *)

Module Popup.

(** The arguments of [trackFixSuccess] in the popup. *)
Record ElementData := {
  tag : string;
  elementType : string;
  detectedIssues : list string;
  url : string;
  automated : bool;
  refinement : bool
}.

Record GeminiResponse := { cssPatch : string }.

(** An entry of the [darkmode_fix_tracking] list. *)
Record FixRecord := {
  element : string;
  fr_elementType : string;
  issues : list string;
  css : string;
  feedback : string;
  timestamp : Z;
  fr_url : string;
  automaticAnalysis : bool;
  userRefinement : bool;
  cssRulesCount : nat;
  successScore : Q
}.

Definition fixRecord (now : Z) (elementData : ElementData)
    (geminiResponse : GeminiResponse) (fb : string) : FixRecord :=
  {| element := tag elementData;
     fr_elementType := elementType elementData;
     issues := detectedIssues elementData;
     css := cssPatch geminiResponse;
     feedback := fb;
     timestamp := now;
     fr_url := url elementData;
     automaticAnalysis := automated elementData;
     userRefinement := refinement elementData;
     cssRulesCount :=
       List.length (filter (fun line => JS.includes line ":")
                           (JS.split "010"%char (cssPatch geminiResponse)));
     successScore :=
       if String.eqb fb "positive" then 1%Q
       else if String.eqb fb "partial" then 0.5%Q else 0%Q |}.

(** [trackFixSuccess(elementData, geminiResponse, feedback)] as a function
    of the stored [darkmode_fix_tracking] list: the list it stores, and the
    record it sends to the background page. *)
Definition trackFixSuccess (now : Z) (elementData : ElementData)
    (geminiResponse : GeminiResponse) (fb : string)
    (darkmode_fix_tracking : list FixRecord) : list FixRecord * FixRecord :=
  let r := fixRecord now elementData geminiResponse fb in
  let existingRecords := (darkmode_fix_tracking ++ [r])%list in
  let existingRecords :=
    if (100 <? List.length existingRecords)%nat
    then JS.splice_front (List.length existingRecords - 100) existingRecords
    else existingRecords in
  (existingRecords, r).

(** [generateAutoDescription(elementData)].  The table is an object
    literal: the model is for issue names that are not names every object
    inherits. *)
Definition issueDescriptions : JS.obj string :=
  [ ("light_background_dark_text",
     "light background with dark text needs dark mode conversion");
    ("transparent_background_dark_text",
     "transparent background with dark text may be invisible in dark mode");
    ("very_light_background", "very light background needs to be darkened");
    ("low_contrast", "poor contrast between text and background");
    ("low_opacity", "element has low opacity and may be hard to see");
    ("light_border", "light border color needs dark mode adjustment") ].

Definition generateAutoDescription (elementData : ElementData) : string :=
  let issues := detectedIssues elementData in
  let elementType :=
    if JS.truthy (elementType elementData) then elementType elementData else "element" in
  match issues with
  | [] =>
      "Auto-analysis of " ++ tag elementData ++ " " ++ elementType
      ++ " for potential dark mode improvements"
  | _ =>
      let descriptions :=
        JS.join ", "
          (map (fun issue => match JS.get issueDescriptions issue with
                             | Some text => if JS.truthy text then text else issue
                             | None => issue
                             end) issues) in
      "Auto-detected issues: " ++ descriptions
  end.

(** [tab && tab.url && (tab.url.startsWith('http') ||
    tab.url.startsWith('https'))]: the test of the toggle and of the
    report button; [None] is a missing tab or URL. *)
Definition isWebTab (url : option string) : bool :=
  match url with
  | Some u => JS.truthy u && (JS.startsWith u "http" || JS.startsWith u "https")
  | None => false
  end.

Definition getPageType (url : option string) : string :=
  match url with
  | None => "unknown"
  | Some u =>
      if negb (JS.truthy u) then "unknown"
      else if JS.startsWith u "chrome://" || JS.startsWith u "edge://"
              || JS.startsWith u "about:" then "browser"
      else if JS.startsWith u "chrome-extension://" || JS.startsWith u "moz-extension://"
      then "extension"
      else if JS.startsWith u "file://" then "file"
      else if JS.startsWith u "http://" || JS.startsWith u "https://" then "web"
      else "unknown"
  end.

Definition getUnsupportedPageMessage (pageType : string) : string :=
  if String.eqb pageType "browser" then "Dark mode cannot be applied to browser internal pages"
  else if String.eqb pageType "extension" then "Dark mode cannot be applied to extension pages"
  else if String.eqb pageType "file" then "Dark mode cannot be applied to local files"
  else if String.eqb pageType "unknown" then "This page type is not supported"
  else "Dark mode is not available for this page".

(** What the change handler of the toggle does with the active tab: it
    sends [TOGGLE_DARK_MODE], or it shows a notice and reverts the
    switch. *)
Inductive ToggleOutcome : Type :=
| SendToggle (enabled : bool)
| Revert (notice : string).

Definition onToggleChange (isEnabled : bool) (url : option string) : ToggleOutcome :=
  if isWebTab url then SendToggle isEnabled
  else Revert (getUnsupportedPageMessage (getPageType url)).

(** *** The CSV export *)

(** An entry of [darkmode_feedback] as [handleExportFeedback] reads it. *)
Record FeedbackRow := {
  row_tag : option string;
  row_classes : option (list string);
  row_url : option string;
  row_feedback : option string;
  row_timestamp : Z;
  row_fixed : bool
}.

Inductive Export : Type :=
| NoData
| Threw
| Download (csv : string).

Definition header : list string :=
  ["tag"; "classes"; "url"; "feedback"; "timestamp"; "fixed"].

(** [x || ''] *)
Definition orEmpty (o : option string) : string :=
  match o with Some s => s | None => "" end.

(** A field of the file: the text between two double quotes, with every
    double quote of its own written twice. *)
Definition quoted (x : string) : string :=
  JS.dq ++ JS.replaceAll "034"%char (JS.dq ++ JS.dq) x ++ JS.dq.

Section Csv.

(** [new Date(t).toISOString()]; [None] is the [RangeError] of a time
    value that is no date. *)
Variable toISOString : Z -> option string.

Definition exportRow (f : FeedbackRow) : option (list string) :=
  match toISOString (row_timestamp f) with
  | Some iso =>
      Some [ orEmpty (row_tag f);
             JS.join "|" (match row_classes f with Some cs => cs | None => [] end);
             orEmpty (row_url f);
             orEmpty (row_feedback f);
             iso;
             if row_fixed f then "true" else "false" ]
  | None => None
  end.

(** [arr.map(...)]: the rows, unless a time stamp makes it throw. *)
Fixpoint exportRows (arr : list FeedbackRow) : option (list (list string)) :=
  match arr with
  | [] => Some []
  | f :: rest =>
      match exportRow f, exportRows rest with
      | Some r, Some rs => Some (r :: rs)
      | _, _ => None
      end
  end.

Definition csvText (rows : list (list string)) : string :=
  JS.join "," header ++ JS.nl
  ++ JS.join JS.nl (map (fun r => JS.join "," (map quoted r)) rows).

(** [handleExportFeedback()] on the parsed [darkmode_feedback] list: the
    text of the file it offers. *)
Definition handleExportFeedback (arr : list FeedbackRow) : Export :=
  match arr with
  | [] => NoData
  | _ =>
      match exportRows arr with
      | Some rows => Download (csvText rows)
      | None => Threw
      end
  end.

End Csv.

(** *** The learning analytics *)

(** The numbers [renderAILearningAnalytics] shows. *)
Record LearningAnalytics := {
  successRate : Z;
  totalFixes : nat;
  avgConfidence : Z;
  topIssues : list string
}.

(** [renderAILearningAnalytics()] on the parsed [darkmode_fix_tracking]
    list; [None] is the notice that there is no data yet. *)
Definition renderAILearningAnalytics (fixTracking : list FixRecord)
    : option LearningAnalytics :=
  match fixTracking with
  | [] => None
  | _ =>
      let total := List.length fixTracking in
      let successfulFixes :=
        List.length (filter (fun r => JS.Qgtb (successScore r) 0.5%Q) fixTracking) in
      let issueTypes :=
        fold_left (fun freq record => fold_left Learning.bump (issues record) freq)
                  fixTracking [] in
      Some
        {| successRate :=
             JS.round ((inject_Z (Z.of_nat successfulFixes) / inject_Z (Z.of_nat total)) * 100)%Q;
           totalFixes := total;
           avgConfidence :=
             JS.round (fold_left (fun sum r => (sum + successScore r)%Q) fixTracking 0%Q
                       / inject_Z (Z.of_nat total) * 100)%Q;
           topIssues :=
             map (fun kv => JS.replaceAll "_" " " (fst kv) ++ " ("
                            ++ JS.nat_to_string (snd kv) ++ ")")
                 (firstn 3 (JS.sort_desc snd issueTypes)) |}
  end.

End Popup.

(** ** The backend proxy ([server/server.js]) *)

Module Server.

(** An entry of [feedback_log.json]. *)
Record Entry := {
  timestamp : Z;
  tag : option string;
  classes : option (list string);
  xpath : option string;
  description : option string;
  css : option string;
  patch : string
}.

(** [req.body.elementData] and [req.body.pageContext.domain]. *)
Record ElementData := {
  ed_tag : option string;
  ed_classes : option (list string)
}.

Record Selector := { count : nat; fixes : list string }.
Record Issue := { i_tag : option string; i_classes : option (list string); i_fix : string }.
Record DomainPattern := { issues : list Issue }.
Record Effectiveness := {
  totalAttempts : nat;
  successfulFixes : nat;
  effectivenessRatio : Q
}.

(** The fields of the object [analyzeHistoricalPatterns] builds that
    [generateSmartCSS] reads ([successfulCSSRules] and [temporalTrends] are
    written and never read by it). *)
Record Patterns := {
  commonSelectors : JS.obj Selector;
  domainSpecificPatterns : JS.obj DomainPattern;
  elementTypeEffectiveness : JS.obj Effectiveness
}.

Definition nonempty {A} (o : option (list A)) : option (list A) :=
  match o with
  | Some (x :: r) => Some (x :: r)
  | _ => None
  end.

Definition some_truthy (o : option string) : option string :=
  match o with
  | Some s => if JS.truthy s then Some s else None
  | None => None
  end.

Section WithHost.

(** [new URL(text).hostname]; [None] when the constructor throws. *)
Variable hostname : string -> option string.

(** One round of the [forEach] of [analyzeHistoricalPatterns]; [None] is
    the [TypeError] of [fixes.push] on a selector key that the object
    only inherits.  The model is for entries whose time stamp is a date,
    as those the proxy writes are: on another, [toISOString] throws in the
    step that counts the months, which is not among the fields below. *)
Definition analyzeEntry (p : Patterns) (e : Entry) : option Patterns :=
  let selectors :=
    match nonempty (classes e) with
    | Some cs =>
        let selectorKey := JS.join "." cs in
        match JS.get (commonSelectors p) selectorKey with
        | Some sel =>
            Some (JS.set (commonSelectors p) selectorKey
                    {| count := S (count sel);
                       fixes := if JS.truthy (patch e)
                                then (fixes sel ++ [patch e])%list else fixes sel |})
        | None =>
            if JS.inherited selectorKey then
              if JS.truthy (patch e) then None else Some (commonSelectors p)
            else
              Some (JS.set (commonSelectors p) selectorKey
                      {| count := 1;
                         fixes := if JS.truthy (patch e) then [patch e] else [] |})
        end
    | None => Some (commonSelectors p)
    end in
  let domains :=
    match hostname (match some_truthy (description e) with Some d => d | None => "" end) with
    | Some domain =>
        let issue := {| i_tag := tag e; i_classes := classes e; i_fix := patch e |} in
        match JS.get (domainSpecificPatterns p) domain with
        | Some d =>
            JS.set (domainSpecificPatterns p) domain
              {| issues := (issues d ++ [issue])%list |}
        | None =>
            if JS.inherited domain then domainSpecificPatterns p
            else JS.set (domainSpecificPatterns p) domain {| issues := [issue] |}
        end
    | None => domainSpecificPatterns p
    end in
  let effectiveness :=
    match some_truthy (tag e) with
    | Some t =>
        let success := (10 <? String.length (patch e))%nat in
        match JS.get (elementTypeEffectiveness p) t with
        | Some eff =>
            JS.set (elementTypeEffectiveness p) t
              {| totalAttempts := S (totalAttempts eff);
                 successfulFixes := if success then S (successfulFixes eff)
                                    else successfulFixes eff;
                 effectivenessRatio := effectivenessRatio eff |}
        | None =>
            if JS.inherited t then elementTypeEffectiveness p
            else JS.set (elementTypeEffectiveness p) t
                   {| totalAttempts := 1;
                      successfulFixes := if success then 1 else 0;
                      effectivenessRatio := 0%Q |}
        end
    | None => elementTypeEffectiveness p
    end in
  match selectors with
  | Some sels =>
      Some {| commonSelectors := sels;
              domainSpecificPatterns := domains;
              elementTypeEffectiveness := effectiveness |}
  | None => None
  end.

Fixpoint analyzeEntries (p : Patterns) (log : list Entry) : option Patterns :=
  match log with
  | [] => Some p
  | e :: r =>
      match analyzeEntry p e with
      | Some p' => analyzeEntries p' r
      | None => None
      end
  end.

(** The closing loop: [successfulFixes / totalAttempts], or 0. *)
Definition withRatio (eff : Effectiveness) : Effectiveness :=
  {| totalAttempts := totalAttempts eff;
     successfulFixes := successfulFixes eff;
     effectivenessRatio :=
       if (0 <? totalAttempts eff)%nat
       then (inject_Z (Z.of_nat (successfulFixes eff))
             / inject_Z (Z.of_nat (totalAttempts eff)))%Q
       else 0%Q |}.

Definition analyzeHistoricalPatterns (feedbackData : list Entry) : option Patterns :=
  match analyzeEntries {| commonSelectors := []; domainSpecificPatterns := [];
                          elementTypeEffectiveness := [] |} feedbackData with
  | Some p =>
      Some {| commonSelectors := commonSelectors p;
              domainSpecificPatterns := domainSpecificPatterns p;
              elementTypeEffectiveness :=
                map (fun kv => (fst kv, withRatio (snd kv))) (elementTypeEffectiveness p) |}
  | None => None
  end.

End WithHost.

(** [findMostFrequentFix]: the first of the fixes that occur most often;
    [None] is [null].  The fix texts are keys of an object: the model is
    for texts that are neither array indices nor names every object
    inherits. *)
Definition findMostFrequentFix (fs : list string) : option string :=
  match JS.sort_desc snd (fold_left Learning.bump fs []) with
  | [] => None
  | (f, _) :: _ => Some f
  end.

Definition rule_div (selector : string) : string :=
  selector ++ " { background-color: #222 !important; color: #e0e0e0 !important; border: 1px solid #444 !important; }".
Definition rule_nav (selector : string) : string :=
  selector ++ " { background-color: #1a1a1a !important; color: #ffffff !important; }".
Definition rule_button (selector : string) : string :=
  selector ++ " { background-color: #333 !important; color: #e0e0e0 !important; border: 1px solid #555 !important; }".
Definition rule_input (selector : string) : string :=
  selector ++ " { background-color: #2a2a2a !important; color: #e0e0e0 !important; border: 1px solid #555 !important; }".

(** [generateBasicDarkModeCSS]: the template table, keyed by the tag;
    [None] is the [TypeError] of reading [length] or [toLowerCase] of
    [undefined]. *)
Definition generateBasicDarkModeCSS (e : ElementData) : option (list string) :=
  match ed_classes e, ed_tag e with
  | Some cs, Some t =>
      let selector := match cs with
                      | [] => t
                      | _ => "." ++ JS.join "." cs
                      end in
      let lt := JS.toLowerCase t in
      Some
        (if String.eqb lt "div" || String.eqb lt "section" then
           if existsb (fun cls => JS.includes cls "menu" || JS.includes cls "dropdown") cs
           then [rule_div selector] else []
         else if String.eqb lt "nav" then [rule_nav selector]
         else if String.eqb lt "button" then [rule_button selector]
         else if String.eqb lt "input" then [rule_input selector]
         else [])
  | _, _ => None
  end.

(** [Math.round] of a non-negative ratio. *)
Definition round (x : Q) : Z := Qfloor (x + 0.5)%Q.

Record SmartCSS := {
  rules : string;
  confidence : Q;
  reasoning : list string
}.

(** The state of [generateSmartCSS] after its three pattern checks. *)
Record Evidence := {
  ev_confidence : Q;
  ev_rules : list string;
  ev_reasoning : list string
}.

(** First check: an exact class match seen at least three times. *)
Definition classEvidence (e : ElementData) (p : Patterns) : Evidence :=
  let none := {| ev_confidence := 0%Q; ev_rules := []; ev_reasoning := [] |} in
  match nonempty (ed_classes e) with
  | Some cs =>
      let classKey := JS.join "." cs in
      match JS.get (commonSelectors p) classKey with
      | Some sel =>
          if (3 <=? count sel)%nat then
            match some_truthy (findMostFrequentFix (fixes sel)) with
            | Some mostCommonFix =>
                {| ev_confidence := (0 + 0.8)%Q;
                   ev_rules := [mostCommonFix];
                   ev_reasoning :=
                     ["Based on " ++ JS.nat_to_string (List.length (fixes sel))
                      ++ " successful fixes for similar elements"] |}
            | None => none
            end
          else none
      | None => none
      end
  | None => none
  end.

(** Second check: the success rate of the element type. *)
Definition tagEvidence (e : ElementData) (p : Patterns) (ev : Evidence) : Evidence :=
  match some_truthy (ed_tag e) with
  | Some t =>
      match JS.get (elementTypeEffectiveness p) t with
      | Some effectiveness =>
          if JS.Qgtb (effectivenessRatio effectiveness) 0.7%Q then
            {| ev_confidence := (ev_confidence ev + 0.3)%Q;
               ev_rules := ev_rules ev;
               ev_reasoning :=
                 app (ev_reasoning ev)
                   [t ++ " elements have "
                    ++ JS.nat_to_string (Z.to_nat (round (effectivenessRatio effectiveness * 100)%Q))
                    ++ "% fix success rate"] |}
          else ev
      | None => ev
      end
  | None => ev
  end.

(** Third check: the issues seen on the page's domain; [None] is the
    [TypeError] of reading [issues.length] of an inherited property. *)
Definition domainEvidence (domain : option string) (p : Patterns) (ev : Evidence)
    : option Evidence :=
  match some_truthy domain with
  | Some d =>
      match JS.get (domainSpecificPatterns p) d with
      | Some domainPattern =>
          if (2 <=? List.length (issues domainPattern))%nat then
            Some {| ev_confidence := (ev_confidence ev + 0.2)%Q;
                    ev_rules := ev_rules ev;
                    ev_reasoning :=
                      app (ev_reasoning ev)
                        ["Found " ++ JS.nat_to_string (List.length (issues domainPattern))
                         ++ " similar issues on this domain"] |}
          else Some ev
      | None => if JS.inherited d then None else Some ev
      end
  | None => Some ev
  end.

(** [generateSmartCSS(elementData, pageContext, patterns)]; [None] when it
    throws. *)
Definition generateSmartCSS (e : ElementData) (domain : option string) (p : Patterns)
    : option SmartCSS :=
  match domainEvidence domain p (tagEvidence e p (classEvidence e p)) with
  | Some ev =>
      let finish rs why :=
        Some {| rules := JS.join JS.nl rs;
                confidence := Qmin (ev_confidence ev) 1%Q;
                reasoning := why |} in
      match ev_rules ev with
      | [] =>
          if JS.Qgtb (ev_confidence ev) 0.3%Q then
            match generateBasicDarkModeCSS e with
            | Some rs =>
                finish rs (app (ev_reasoning ev)
                             ["Generated basic dark mode CSS based on element type"])
            | None => None
            end
          else finish [] (ev_reasoning ev)
      | rs => finish rs (ev_reasoning ev)
      end
  | None => None
  end.

(** The answers of [POST /api/smart-css-generation]. *)
Inductive Response : Type :=
| PatternBased (css : string) (confidence : Q) (reasoning : list string)
| FallbackToGemini
| ServerError.

Definition respond (smartCSS : option SmartCSS) : Response :=
  match smartCSS with
  | Some r =>
      if JS.Qgtb (confidence r) 0.6%Q
      then PatternBased (rules r) (confidence r) (reasoning r)
      else FallbackToGemini
  | None => ServerError
  end.

(** The handler of [POST /api/smart-css-generation] on the parsed log. *)
Definition smartCssGeneration (hostname : string -> option string)
    (log : list Entry) (e : ElementData) (domain : option string) : Response :=
  match analyzeHistoricalPatterns hostname log with
  | Some patterns => respond (generateSmartCSS e domain patterns)
  | None => ServerError
  end.

(** [extractCSSRules(css)] of the server: the pieces between closing
    braces, trimmed; those of more than five characters, each with its
    brace put back.  [None] is a value that is no string. *)
Definition extractCSSRules (css : option string) : list string :=
  match some_truthy css with
  | None => []
  | Some text =>
      map (fun rule => rule ++ "}")
        (filter (fun rule => (5 <? String.length rule)%nat)
           (map JS.trim (JS.split "}" text)))
  end.

(** *** The proxy endpoint [POST /api/gemini] *)

(** [req.body], with the fields the handler reads. *)
Record GeminiRequest := {
  rq_css : option string;
  rq_tag : option string;
  rq_classes : option (list string);
  rq_xpath : option string;
  rq_description : option string
}.

(** A value inside a template literal; a missing one prints as
    [undefined]. *)
Definition shown (o : option string) : string :=
  match o with Some s => s | None => "undefined" end.

(** The prompt the handler sends. *)
Definition promptOf (body : GeminiRequest) : string :=
  let isGeneralPrompt :=
    match rq_css body with
    | Some c => String.eqb c "N/A" || negb (JS.truthy c)
    | None => true
    end in
  let mainPrompt :=
    match some_truthy (rq_description body) with
    | Some text => text
    | None => "Generate dark mode CSS fixes"
    end in
  if isGeneralPrompt then mainPrompt
  else
    "You are an expert front-end web developer specializing in accessible, high-contrast dark mode themes."
    ++ JS.nl ++ "--- CSS START ---" ++ JS.nl ++ shown (rq_css body) ++ JS.nl
    ++ "--- CSS END ---" ++ JS.nl
    ++ "User has reported an issue with the following element:" ++ JS.nl
    ++ "Tag: " ++ shown (rq_tag body) ++ JS.nl
    ++ "Classes: " ++ match rq_classes body with
                      | Some cs => JS.join ", " cs
                      | None => ""
                      end ++ JS.nl
    ++ "XPath: " ++ shown (rq_xpath body) ++ JS.nl
    ++ "Description: " ++ shown (rq_description body) ++ JS.nl
    ++ "Your task: Analyze the user's feedback and the element context, then generate a CSS patch that fixes the reported issue."
    ++ JS.nl
    ++ "IMPORTANT: Never use 'transparent' or 'rgba(0,0,0,0)' for any menu, overlay, or popup background. Always set a solid dark color (e.g., #222 or #121212) for menu backgrounds. Output ONLY a valid JSON object matching this schema: { "
    ++ JS.dq ++ "darkModeCss" ++ JS.dq ++ ": " ++ JS.dq
    ++ "<all generated CSS rules as a string>" ++ JS.dq ++ " }.".

(** The file [feedback_log.json] as the handler finds it: absent, not
    JSON, JSON that is no array, or the stored list. *)
Inductive LogFile : Type :=
| Missing
| Malformed
| NotAnArray
| Stored (log : list Entry).

Section Proxy.

(** What the remote generator answers, and its field [darkModeCss]. *)
Variable Data : Type.
Variable darkModeCss : Data -> option string.

Inductive ProxyResponse : Type :=
| Status500 (error : string)
| Status200 (data : Data).

(** [feedbackEntry] *)
Definition feedbackEntry (now : Z) (body : GeminiRequest) (geminiData : Data) : Entry :=
  {| timestamp := now;
     tag := rq_tag body; classes := rq_classes body; xpath := rq_xpath body;
     description := rq_description body; css := rq_css body;
     patch := match some_truthy (darkModeCss geminiData) with
              | Some text => text
              | None => ""
              end |}.

(** The handler.  [apiKey] is [process.env.GEMINI_API_KEY]; [gemini] is
    the call of the remote generator on a prompt, [None] when the request
    fails, is answered with an error status or with a body that is no
    JSON; [now] is [Date.now()]; [writable] tells whether [writeFileSync]
    succeeds.  The result is the answer and the file afterwards. *)
Definition geminiProxy (apiKey : option string) (gemini : string -> option Data)
    (now : Z) (writable : bool) (body : GeminiRequest) (file : LogFile)
    : ProxyResponse * LogFile :=
  match some_truthy apiKey with
  | None => (Status500 "API key not configured.", file)
  | Some _ =>
      match gemini (promptOf body) with
      | None => (Status500 "Failed to process request with Gemini API.", file)
      | Some geminiData =>
          let entry := feedbackEntry now body geminiData in
          let answer (log : list Entry) :=
            (Status200 geminiData,
             if writable then Stored (log ++ [entry])%list else file) in
          match file with
          | Missing => answer []
          | Malformed => answer []
          | NotAnArray => (Status500 "Failed to process request with Gemini API.", file)
          | Stored log => answer log
          end
      end
  end.

End Proxy.

Arguments Status500 {Data} error.
Arguments Status200 {Data} data.

(** The two endpoints that read the log, on the file: a file that is no
    JSON makes them answer with status 500, as does a value [forEach]
    cannot run on. *)
Definition smartCssGenerationOn (hostname : string -> option string)
    (file : LogFile) (e : ElementData) (domain : option string) : Response :=
  match file with
  | Missing => smartCssGeneration hostname [] e domain
  | Stored log => smartCssGeneration hostname log e domain
  | Malformed | NotAnArray => ServerError
  end.

End Server.

(** ** The part of the document the scripts write to *)

Module Dom.

(** A [style] element with the attributes the scripts set. *)
Record StyleElement := {
  id : string;
  textContent : string;
  data_darkmode_patch : option Z;
  data_source : option string;
  data_element_info : option string
}.

(** The class list of [document.documentElement] and the children of
    [document.head]. *)
Record Document := {
  classList : list string;
  head : list StyleElement
}.

(** [classList.add(c)] *)
Definition classList_add (c : string) (d : Document) : Document :=
  {| classList := if existsb (String.eqb c) (classList d) then classList d
                  else (classList d ++ [c])%list;
     head := head d |}.

(** [classList.remove(c)] *)
Definition classList_remove (c : string) (d : Document) : Document :=
  {| classList := filter (fun x => negb (String.eqb c x)) (classList d);
     head := head d |}.

Definition classList_contains (c : string) (d : Document) : bool :=
  existsb (String.eqb c) (classList d).

(** [document.head.appendChild(style)] *)
Definition appendChild (e : StyleElement) (d : Document) : Document :=
  {| classList := classList d; head := (head d ++ [e])%list |}.

Fixpoint removeFirst (i : string) (l : list StyleElement) : list StyleElement :=
  match l with
  | [] => []
  | e :: rest => if String.eqb (id e) i then rest else e :: removeFirst i rest
  end.

(** [document.getElementById(i)] followed by [remove()] on what it
    found: the first element with that id leaves the document. *)
Definition removeById (i : string) (d : Document) : Document :=
  {| classList := classList d; head := removeFirst i (head d) |}.

(** [document.querySelectorAll('style[data-darkmode-patch]')] *)
Definition patches (d : Document) : list StyleElement :=
  filter (fun e => match data_darkmode_patch e with Some _ => true | None => false end)
         (head d).

(** The style blocks with a given rule text. *)
Definition blocksWith (css : string) (d : Document) : list StyleElement :=
  filter (fun e => String.eqb (textContent e) css) (head d).

End Dom.

(** ** The content script ([content.js]) *)

Module Content.

(** *** Colours *)

Record Color := { r : Z; g : Z; b : Z; alpha : JS.number }.

Definition skipSpaces (s : string) : string := snd (JS.span JS.is_space s).

Definition is_alpha_char (c : ascii) : bool := JS.is_digit c || (JS.code c =? 46)%nat.

(** What is left of [s] after the character [c], when [s] starts with it. *)
Definition expect (c : ascii) (s : string) : option string :=
  match s with
  | String d r => if Ascii.eqb d c then Some r else None
  | EmptyString => None
  end.

(** [(\d+)] followed by the text [k] matches: a non-empty maximal run of
    digits. *)
Definition digits1 (s : string) : option (string * string) :=
  let '(ds, r) := JS.span JS.is_digit s in
  if JS.truthy ds then Some (ds, r) else None.

(** The tail of the pattern after the third channel:
    [(?:,\s*([\d.]+))?\)]. *)
Definition alphaPart (s : string) : option (option string) :=
  match s with
  | String ")" _ => Some None
  | String "," r =>
      let '(a, r') := JS.span is_alpha_char (skipSpaces r) in
      if JS.truthy a then
        match r' with
        | String ")" _ => Some (Some a)
        | _ => None
        end
      else None
  | _ => None
  end.

(** [\((\d+),\s*(\d+),\s*(\d+)(?:,\s*([\d.]+))?\)] at the start of [s];
    the groups 1 to 4. *)
Definition channels (s : string) : option (string * string * string * option string) :=
  match expect "(" s with
  | Some s1 =>
      match digits1 s1 with
      | Some (d1, s2) =>
          match expect "," s2 with
          | Some s3 =>
              match digits1 (skipSpaces s3) with
              | Some (d2, s4) =>
                  match expect "," s4 with
                  | Some s5 =>
                      match digits1 (skipSpaces s5) with
                      | Some (d3, s6) =>
                          match alphaPart s6 with
                          | Some a => Some (d1, d2, d3, a)
                          | None => None
                          end
                      | None => None
                      end
                  | None => None
                  end
              | None => None
              end
          | None => None
          end
      | None => None
      end
  | None => None
  end.

(** The pattern at the start of [s]: [rgb], then [a?], then the rest; the
    optional [a] is tried first. *)
Definition rgbaHere (s : string) : option (string * string * string * option string) :=
  if prefix "rgb" s then
    let rest := JS.drop 3 s in
    match expect "a" rest with
    | Some rest' =>
        match channels rest' with
        | Some m => Some m
        | None => channels rest
        end
    | None => channels rest
    end
  else None.

(** [colorStr.match(/rgba?\((\d+),\s*(\d+),\s*(\d+)(?:,\s*([\d.]+))?\)/)]:
    the leftmost match. *)
Fixpoint rgbaMatch (s : string) : option (string * string * string * option string) :=
  match rgbaHere s with
  | Some m => Some m
  | None =>
      match s with
      | String _ rest => rgbaMatch rest
      | EmptyString => None
      end
  end.

Fixpoint all_hex (s : string) : bool :=
  match s with
  | EmptyString => true
  | String c rest => JS.is_hex c && all_hex rest
  end.

(** [colorStr.match(/^#([a-f\d]{3}|[a-f\d]{6})$/i)]: group 1. *)
Definition hexMatch (s : string) : option string :=
  match s with
  | String "#" h =>
      if all_hex h && ((String.length h =? 3)%nat || (String.length h =? 6)%nat)
      then Some h else None
  | _ => None
  end.

Definition twice (c : ascii) : string := String c (String c EmptyString).

(** [parseColor(colorStr)]; [None] is [null] or [undefined]. *)
Definition parseColor (colorStr : option string) : Color :=
  match colorStr with
  | None => {| r := 0; g := 0; b := 0; alpha := JS.Num 0 |}
  | Some s =>
      if negb (JS.truthy s) || String.eqb s "transparent" then
        {| r := 0; g := 0; b := 0; alpha := JS.Num 0 |}
      else
        match rgbaMatch s with
        | Some (m1, m2, m3, m4) =>
            {| r := JS.parseInt m1; g := JS.parseInt m2; b := JS.parseInt m3;
               alpha := match m4 with
                        | Some a => JS.parseFloat a
                        | None => JS.Num 1
                        end |}
        | None =>
            match hexMatch s with
            | Some hex =>
                match hex with
                | String h0 (String h1 (String h2 EmptyString)) =>
                    {| r := JS.parseInt16 (twice h0);
                       g := JS.parseInt16 (twice h1);
                       b := JS.parseInt16 (twice h2);
                       alpha := JS.Num 1 |}
                | _ =>
                    {| r := JS.parseInt16 (JS.slice 0 2 hex);
                       g := JS.parseInt16 (JS.slice 2 4 hex);
                       b := JS.parseInt16 (JS.slice 4 6 hex);
                       alpha := JS.Num 1 |}
                end
            | None => {| r := 0; g := 0; b := 0; alpha := JS.Num 1 |}
            end
        end
  end.

Definition brightness (c : Color) : Q :=
  (inject_Z (r c * 299 + g c * 587 + b c * 114) / 1000)%Q.

Definition isLightColor (c : Color) : bool :=
  if JS.num_is_zero (alpha c) then false else JS.Qgtb (brightness c) 128%Q.

Definition isDarkColor (c : Color) : bool :=
  if JS.num_is_zero (alpha c) then false else JS.Qltb (brightness c) 128%Q.

Section WithPow.

(** [Math.pow] *)
Variable pow : Q -> Q -> Q.

(** The transfer function of sRGB, on a channel scaled to [0, 1]. *)
Definition linearize (c : Q) : Q :=
  if Qle_bool c 0.03928%Q then (c / 12.92)%Q
  else pow ((c + 0.055) / 1.055)%Q 2.4%Q.

Definition luminanceOf (rc gc bc : Q) : Q :=
  (0.2126 * linearize (rc / 255) + 0.7152 * linearize (gc / 255)
   + 0.0722 * linearize (bc / 255))%Q.

Definition getLuminance (c : Color) : Q :=
  luminanceOf (inject_Z (r c)) (inject_Z (g c)) (inject_Z (b c)).

Definition contrastOf (l1 l2 : Q) : Q :=
  ((Qmax l1 l2 + 0.05) / (Qmin l1 l2 + 0.05))%Q.

Definition calculateContrast (color1 color2 : Color) : Q :=
  contrastOf (getLuminance color1) (getLuminance color2).

(** *** The issues of a selected element *)

(** The properties of [computedStyle] that [detectDarkModeIssues] reads,
    with the element's text. *)
Record ComputedStyle := {
  backgroundColor : string;
  color : string;
  opacity : string;
  borderColor : string;
  borderStyle : string;
  visibility : string
}.

Definition detectDarkModeIssues (textContent : string) (cs : ComputedStyle) : list string :=
  let bgColor := parseColor (Some (backgroundColor cs)) in
  let textColor := parseColor (Some (color cs)) in
  let borderCol := parseColor (Some (borderColor cs)) in
  (if isLightColor bgColor && isDarkColor textColor
   then ["light_background_dark_text"] else [])
  ++ (if JS.num_is_zero (alpha bgColor) && isDarkColor textColor
      then ["transparent_background_dark_text"] else [])
  ++ (if (240 <? r bgColor)%Z && (240 <? g bgColor)%Z && (240 <? b bgColor)%Z
      then ["very_light_background"] else [])
  ++ (if negb (r textColor =? 0)%Z || negb (g textColor =? 0)%Z || negb (b textColor =? 0)%Z
      then if JS.Qltb (calculateContrast bgColor textColor) 3%Q
           then ["low_contrast"] else []
      else [])
  ++ (if negb (String.eqb (opacity cs) "1") && JS.num_ltb (JS.parseFloat (opacity cs)) 0.5%Q
      then ["low_opacity"] else [])
  ++ (if isLightColor borderCol && negb (String.eqb (borderStyle cs) "none")
      then ["light_border"] else []).

(** *** The page analysis *)

(** [getColorLuminance(color)]; [None] is [NaN]. *)
Definition getColorLuminance (col : string) : option Q :=
  if negb (JS.truthy col) || String.eqb col "transparent" then Some 0%Q
  else if JS.startsWith col "rgb" then
    match JS.digitRuns col EmptyString with
    | m0 :: m1 :: m2 :: _ =>
        Some (luminanceOf (inject_Z (JS.parseInt m0)) (inject_Z (JS.parseInt m1))
                          (inject_Z (JS.parseInt m2)))
    | _ => Some 0.5%Q
    end
  else if JS.startsWith col "#" then
    let hex := JS.drop 1 col in
    match JS.parseIntHex (JS.slice 0 2 hex), JS.parseIntHex (JS.slice 2 4 hex),
          JS.parseIntHex (JS.slice 4 6 hex) with
    | Some rc, Some gc, Some bc =>
        Some (luminanceOf (inject_Z rc) (inject_Z gc) (inject_Z bc))
    | _, _, _ => None
    end
  else Some 0.5%Q.

Definition haspoorContrast (bgColor textColor : string) : bool :=
  match getColorLuminance bgColor, getColorLuminance textColor with
  | Some bgLuminance, Some textLuminance =>
      JS.Qltb (contrastOf bgLuminance textLuminance) 3%Q
  | _, _ => false
  end.

(** An element the page analysis visits, with its computed colours. *)
Record Element := {
  tagName : string;
  id : string;
  classList : list string;
  el_backgroundColor : string;
  el_color : string
}.

Definition getElementSelector (e : Element) : string :=
  if JS.truthy (id e) then "#" ++ id e
  else
    match firstn 3 (classList e) with
    | [] => JS.toLowerCase (tagName e)
    | cs => JS.toLowerCase (tagName e) ++ "." ++ JS.join "." cs
    end.

Record PageIssue := {
  selector : string;
  issue : string;
  pi_tag : string;
  pi_classes : list string;
  currentBg : string;
  currentColor : string
}.

Definition issueOf (e : Element) (kind : string) : PageIssue :=
  {| selector := getElementSelector e; issue := kind;
     pi_tag := JS.toLowerCase (tagName e); pi_classes := classList e;
     currentBg := el_backgroundColor e; currentColor := el_color e |}.


End WithPow.

(** *** The message listener *)

(** The message [inject-darkmode-css]; [elementInfo] is the JSON text of
    the field. *)
Record InjectMessage := {
  css : string;
  source : option string;
  elementInfo : option string;
  elementData : option Learning.ElementData
}.

Inductive Message : Type :=
| TOGGLE_DARK_MODE (enabled : bool)
| inject_darkmode_css (m : InjectMessage).

Inductive Response : Type :=
| Ok
| Applied (patchId : Z) (elementInfo : option string).

(** What the listener works on: the document and [localStorage]. *)
Record Page := {
  document : Dom.Document;
  storage : Learning.Storage
}.

(** The case [TOGGLE_DARK_MODE]. *)
Definition toggleDarkMode (enabled : bool) (pg : Page) : Response * Page :=
  (Ok,
   {| document := if enabled
                  then Dom.classList_add "universal-dark-mode" (document pg)
                  else Dom.classList_remove "universal-dark-mode" (document pg);
      storage := storage pg |}).

(** The case [inject-darkmode-css].  [aiLearning] tells whether the
    engine was constructed; [now k] is the [k]-th reading of [Date.now()]
    during the call. *)
Definition injectDarkmodeCss (hostname : string -> option string) (href : string)
    (aiLearning : bool) (now : nat -> Z) (m : InjectMessage) (pg : Page)
    : Response * Page :=
  let style :=
    {| Dom.id := "";
       Dom.textContent := css m;
       Dom.data_darkmode_patch := Some (now 0);
       Dom.data_source := Some (match Server.some_truthy (source m) with
                                | Some src => src
                                | None => "gemini"
                                end);
       Dom.data_element_info := Some (match elementInfo m with
                                      | Some info => info
                                      | None => "{}"
                                      end) |} in
  let doc := Dom.appendChild style (document pg) in
  let st :=
    match aiLearning, elementData m with
    | true, Some ed =>
        snd (Learning.trackFixSuccess hostname href (now 1) (now 2) ed (css m)
               "applied" (storage pg))
    | _, _ => storage pg
    end in
  (Applied (now 3) (elementInfo m), {| document := doc; storage := st |}).

(** The listener, on the two messages above. *)
Definition onMessage (hostname : string -> option string) (href : string)
    (aiLearning : bool) (now : nat -> Z) (msg : Message) (pg : Page)
    : Response * Page :=
  match msg with
  | TOGGLE_DARK_MODE enabled => toggleDarkMode enabled pg
  | inject_darkmode_css m => injectDarkmodeCss hostname href aiLearning now m pg
  end.

(** [fixesApplied] of [getCurrentDarkModeStatus] *)
Definition fixesApplied (pg : Page) : nat := List.length (Dom.patches (document pg)).

(** *** Reports and ratings *)

(** The message [SUBMIT_DARKMODE_FEEDBACK]. *)
Record FeedbackMessage := {
  fm_tag : string;
  fm_classes : list string;
  fm_xpath : string;
  fm_description : string
}.

(** [feedbackData] of the case [SUBMIT_DARKMODE_FEEDBACK]. *)
Definition feedbackData (href : string) (now : Z) (m : FeedbackMessage) : Learning.Feedback :=
  {| Learning.tag := fm_tag m; Learning.classes := fm_classes m;
     Learning.xpath := fm_xpath m; Learning.description := fm_description m;
     Learning.url := href; Learning.timestamp := now; Learning.fixed := false;
     Learning.appliedCSS := None; Learning.userRating := None;
     Learning.lastUpdated := None |}.

(** The case [SUBMIT_DARKMODE_FEEDBACK]: the entry goes to the end of the
    stored list. *)
Definition submitDarkmodeFeedback (href : string) (now : Z) (m : FeedbackMessage)
    (pg : Page) : Page :=
  {| document := document pg;
     storage :=
       {| Learning.darkmode_feedback :=
            (Learning.darkmode_feedback (storage pg) ++ [feedbackData href now m])%list;
          Learning.darkmode_patterns := Learning.darkmode_patterns (storage pg);
          Learning.darkmode_success := Learning.darkmode_success (storage pg) |} |}.

Inductive RateResponse : Type :=
| Tracked
| NotAvailable.

(** The case [RATE_AI_FIX]; [now] and [later] are the two readings of
    [Date.now()] in [trackFixSuccess]. *)
Definition rateAiFix (hostname : string -> option string) (href : string)
    (aiLearning : bool) (now later : Z)
    (elementData : option Learning.ElementData) (appliedCSS : option string)
    (rating : string) (pg : Page) : RateResponse * Page :=
  match aiLearning, elementData, Server.some_truthy appliedCSS with
  | true, Some ed, Some applied =>
      (Tracked,
       {| document := document pg;
          storage := snd (Learning.trackFixSuccess hostname href now later ed applied
                            rating (storage pg)) |})
  | _, _, _ => (NotAvailable, pg)
  end.

(** *** The data of a selected element *)

(** [tag.match(/^h[1-6]$/)] *)
Definition isHeading (tag : string) : bool :=
  match tag with
  | String "h" (String c EmptyString) => (49 <=? JS.code c)%nat && (JS.code c <=? 54)%nat
  | _ => false
  end.

(** [detectElementType(element)], on the tag name and the class list. *)
Definition detectElementType (tagName : string) (classList : list string) : string :=
  let tag := JS.toLowerCase tagName in
  let classes := JS.toLowerCase (JS.join " " classList) in
  if String.eqb tag "button" || JS.includes classes "btn" || JS.includes classes "button"
  then "button"
  else if String.eqb tag "nav" || JS.includes classes "nav" || JS.includes classes "menu"
  then "navigation"
  else if isHeading tag || JS.includes classes "header" || JS.includes classes "title"
  then "header"
  else if existsb (String.eqb tag) ["input"; "textarea"; "select"; "form"]
  then "form"
  else if String.eqb tag "a" then "link"
  else if JS.includes classes "content" || JS.includes classes "article"
          || String.eqb tag "article"
  then "content"
  else if JS.includes classes "sidebar" || JS.includes classes "aside"
          || String.eqb tag "aside"
  then "sidebar"
  else if JS.includes classes "card" || JS.includes classes "container"
          || JS.includes classes "box"
  then "container"
  else "generic".

(** The element the user clicked, with what [getComprehensiveElementData]
    computes from. *)
Record Selected := {
  sel_tagName : string;
  sel_classList : list string;
  sel_id : string;
  sel_innerHTML : string;
  sel_textContent : string;
  sel_style : ComputedStyle
}.

(** The fields of the result that are computed; the others are copies of
    properties of the element, of its style and of its parent. *)
Record ElementReport := {
  er_tag : string;
  er_classes : list string;
  er_id : string;
  er_innerHTML : string;
  er_textContent : string;
  er_hasText : bool;
  er_elementType : string;
  er_detectedIssues : list string
}.

Definition getComprehensiveElementData (pow : Q -> Q -> Q) (element : Selected)
    : ElementReport :=
  let innerHTML := sel_innerHTML element in
  let innerHTML :=
    if (500 <? String.length innerHTML)%nat
    then JS.slice 0 500 innerHTML ++ "... [truncated]" else innerHTML in
  let hasText :=
    JS.truthy (sel_textContent element)
    && (0 <? String.length (JS.trim (sel_textContent element)))%nat in
  {| er_tag := sel_tagName element;
     er_classes := sel_classList element;
     er_id := sel_id element;
     er_innerHTML := innerHTML;
     er_textContent :=
       if hasText then JS.slice 0 200 (JS.trim (sel_textContent element)) else "";
     er_hasText := hasText;
     er_elementType := detectElementType (sel_tagName element) (sel_classList element);
     er_detectedIssues :=
       detectDarkModeIssues pow (sel_textContent element) (sel_style element) |}.

(** *** The analysis of the page *)

Definition problematicSelectors : list string :=
  [ "[style*=" ++ JS.dq ++ "background:transparent" ++ JS.dq ++ "]";
    "[style*=" ++ JS.dq ++ "background: transparent" ++ JS.dq ++ "]";
    "[style*=" ++ JS.dq ++ "background-color:transparent" ++ JS.dq ++ "]";
    "[style*=" ++ JS.dq ++ "background-color: transparent" ++ JS.dq ++ "]";
    ".menu"; ".dropdown"; ".popup"; ".modal"; ".overlay";
    "[class*=" ++ JS.dq ++ "menu" ++ JS.dq ++ "]";
    "[class*=" ++ JS.dq ++ "dropdown" ++ JS.dq ++ "]";
    "[class*=" ++ JS.dq ++ "popup" ++ JS.dq ++ "]";
    "[class*=" ++ JS.dq ++ "modal" ++ JS.dq ++ "]";
    "[class*=" ++ JS.dq ++ "overlay" ++ JS.dq ++ "]" ].

Record Analysis := {
  hasTransparentMenus : nat;
  darkModeIssues : list PageIssue;
  totalElements : nat;
  problemElements : nat
}.

(** An entry of the list [findDarkModeIssues] returns. *)
Record Finding := {
  fi_issue : PageIssue;
  fi_problems : list string;
  fi_backgroundColor : string;
  fi_color : string
}.

Record Status := {
  darkModeEnabled : bool;
  problemsFound : nat;
  st_fixesApplied : nat;
  st_confidence : Z
}.

Record Verification := {
  remainingIssues : nat;
  appliedPatches : nat;
  isWorkingWell : bool;
  ve_confidence : Z
}.

Section WithPage.

Variable pow : Q -> Q -> Q.

(** [document.querySelectorAll(selector)], with the computed colours of
    each element found. *)
Variable querySelectorAll : string -> list Element.

(** The body of the inner [forEach] of [analyzePageForDarkMode]. *)
Definition analyzeElement (analysis : Analysis) (element : Element) : Analysis :=
  let bgColor := el_backgroundColor element in
  let analysis :=
    if String.eqb bgColor "transparent" || String.eqb bgColor "rgba(0, 0, 0, 0)"
       || (JS.includes bgColor "rgba" && JS.includes bgColor "0)")
    then {| hasTransparentMenus := S (hasTransparentMenus analysis);
            darkModeIssues :=
              (darkModeIssues analysis ++ [issueOf element "transparent_background"])%list;
            totalElements := totalElements analysis;
            problemElements := problemElements analysis |}
    else analysis in
  if haspoorContrast pow bgColor (el_color element)
  then {| hasTransparentMenus := hasTransparentMenus analysis;
          darkModeIssues :=
            (darkModeIssues analysis ++ [issueOf element "poor_contrast"])%list;
          totalElements := totalElements analysis;
          problemElements := problemElements analysis |}
  else analysis.

(** The body of the outer [forEach]. *)
Definition analyzeSelector (analysis : Analysis) (selector : string) : Analysis :=
  let elements := querySelectorAll selector in
  let analysis := fold_left analyzeElement elements analysis in
  {| hasTransparentMenus := hasTransparentMenus analysis;
     darkModeIssues := darkModeIssues analysis;
     totalElements := (totalElements analysis + List.length elements)%nat;
     problemElements := problemElements analysis |}.

Definition analyzePageForDarkMode : Analysis :=
  let analysis :=
    fold_left analyzeSelector problematicSelectors
      {| hasTransparentMenus := 0; darkModeIssues := [];
         totalElements := 0; problemElements := 0 |} in
  {| hasTransparentMenus := hasTransparentMenus analysis;
     darkModeIssues := darkModeIssues analysis;
     totalElements := totalElements analysis;
     problemElements := List.length (darkModeIssues analysis) |}.

Definition getCurrentDarkModeStatus (pg : Page) : Status :=
  let analysis := analyzePageForDarkMode in
  {| darkModeEnabled := Dom.classList_contains "universal-dark-mode" (document pg);
     problemsFound := problemElements analysis;
     st_fixesApplied := List.length (Dom.patches (document pg));
     st_confidence :=
       if (problemElements analysis =? 0)%nat then 100%Z
       else Z.max 20 (100 - Z.of_nat (problemElements analysis) * 10) |}.

Definition findDarkModeIssues : list Finding :=
  map (fun found => {| fi_issue := found;
                       fi_problems := [issue found];
                       fi_backgroundColor := currentBg found;
                       fi_color := currentColor found |})
      (darkModeIssues analyzePageForDarkMode).

Definition verifyDarkModeFixes (pg : Page) : Verification :=
  let analysis := analyzePageForDarkMode in
  {| remainingIssues := problemElements analysis;
     appliedPatches := List.length (Dom.patches (document pg));
     isWorkingWell := (problemElements analysis <? 3)%nat;
     ve_confidence :=
       if (problemElements analysis =? 0)%nat then 100%Z
       else Z.max 30 (100 - Z.of_nat (problemElements analysis) * 15) |}.

End WithPage.

End Content.

(** ** The content script that adds the dark class *)

Module AddDarkClass.

Definition patchId : string := "gemini-auto-dark-mode-styles".

(** [injectGeminiCssPatch(css)] *)
Definition injectGeminiCssPatch (css : string) (d : Dom.Document) : Dom.Document :=
  if negb (JS.truthy css) then d
  else
    Dom.appendChild
      {| Dom.id := patchId; Dom.textContent := css;
         Dom.data_darkmode_patch := None; Dom.data_source := None;
         Dom.data_element_info := None |}
      (Dom.removeById patchId d).

(** [removeGeminiCssPatch()] *)
Definition removeGeminiCssPatch (d : Dom.Document) : Dom.Document :=
  Dom.classList_remove "universal-dark-mode" (Dom.removeById patchId d).

(** The analysis loop: whether the interval runs, and how many issues
    the last cycle knew. *)
Record Monitor := { running : bool; lastKnownIssues : nat }.

Definition stopRealTimeDarkMode (m : Monitor) : Monitor :=
  {| running := false; lastKnownIssues := 0 |}.

(** The listener's case [TOGGLE_DARK_MODE] with [enabled] false. *)
Definition toggleDarkModeOff (d : Dom.Document) (m : Monitor) : Dom.Document * Monitor :=
  (removeGeminiCssPatch (Dom.classList_remove "universal-dark-mode" d),
   stopRealTimeDarkMode m).

(** The listener's case [inject-darkmode-css]; a message without CSS is
    not handled. *)
Definition onInject (css : string) (d : Dom.Document) : Dom.Document :=
  injectGeminiCssPatch css d.

(** *** The classifier of the analysis loop *)

Record Node := {
  tagName : string;
  classList : list string;
  role : option string;
  aria_modal : option string;
  textContent : string;
  hasOffsetParent : bool;
  offsetWidth : Z;
  offsetHeight : Z;
  rectWidth : Q;
  rectHeight : Q
}.

Record Style := {
  position : string;
  zIndex : string;
  backgroundColor : string;
  color : string;
  visibility : string
}.

Definition isTransparent (bg : string) : bool :=
  String.eqb bg "rgba(0, 0, 0, 0)" || String.eqb bg "transparent".

Definition hasClass (el : Node) (c : string) : bool :=
  existsb (String.eqb c) (classList el).

Definition attrIs (a : option string) (v : string) : bool :=
  match a with
  | Some x => String.eqb x v
  | None => false
  end.

Definition isLikelyMenu (el : Node) (style : Style) (vw vh : Q) : bool :=
  (String.eqb (position style) "fixed" || String.eqb (position style) "absolute")
  && JS.num_gtb (JS.parseFloat (zIndex style)) 100%Q
  && isTransparent (backgroundColor style)
  && hasOffsetParent el
  && (40 <? offsetHeight el)%Z && (40 <? offsetWidth el)%Z
  && JS.Qltb (rectWidth el) (vw * 0.9)%Q && JS.Qltb (rectHeight el) (vh * 0.9)%Q
  && (attrIs (role el) "menu" || attrIs (role el) "navigation"
      || attrIs (role el) "dialog" || attrIs (aria_modal el) "true"
      || hasClass el "menu" || hasClass el "nav"
      || hasClass el "sidebar" || hasClass el "drawer")
  && negb (hasClass el "backdrop")
  && negb (hasClass el "overlay")
  && negb (hasClass el "main").

(** [colorToLightness(color)]; [None] is [NaN]. *)
Definition colorToLightness (col : string) : option Q :=
  let lightness rc gc bc :=
    Qmax 0 (Qmin 1 ((0.2126 * inject_Z rc + 0.7152 * inject_Z gc
                     + 0.0722 * inject_Z bc) / 255))%Q in
  if negb (JS.truthy col) then Some 0%Q
  else if JS.startsWith col "rgb" then
    match JS.digitRuns col EmptyString with
    | v0 :: v1 :: v2 :: _ =>
        Some (lightness (JS.parseInt v0) (JS.parseInt v1) (JS.parseInt v2))
    | _ => Some (lightness 0 0 0)%Z
    end
  else if JS.startsWith col "#" then
    let hex := JS.drop 1 col in
    if (String.length hex =? 6)%nat then
      match JS.parseIntHex (JS.slice 0 2 hex), JS.parseIntHex (JS.slice 2 4 hex),
            JS.parseIntHex (JS.slice 4 6 hex) with
      | Some rc, Some gc, Some bc => Some (lightness rc gc bc)
      | _, _, _ => None
      end
    else Some (lightness 0 0 0)%Z
  else Some (lightness 0 0 0)%Z.

(** The [problems] the loop of [analyzeDarkModeIssues] collects for one
    element; an element without a rendered box is skipped. *)
Definition problemsOf (el : Node) (style : Style) (vw vh : Q) : list string :=
  if Qeq_bool (rectWidth el) 0 || Qeq_bool (rectHeight el) 0 then []
  else
    let bgColor := backgroundColor style in
    let textColor := color style in
    (if isLikelyMenu el style vw vh && isTransparent bgColor
     then ["transparent_menu_background"] else [])
    ++ (if JS.truthy bgColor && negb (String.eqb bgColor "rgba(0, 0, 0, 0)")
           && JS.truthy textColor
        then match colorToLightness bgColor, colorToLightness textColor with
             | Some bgLightness, Some textLightness =>
                 if JS.Qltb (Qabs (bgLightness - textLightness)) 0.3%Q
                 then ["poor_contrast"] else []
             | _, _ => []
             end
        else [])
    ++ (if JS.truthy bgColor
           && (JS.includes bgColor "255, 255, 255" || String.eqb bgColor "white"
               || String.eqb bgColor "#ffffff")
        then ["white_background"] else [])
    ++ (if String.eqb (visibility style) "hidden" && JS.truthy (textContent el)
           && JS.truthy (JS.trim (textContent el))
        then ["hidden_content"] else []).

(** [analyzeElementIssues(el)]: the remarks sent with a selected element;
    a lightness that is [NaN] is above no threshold. *)
Definition analyzeElementIssues (el : Node) (style : Style) (vw vh : Q) : list string :=
  let isLight (col : string) :=
    match colorToLightness col with
    | Some l => JS.Qgtb l 0.7%Q
    | None => false
    end in
  (if isTransparent (backgroundColor style) && isLikelyMenu el style vw vh
   then ["Transparent menu background makes text hard to read"] else [])
  ++ (if JS.truthy (backgroundColor style)
         && JS.includes (backgroundColor style) "255, 255, 255"
      then ["White background should be dark in dark mode"] else [])
  ++ (if JS.truthy (color style) && isLight (color style)
         && JS.truthy (backgroundColor style) && isLight (backgroundColor style)
      then ["Poor contrast between text and background"] else []).

(** *** The automatic repair of menus *)

(** The element of an issue, as [generateCssSelector] reads it. *)
Record MenuElement := {
  me_tagName : string;
  me_id : string;
  me_classList : list string
}.

Definition generateCssSelector (element : MenuElement) : string :=
  JS.toLowerCase (me_tagName element)
  ++ (if JS.truthy (me_id element) then "#" ++ me_id element else "")
  ++ match me_classList element with
     | [] => ""
     | cs => "." ++ JS.join "." cs
     end.

(** The rule text for one menu. *)
Definition menuPatchFor (selector : string) : string :=
  JS.join JS.nl
    [ "";
      "                " ++ selector ++ " {";
      "                    background-color: #222 !important;";
      "                    color: #e4e6ea !important;";
      "                    border: 1px solid #444 !important;";
      "                }";
      "                " ++ selector ++ " a, " ++ selector ++ " span, " ++ selector ++ " div {";
      "                    color: #e4e6ea !important;";
      "                }";
      "                " ++ selector ++ ":hover {";
      "                    background-color: #333 !important;";
      "                }";
      "            " ].

(** [autoFixTransparentMenus(menuIssues)] on the document. *)
Definition autoFixTransparentMenus (menuIssues : list MenuElement) (d : Dom.Document)
    : Dom.Document :=
  let cssPatches := map (fun element => menuPatchFor (generateCssSelector element)) menuIssues in
  match cssPatches with
  | [] => d
  | _ => injectGeminiCssPatch (JS.join JS.nl cssPatches) d
  end.

(** The listener's case [TOGGLE_DARK_MODE] with [enabled] true, on the
    document: the class is added when it is missing. *)
Definition toggleDarkModeOn (d : Dom.Document) : Dom.Document :=
  if negb (Dom.classList_contains "universal-dark-mode" d)
  then Dom.classList_add "universal-dark-mode" d else d.

(** *** The accuracy feedback *)

(** An entry of [darkmode_feedback] as [saveAccuracyFeedback] reads and
    writes it; an entry stored by another script has no [outerHTML]. *)
Record AccuracyEntry := {
  outerHTML : option string;
  ae_tag : string;
  ae_classes : list string;
  ae_url : string;
  ae_feedback : option string;
  ae_timestamp : Z;
  ae_fixed : bool
}.

(** [arr.find(f => f.outerHTML === outerHTML && f.url === url)] followed
    by [found.fixed = isFixed]; [None] when nothing is found. *)
Fixpoint markFound (html url : string) (isFixed : bool) (arr : list AccuracyEntry)
    : option (list AccuracyEntry) :=
  match arr with
  | [] => None
  | f :: rest =>
      if attrIs (outerHTML f) html && String.eqb (ae_url f) url
      then Some ({| outerHTML := outerHTML f; ae_tag := ae_tag f;
                    ae_classes := ae_classes f; ae_url := ae_url f;
                    ae_feedback := ae_feedback f;
                    ae_timestamp := ae_timestamp f; ae_fixed := isFixed |} :: rest)
      else match markFound html url isFixed rest with
           | Some rest' => Some (f :: rest')
           | None => None
           end
  end.

(** [saveAccuracyFeedback(el, isFixed)]: the list it stores under
    [darkmode_feedback] and the time it stores under
    [darkmode_last_train]; [html] is [el.outerHTML], [now] and [later] the
    two readings of [Date.now()]. *)
Definition saveAccuracyFeedback (href : string) (now later : Z)
    (html elTag : string) (elClasses : list string) (isFixed : bool)
    (arr : list AccuracyEntry) : list AccuracyEntry * Z :=
  (match markFound html href isFixed arr with
   | Some arr' => arr'
   | None =>
       (arr ++ [ {| outerHTML := Some html; ae_tag := elTag; ae_classes := elClasses;
                    ae_url := href; ae_feedback := Some "";
                    ae_timestamp := now; ae_fixed := isFixed |} ])%list
   end,
   later).

End AddDarkClass.

(** ** The background script *)

Module Background.

Inductive ThemeAction : Type :=
| InsertCSS
| RemoveCSS
| NoAction.

(** [toggleTheme(tabId, isEnabled)]: what it does with [dark-theme.css]
    in the tab; [results] is what the probe script returned, [None] when
    it could not run. *)
Definition toggleTheme (isEnabled : bool) (results : option bool) : ThemeAction :=
  let hasClass := match results with Some b => b | None => false end in
  if isEnabled && hasClass then InsertCSS
  else if negb isEnabled && hasClass then RemoveCSS
  else NoAction.

(** The probe script run in a tab with the document [d]. *)
Definition probe (d : Dom.Document) : option bool :=
  Some (Dom.classList_contains "universal-dark-mode" d).

(** A tab, with the document of its page. *)
Record Tab := { tab_url : option string; tab_document : Dom.Document }.

(** [applyThemeToAllTabs()] once the stored setting is read: the action
    taken in each tab, in order. *)
Definition applyThemeToAllTabs (isEnabled : bool) (tabs : list Tab) : list ThemeAction :=
  map (fun tab => if Popup.isWebTab (tab_url tab)
                  then toggleTheme isEnabled (probe (tab_document tab))
                  else NoAction) tabs.

(** [requestBody] of [callGeminiAPI(prompt)]. *)
Definition requestBody (prompt : string) : Server.GeminiRequest :=
  {| Server.rq_css := Some "N/A";
     Server.rq_tag := Some "auto-generated";
     Server.rq_classes := Some [];
     Server.rq_xpath := Some "N/A";
     Server.rq_description := Some prompt |}.

End Background.

(** ** Vocabulary of the statements *)

(** What both [trackFixSuccess] functions do to their list: append, then
    keep the last [cap] entries. *)
Definition keepLast {A : Type} (cap : nat) (log : list A) (x : A) : list A :=
  skipn (List.length (log ++ [x])%list - cap) (log ++ [x])%list.

(** A stand-in for the URL parser on the URLs of the examples, which all
    read [https://host/path]: the text between the scheme and the next
    slash. *)
Definition sampleHostname (u : string) : option string :=
  if prefix "https://" u then
    match JS.split "/" (JS.drop 8 u) with
    | h :: _ => if JS.truthy h then Some h else None
    | [] => None
    end
  else None.

(** The number of entries of the feedback list that are marked fixed and
    belong to the element key [k]: the [successCount] of a pattern. *)
Definition successCount (k : string) (fb : list Learning.Feedback) : nat :=
  List.length
    (filter (fun f => Learning.fixed f
                      && String.eqb (Learning.elementKey (Learning.tag f) (Learning.classes f)) k)
            fb).

(** The entries for the key [k] that are not marked fixed: the
    [failureCount] of a pattern. *)
Definition failureCount (k : string) (fb : list Learning.Feedback) : nat :=
  List.length
    (filter (fun f => negb (Learning.fixed f)
                      && String.eqb (Learning.elementKey (Learning.tag f) (Learning.classes f)) k)
            fb).

(** The score the code gives a pattern with [n] successes. *)
Definition tenthsConfidence (n : nat) : Q :=
  Qmin (inject_Z (Z.of_nat n) / 10)%Q 1%Q.

(** The score of the specification's data model:
    [successCount / (successCount + failureCount)], clamped to [0, 1]. *)
Definition ratioConfidence (s f : nat) : Q :=
  Qmax 0%Q (Qmin (inject_Z (Z.of_nat s) / inject_Z (Z.of_nat (s + f)))%Q 1%Q).

(** Whether the host of an entry's page is a name every object inherits:
    the entries on which [extractPatterns] throws. *)
Definition inheritedDomain (hostname : string -> option string) (f : Learning.Feedback) : bool :=
  JS.inherited (Learning.extractDomain hostname (Learning.url f)).

(** A feedback entry of the examples. *)
Definition entry (t : string) (cs : list string) (u : string) (isFixed : bool)
    (css : option string) : Learning.Feedback :=
  {| Learning.tag := t; Learning.classes := cs; Learning.xpath := "";
     Learning.description := "the menu is transparent"; Learning.url := u;
     Learning.timestamp := 0%Z; Learning.fixed := isFixed;
     Learning.appliedCSS := css; Learning.userRating := None;
     Learning.lastUpdated := None |}.

(** The confidence [extractPatterns] gives the key [k], when it returns
    and has one. *)
Definition confidenceFor (hostname : string -> option string)
    (fb : list Learning.Feedback) (k : string) : option Q :=
  match Learning.extractPatterns hostname fb with
  | Some p => JS.get (Learning.confidence p) k
  | None => None
  end.

(** The count stored for the key [k], 0 when there is none. *)
Definition fixCount (o : JS.obj Learning.Fix) (k : string) : nat :=
  match JS.get o k with
  | Some fx => Learning.count fx
  | None => 0
  end.

(** No stored pattern has a count of 0. *)
Definition positiveCounts (o : JS.obj Learning.Fix) : Prop :=
  forall k fx, JS.get o k = Some fx -> (0 < Learning.count fx)%nat.

(** No site is stored under a name every object inherits. *)
Definition ownSites (o : JS.obj Learning.Site) : Prop :=
  forall d, JS.inherited d = true -> JS.get o d = None.

(** Feedback for the examples: the same menu on the same site, repaired
    ([up]) or not ([down]). *)
Definition up : Learning.Feedback :=
  entry "div" ["menu"] "https://example.org/" true (Some ".menu { background: #222 }").
Definition down : Learning.Feedback :=
  entry "div" ["menu"] "https://example.org/" false None.


(** A number that is a probability. *)
Definition probability (q : Q) : Prop := (0 <= q <= 1)%Q.

(** *** The policy of [generateSmartCSS], in the words of the specification *)

(** The observations stored for the element's class key. *)
Definition observations (e : Server.ElementData) (p : Server.Patterns) : nat :=
  match Server.nonempty (Server.ed_classes e) with
  | Some cs =>
      match JS.get (Server.commonSelectors p) (JS.join "." cs) with
      | Some sel => Server.count sel
      | None => 0
      end
  | None => 0
  end.

(** The stored rule text for the element's class key: the most frequent
    fix, once the key was observed three times. *)
Definition learnedFix (e : Server.ElementData) (p : Server.Patterns) : option string :=
  match Server.nonempty (Server.ed_classes e) with
  | Some cs =>
      match JS.get (Server.commonSelectors p) (JS.join "." cs) with
      | Some sel =>
          if (3 <=? Server.count sel)%nat
          then Server.some_truthy (Server.findMostFrequentFix (Server.fixes sel))
          else None
      | None => None
      end
  | None => None
  end.

(** The element type has a success rate above 0.7. *)
Definition typeSucceeds (e : Server.ElementData) (p : Server.Patterns) : bool :=
  match Server.some_truthy (Server.ed_tag e) with
  | Some t =>
      match JS.get (Server.elementTypeEffectiveness p) t with
      | Some eff => JS.Qgtb (Server.effectivenessRatio eff) 0.7%Q
      | None => false
      end
  | None => false
  end.

(** The page's domain has at least two recorded issues. *)
Definition domainKnown (domain : option string) (p : Server.Patterns) : bool :=
  match Server.some_truthy domain with
  | Some d =>
      match JS.get (Server.domainSpecificPatterns p) d with
      | Some dp => (2 <=? List.length (Server.issues dp))%nat
      | None => false
      end
  | None => false
  end.

(** The confidence the three checks add up, before the clamp. *)
Definition tally (learned typeOk domainOk : bool) : Q :=
  let c0 := if learned then (0 + 0.8)%Q else 0%Q in
  let c1 := if typeOk then (c0 + 0.3)%Q else c0 in
  if domainOk then (c1 + 0.2)%Q else c1.

Definition isSome {A} (o : option A) : bool :=
  match o with Some _ => true | None => false end.

(** Patterns and requests of the examples. *)
Definition menuFix : string := ".menu { background-color: #222 !important; }".

Definition menuPatterns : Server.Patterns :=
  {| Server.commonSelectors :=
       [("menu", {| Server.count := 3; Server.fixes := [menuFix; menuFix; menuFix] |})];
     Server.domainSpecificPatterns :=
       [("example.org",
         {| Server.issues :=
              [ {| Server.i_tag := Some "nav"; Server.i_classes := None; Server.i_fix := "" |};
                {| Server.i_tag := Some "nav"; Server.i_classes := None; Server.i_fix := "" |} ] |})];
     Server.elementTypeEffectiveness :=
       [("nav", {| Server.totalAttempts := 4; Server.successfulFixes := 3;
                   Server.effectivenessRatio := (3 # 4)%Q |})] |}.

Definition menuElement : Server.ElementData :=
  {| Server.ed_tag := Some "div"; Server.ed_classes := Some ["menu"] |}.

Definition navElement : Server.ElementData :=
  {| Server.ed_tag := Some "nav"; Server.ed_classes := Some [] |}.

(** *** The buckets of the pattern store, in terms of the feedback list *)

(** The entries recorded on the pages of the domain [d]: the
    domain-specific bucket. *)
Definition siteIssues (hostname : string -> option string) (d : string)
    (fb : list Learning.Feedback) : list Learning.Feedback :=
  filter (fun f => String.eqb (Learning.extractDomain hostname (Learning.url f)) d) fb.

Definition domainIssues (hostname : string -> option string) (d : string)
    (fb : list Learning.Feedback) : nat :=
  List.length (siteIssues hostname d fb).

Definition domainFixed (hostname : string -> option string) (d : string)
    (fb : list Learning.Feedback) : nat :=
  List.length (filter Learning.fixed (siteIssues hostname d fb)).

(** The issues stored for the domain [d], none when it has no bucket. *)
Definition issuesOf (o : JS.obj Learning.Site) (d : string) : list Learning.Feedback :=
  match JS.get o d with
  | Some site => Learning.issues site
  | None => []
  end.

(** Stores and requests of the examples. *)
Definition storeOf (fb : list Learning.Feedback) : Learning.Storage :=
  {| Learning.darkmode_feedback := fb;
     Learning.darkmode_patterns := None;
     Learning.darkmode_success := [] |}.

Definition menuData : Learning.ElementData :=
  {| Learning.ed_tag := "div"; Learning.ed_classes := ["menu"];
     Learning.ed_description := "" |}.

Definition otherData : Learning.ElementData :=
  {| Learning.ed_tag := "span"; Learning.ed_classes := [];
     Learning.ed_description := "" |}.

Definition sevenUps : list Learning.Feedback := repeat up 7.

Definition examplePage : string := "https://example.org/shop".

(** *** The two colour patterns of [parseColor], declaratively *)

(** Every character of [s] satisfies [p]. *)
Fixpoint every (p : ascii -> bool) (s : string) : bool :=
  match s with
  | EmptyString => true
  | String c r => p c && every p r
  end.

(** [s] is empty or starts with a character that fails [p]. *)
Definition stops (p : ascii -> bool) (s : string) : Prop :=
  match s with
  | EmptyString => True
  | String c _ => p c = false
  end.

(** [\d+] *)
Definition digitsText (d : string) : Prop := d <> "" /\ every JS.is_digit d = true.
(** [\s*] *)
Definition blank (w : string) : Prop := every JS.is_space w = true.
(** [[\d.]+] *)
Definition alphaText (a : string) : Prop := a <> "" /\ every Content.is_alpha_char a = true.

(** The text [s] contains a match of
    [rgba?\((\d+),\s*(\d+),\s*(\d+)(?:,\s*([\d.]+))?\)] with the groups
    [d1], [d2], [d3] and [al]. *)
Definition containsRgbaWith (s d1 d2 d3 : string) (al : option string) : Prop :=
  exists pre a w1 w2 w3 post,
    (a = "" \/ a = "a")
    /\ digitsText d1 /\ blank w1 /\ digitsText d2 /\ blank w2 /\ digitsText d3
    /\ s = pre ++ "rgb" ++ a ++ "(" ++ d1 ++ "," ++ w1 ++ d2 ++ "," ++ w2 ++ d3
           ++ match al with
              | None => ")" ++ post
              | Some x => "," ++ w3 ++ x ++ ")" ++ post
              end
    /\ match al with
       | None => True
       | Some x => blank w3 /\ alphaText x
       end.

Definition containsRgba (s : string) : Prop :=
  exists d1 d2 d3 al, containsRgbaWith s d1 d2 d3 al.

(** The text [s] matches [^#([a-f\d]{3}|[a-f\d]{6})$] (flag [i]) with the
    group [h]. *)
Definition isHexColorWith (s h : string) : Prop :=
  s = "#" ++ h /\ every JS.is_hex h = true
  /\ (String.length h = 3%nat \/ String.length h = 6%nat).

Definition isHexColor (s : string) : Prop := exists h, isHexColorWith s h.

Definition transparentBlack : Content.Color :=
  {| Content.r := 0; Content.g := 0; Content.b := 0; Content.alpha := JS.Num 0 |}.

Definition opaqueBlack : Content.Color :=
  {| Content.r := 0; Content.g := 0; Content.b := 0; Content.alpha := JS.Num 1 |}.

(** *** Classifier vocabulary *)


(** A function that agrees with [Math.pow] at base 1, for the examples:
    it returns its base. *)
Definition samplePow (x e : Q) : Q := x.

(** The tags [analyzeDarkModeIssues] can emit. *)
Definition loopTags : list string :=
  ["transparent_menu_background"; "poor_contrast"; "white_background"; "hidden_content"].

(** The tags [detectDarkModeIssues] can emit. *)
Definition selectionTags : list string :=
  ["light_background_dark_text"; "transparent_background_dark_text";
   "very_light_background"; "low_contrast"; "low_opacity"; "light_border"].

(** The taxonomy of the specification. *)
Definition specTags : list string :=
  ["transparent_menu_background"; "poor_contrast"; "white_background";
   "hidden_content"; "low_opacity"; "light_border"].

(** An element of the examples: a hidden [span] with a rendered box whose
    text is [text]. *)
Definition hiddenNode (text : string) : AddDarkClass.Node :=
  {| AddDarkClass.tagName := "SPAN"; AddDarkClass.classList := []; AddDarkClass.role := None;
     AddDarkClass.aria_modal := None; AddDarkClass.textContent := text;
     AddDarkClass.hasOffsetParent := true; AddDarkClass.offsetWidth := 100; AddDarkClass.offsetHeight := 20;
     AddDarkClass.rectWidth := 100%Q; AddDarkClass.rectHeight := 20%Q |}.

Definition hiddenStyle : AddDarkClass.Style :=
  {| AddDarkClass.position := "static"; AddDarkClass.zIndex := "auto";
     AddDarkClass.backgroundColor := "rgba(0, 0, 0, 0)"; AddDarkClass.color := "rgb(0, 0, 0)";
     AddDarkClass.visibility := "hidden" |}.

Definition hiddenComputed : Content.ComputedStyle :=
  {| Content.backgroundColor := "rgba(0, 0, 0, 0)"; Content.color := "rgb(255, 255, 255)";
     Content.opacity := "1"; Content.borderColor := "rgb(0, 0, 0)";
     Content.borderStyle := "none"; Content.visibility := "hidden" |}.

(** *** Pages of the examples *)

Definition emptyPage : Content.Page :=
  {| Content.document := {| Dom.classList := ["universal-dark-mode"]; Dom.head := [] |};
     Content.storage := storeOf [] |}.

Definition menuPatch : Content.InjectMessage :=
  {| Content.css := menuFix; Content.source := None;
     Content.elementInfo := None; Content.elementData := None |}.

(** The style blocks [injectGeminiCssPatch] owns. *)
Definition siblingBlocks (d : Dom.Document) : list Dom.StyleElement :=
  filter (fun e => String.eqb (Dom.id e) AddDarkClass.patchId) (Dom.head d).

(** The listener of the content script run on a message, the page after
    it. *)
Definition after (msg : Content.Message) (now : nat -> Z) (pg : Content.Page) : Content.Page :=
  snd (Content.onMessage sampleHostname examplePage true now msg pg).

(** *** Proof steps *)

(** Case analysis on every test a classifier makes. *)
Ltac split_conditions :=
  repeat match goal with
         | |- context [if ?c then _ else _] => destruct c
         | |- context [match ?c with Some _ => _ | None => _ end] => destruct c
         end.

(** A head that already holds the block of [injectGeminiCssPatch] after a
    style block of the page. *)
Definition patchedDocument : Dom.Document :=
  {| Dom.classList := ["universal-dark-mode"];
     Dom.head :=
       [ {| Dom.id := "site"; Dom.textContent := "body { color: black }";
            Dom.data_darkmode_patch := None; Dom.data_source := None;
            Dom.data_element_info := None |};
         {| Dom.id := AddDarkClass.patchId; Dom.textContent := "old";
            Dom.data_darkmode_patch := None; Dom.data_source := None;
            Dom.data_element_info := None |} ] |}.

(** A record of the popup's log and a full log, for the examples. *)
Definition sampleFix (t : Z) : Popup.FixRecord :=
  Popup.fixRecord t
    {| Popup.tag := "DIV"; Popup.elementType := "navigation";
       Popup.detectedIssues := ["low_contrast"]; Popup.url := examplePage;
       Popup.automated := false; Popup.refinement := false |}
    {| Popup.cssPatch := menuFix |} "positive".

Definition fullLog : list Popup.FixRecord := sampleFix 0 :: repeat (sampleFix 1) 99.
(** ** Vocabulary of the further properties *)

(** *** Tallies *)

(** How often the text [x] occurs in the list [l]. *)
Definition occurrences (x : string) (l : list string) : nat := count_occ string_dec l x.

(** The number a tally holds for the key [k], 0 when it has none. *)
Definition counted (o : JS.obj nat) (k : string) : nat :=
  match JS.get o k with
  | Some n => n
  | None => 0
  end.

(** The tally [freq[k] = (freq[k] || 0) + 1] builds over a list. *)
Definition tallyOf (l : list string) : JS.obj nat := fold_left Learning.bump l [].

(** Every number of a tally is positive. *)
Definition positiveTally (o : JS.obj nat) : Prop :=
  forall k n, In (k, n) o -> (0 < n)%nat.

(** *** Rules of the learning engine *)

(** The rules of all the fixes stored for a pattern, in order. *)
Definition allRules (fixes : list string) : list string :=
  flat_map Learning.extractCSSRules fixes.

(** The rules [findMostSuccessfulCSS] joins. *)
Definition learnedRules (fixes : list string) : list string :=
  Learning.popular
    (fold_left (fun freq css => fold_left Learning.bump (Learning.extractCSSRules css) freq)
               fixes []).

(** The categories of the issues of a site, in order. *)
Definition categoriesOf (items : list Learning.Feedback) : list string :=
  map (fun f => Learning.categorizeProlem (Learning.description f)) items.

(** The categories [generateDomainSpecificCSS] has a template for. *)
Definition templated : list string :=
  ["transparent_background"; "poor_contrast"; "menu_issues"].

(** The text has no closing brace. *)
Definition braceFree (s : string) : bool :=
  every (fun c => negb (Ascii.eqb c "}")) s.

(** *** The feedback list under the handlers of the content script *)

(** The tag and the class list [updateFeedbackWithSuccess] compares. *)
Definition elementOf (f : Learning.Feedback) : string * list string :=
  (Learning.tag f, Learning.classes f).

Definition element_eqb (a b : string * list string) : bool :=
  String.eqb (fst a) (fst b) && JS.str_eqb_list (snd a) (snd b).

(** The entries marked fixed that were stored for the element [el]. *)
Definition fixedFor (el : string * list string) (fb : list Learning.Feedback)
    : list Learning.Feedback :=
  filter (fun f => Learning.fixed f && element_eqb (elementOf f) el) fb.

(** Every entry marked fixed is the first entry of its element, where
    [seen] are the elements of the entries in front of the list. *)
Fixpoint firstOnly (seen : list (string * list string)) (fb : list Learning.Feedback)
    : Prop :=
  match fb with
  | [] => True
  | f :: rest =>
      (Learning.fixed f = true -> ~ In (elementOf f) seen)
      /\ firstOnly (elementOf f :: seen) rest
  end.

(** One message handled by the listener of the content script: a report,
    a rating, an injection or a toggle. *)
Inductive handles (hostname : string -> option string)
    : Content.Page -> Content.Page -> Prop :=
| handles_report (href : string) (now : Z) (m : Content.FeedbackMessage) (pg : Content.Page) :
    handles hostname pg (Content.submitDarkmodeFeedback href now m pg)
| handles_rating (href : string) (aiLearning : bool) (now later : Z)
    (ed : option Learning.ElementData) (applied : option string) (rating : string)
    (pg : Content.Page) :
    handles hostname pg
      (snd (Content.rateAiFix hostname href aiLearning now later ed applied rating pg))
| handles_message (href : string) (aiLearning : bool) (now : nat -> Z)
    (msg : Content.Message) (pg : Content.Page) :
    handles hostname pg (snd (Content.onMessage hostname href aiLearning now msg pg)).

(** The pages the listener can produce from a page whose feedback list
    is empty. *)
Inductive reached (hostname : string -> option string) : Content.Page -> Prop :=
| reached_start (d : Dom.Document) (st : Learning.Storage) :
    Learning.darkmode_feedback st = [] ->
    reached hostname {| Content.document := d; Content.storage := st |}
| reached_next (pg pg' : Content.Page) :
    reached hostname pg -> handles hostname pg pg' -> reached hostname pg'.

(** The entry [f] once [updateFeedbackWithSuccess] gave it a rating. *)
Definition marked (css rating : string) (now : Z) (f : Learning.Feedback) : Learning.Feedback :=
  {| Learning.tag := Learning.tag f; Learning.classes := Learning.classes f;
     Learning.xpath := Learning.xpath f; Learning.description := Learning.description f;
     Learning.url := Learning.url f; Learning.timestamp := Learning.timestamp f;
     Learning.fixed := String.eqb rating "up";
     Learning.appliedCSS := Some css;
     Learning.userRating := Some rating;
     Learning.lastUpdated := Some now |}.

(** The feedback list of a page. *)
Definition feedbackOf (pg : Content.Page) : list Learning.Feedback :=
  Learning.darkmode_feedback (Content.storage pg).

(** *** The log of the server *)

(** The entries the proxy reads from the file. *)
Definition entriesOf (file : Server.LogFile) : list Server.Entry :=
  match file with
  | Server.Stored log => log
  | _ => []
  end.

(** The file after any number of requests to the proxy. *)
Inductive proxyCalls (Data : Type) (darkModeCss : Data -> option string)
    : Server.LogFile -> Server.LogFile -> Prop :=
| calls_none (file : Server.LogFile) : proxyCalls Data darkModeCss file file
| calls_more (apiKey : option string) (gemini : string -> option Data) (now : Z)
    (writable : bool) (body : Server.GeminiRequest) (file file' : Server.LogFile) :
    proxyCalls Data darkModeCss file file' ->
    proxyCalls Data darkModeCss file
      (snd (Server.geminiProxy Data darkModeCss apiKey gemini now writable body file')).

(** The files the proxy leaves behind when all its requests come from
    [callGeminiAPI] of the background script, starting without a file. *)
Inductive extensionLog (Data : Type) (darkModeCss : Data -> option string)
    : Server.LogFile -> Prop :=
| extension_start : extensionLog Data darkModeCss Server.Missing
| extension_call (apiKey : option string) (gemini : string -> option Data) (now : Z)
    (writable : bool) (prompt : string) (file : Server.LogFile) :
    extensionLog Data darkModeCss file ->
    extensionLog Data darkModeCss
      (snd (Server.geminiProxy Data darkModeCss apiKey gemini now writable
              (Background.requestBody prompt) file)).

(** An entry without class list, or with an empty one. *)
Definition classless (e : Server.Entry) : bool :=
  match Server.nonempty (Server.classes e) with
  | Some _ => false
  | None => true
  end.

(** The entries of the log recorded for the class key [k], and their
    patches that are not empty. *)
Definition entriesFor (k : string) (log : list Server.Entry) : list Server.Entry :=
  filter (fun e => match Server.nonempty (Server.classes e) with
                   | Some cs => String.eqb (JS.join "." cs) k
                   | None => false
                   end) log.

Definition patchesOf (es : list Server.Entry) : list string :=
  filter JS.truthy (map Server.patch es).

(** The entries of the log recorded for the tag [t], and those among them
    whose patch has more than ten characters. *)
Definition attempts (t : string) (log : list Server.Entry) : list Server.Entry :=
  filter (fun e => match Server.some_truthy (Server.tag e) with
                   | Some t' => String.eqb t' t
                   | None => false
                   end) log.

Definition successes (t : string) (log : list Server.Entry) : list Server.Entry :=
  filter (fun e => (10 <? String.length (Server.patch e))%nat) (attempts t log).

(** A selector's record after the entries [es] were added to it. *)
Definition grownSelector (o : option Server.Selector) (es : list Server.Entry)
    : option Server.Selector :=
  match o, es with
  | None, [] => None
  | _, _ =>
      Some {| Server.count :=
                (match o with Some sel => Server.count sel | None => 0 end
                 + List.length es)%nat;
              Server.fixes :=
                (match o with Some sel => Server.fixes sel | None => [] end
                 ++ patchesOf es)%list |}
  end.

(** The two counts of an element type. *)
Definition countsOf (eff : Server.Effectiveness) : nat * nat :=
  (Server.totalAttempts eff, Server.successfulFixes eff).

Definition grownCounts (o : option (nat * nat)) (t : string) (log : list Server.Entry)
    : option (nat * nat) :=
  match o, attempts t log with
  | None, [] => None
  | _, _ =>
      Some ((match o with Some c => fst c | None => 0 end
             + List.length (attempts t log))%nat,
            (match o with Some c => snd c | None => 0 end
             + List.length (successes t log))%nat)
  end.

(** *** The analysis of the page *)

(** The elements the page analysis visits: what each selector finds, one
    after the other. *)
Definition visited (querySelectorAll : string -> list Content.Element) : list Content.Element :=
  flat_map querySelectorAll Content.problematicSelectors.

(** [analyzePageForDarkMode] over any list of selectors. *)
Definition analysisOver (pow : Q -> Q -> Q)
    (querySelectorAll : string -> list Content.Element) (selectors : list string)
    : Content.Analysis :=
  let analysis :=
    fold_left (Content.analyzeSelector pow querySelectorAll) selectors
      {| Content.hasTransparentMenus := 0; Content.darkModeIssues := [];
         Content.totalElements := 0; Content.problemElements := 0 |} in
  {| Content.hasTransparentMenus := Content.hasTransparentMenus analysis;
     Content.darkModeIssues := Content.darkModeIssues analysis;
     Content.totalElements := Content.totalElements analysis;
     Content.problemElements := List.length (Content.darkModeIssues analysis) |}.

(** *** Computed colours *)

(** The text of a colour as a computed style gives it: [rgb(r, g, b)], or
    [rgba(r, g, b, a)]. *)
Definition rgbText (d1 d2 d3 : string) (al : option string) : string :=
  "rgb" ++ match al with Some _ => "a" | None => "" end
  ++ "(" ++ d1 ++ ", " ++ d2 ++ ", " ++ d3
  ++ match al with
     | Some x => ", " ++ x ++ ")"
     | None => ")"
     end.

Definition computedColour (s : string) : Prop :=
  exists d1 d2 d3 al,
    digitsText d1 /\ digitsText d2 /\ digitsText d3
    /\ match al with Some x => alphaText x | None => True end
    /\ s = rgbText d1 d2 d3 al.

(** *** The class-adding content script *)

(** The rule text [autoFixTransparentMenus] injects for the menus. *)
Definition combinedPatch (menus : list AddDarkClass.MenuElement) : string :=
  JS.join JS.nl
    (map (fun element => AddDarkClass.menuPatchFor (AddDarkClass.generateCssSelector element))
         menus).

(** The style block [injectGeminiCssPatch] creates. *)
Definition patchBlock (css : string) : Dom.StyleElement :=
  {| Dom.id := AddDarkClass.patchId; Dom.textContent := css;
     Dom.data_darkmode_patch := None; Dom.data_source := None;
     Dom.data_element_info := None |}.

(** The entry is the one [saveAccuracyFeedback] looks for. *)
Definition isEntryOf (html url : string) (f : AddDarkClass.AccuracyEntry) : bool :=
  AddDarkClass.attrIs (AddDarkClass.outerHTML f) html
  && String.eqb (AddDarkClass.ae_url f) url.


(** *** Data of the examples *)

(** A repaired entry whose description names no category. *)
Definition oddEntry : Learning.Feedback :=
  {| Learning.tag := "div"; Learning.classes := []; Learning.xpath := "";
     Learning.description := "looks odd"; Learning.url := "https://example.org/";
     Learning.timestamp := 0%Z; Learning.fixed := true;
     Learning.appliedCSS := None; Learning.userRating := None;
     Learning.lastUpdated := None |}.

Definition oddSite : Learning.Site :=
  {| Learning.issues := [oddEntry; oddEntry; oddEntry]; Learning.fixes := [] |}.

Definition oddPatterns : Learning.Patterns :=
  {| Learning.commonProblems := []; Learning.successfulFixes := [];
     Learning.elementTypes := []; Learning.websitePatterns := [("example.org", oddSite)];
     Learning.confidence := [] |}.

(** A report of a menu and a page that handled it and a rating. *)
Definition menuReport : Content.FeedbackMessage :=
  {| Content.fm_tag := "div"; Content.fm_classes := ["menu"];
     Content.fm_xpath := "/html/body/div"; Content.fm_description := "menu is invisible" |}.

Definition reportedPage : Content.Page :=
  Content.submitDarkmodeFeedback examplePage 1%Z menuReport emptyPage.

Definition ratedPage : Content.Page :=
  snd (Content.rateAiFix sampleHostname examplePage true 2%Z 3%Z (Some menuData)
         (Some menuFix) "up" reportedPage).

(** A log of the server with two entries for the same menu. *)
Definition menuEntry (t : Z) (answer : string) : Server.Entry :=
  {| Server.timestamp := t; Server.tag := Some "div"; Server.classes := Some ["menu"];
     Server.xpath := None; Server.description := Some "menu is invisible";
     Server.css := Some "N/A"; Server.patch := answer |}.

Definition menuLog : list Server.Entry := [menuEntry 1%Z menuFix; menuEntry 2%Z ""].

(** A menu for the automatic repair. *)
Definition sideMenu : AddDarkClass.MenuElement :=
  {| AddDarkClass.me_tagName := "DIV"; AddDarkClass.me_id := "side";
     AddDarkClass.me_classList := ["menu"; "open"] |}.

(** *** The popup *)

(** The notices the change handler of the toggle can show for a page it
    does not support. *)
Definition unsupportedNotices : list string :=
  [ "Dark mode cannot be applied to browser internal pages";
    "Dark mode cannot be applied to extension pages";
    "Dark mode cannot be applied to local files";
    "This page type is not supported" ].

(** A score between 0 and 1. *)
Definition scored (r : Popup.FixRecord) : Prop :=
  (0 <= Popup.successScore r <= 1)%Q.

(** The category the learning engine files an automatic report under,
    read off the issues detected on the element. *)
Definition autoCategory (issues : list string) : string :=
  if existsb (String.eqb "transparent_background_dark_text") issues
  then "transparent_background"
  else if existsb (String.eqb "low_contrast") issues then "poor_contrast"
  else if existsb (String.eqb "light_background_dark_text") issues then "text_visibility"
  else "general_dark_mode".

(** *** Reading comma-separated text *)

(** A reader of comma-separated text, for the file of the export: a
    record ends at a line feed and a field at a comma; a field in double
    quotes may hold commas, line feeds and, written twice, double
    quotes. *)
Inductive CsvMode : Type :=
| Plain
| Quoted
| Closing.

(** The character [c] in front of the first field. *)
Definition pushChar (c : ascii) (rows : list (list string)) : list (list string) :=
  match rows with
  | (f :: fs) :: rest => (String c f :: fs) :: rest
  | [] :: rest => [String c ""] :: rest
  | [] => [[String c ""]]
  end.

Fixpoint pushText (x : string) (rows : list (list string)) : list (list string) :=
  match x with
  | EmptyString => rows
  | String c r => pushChar c (pushText r rows)
  end.

Definition newField (rows : list (list string)) : list (list string) :=
  match rows with
  | fs :: rest => ("" :: fs) :: rest
  | [] => [[""; ""]]
  end.

Definition newRow (rows : list (list string)) : list (list string) := [""] :: rows.

Fixpoint readCsv (m : CsvMode) (s : string) : list (list string) :=
  match s with
  | EmptyString => [[""]]
  | String c r =>
      let outside :=
        if Ascii.eqb c ","%char then newField (readCsv Plain r)
        else if Ascii.eqb c "010"%char then newRow (readCsv Plain r)
        else if Ascii.eqb c "034"%char then readCsv Quoted r
        else pushChar c (readCsv Plain r) in
      match m with
      | Plain => outside
      | Quoted =>
          if Ascii.eqb c "034"%char then readCsv Closing r
          else pushChar c (readCsv Quoted r)
      | Closing =>
          if Ascii.eqb c "034"%char then pushChar c (readCsv Quoted r)
          else outside
      end
  end.

(** A stand-in for [toISOString] in the examples. *)
Definition sampleIso (t : Z) : option string :=
  if (0 <=? t)%Z then Some "1970-01-01T00:00:00.000Z" else None.

(** A stored entry with a comma, a quote and a line feed in its text. *)
Definition awkwardRow : Popup.FeedbackRow :=
  {| Popup.row_tag := Some "DIV"; Popup.row_classes := Some ["menu"; "open"];
     Popup.row_url := Some "https://example.org/a,b";
     Popup.row_feedback := Some ("the " ++ JS.dq ++ "menu" ++ JS.dq ++ "," ++ JS.nl ++ "again");
     Popup.row_timestamp := 0%Z; Popup.row_fixed := true |}.

(** * Properties *)

(** ** Objects *)

Section ObjFacts.

Context {V : Type}.

Lemma get_set_same (o : JS.obj V) (k : string) (v : V) :
  JS.get (JS.set o k v) k = Some v.
Proof.
  induction o as [| [k' v'] o IH]; simpl.
  - rewrite String.eqb_refl. reflexivity.
  - destruct (String.eqb k k') eqn:E; simpl; rewrite E.
    + reflexivity.
    + exact IH.
Qed.

Lemma get_set_other (o : JS.obj V) (k k' : string) (v : V) :
  k <> k' -> JS.get (JS.set o k v) k' = JS.get o k'.
Proof.
  intros Hne. induction o as [| [k0 v0] o IH]; simpl.
  - destruct (String.eqb k' k) eqn:E; [| reflexivity].
    apply String.eqb_eq in E. congruence.
  - destruct (String.eqb k k0) eqn:E; simpl.
    + apply String.eqb_eq in E. subst k0.
      destruct (String.eqb k' k) eqn:E'; [| reflexivity].
      apply String.eqb_eq in E'. congruence.
    + rewrite IH. reflexivity.
Qed.

Lemma get_map {W : Type} (f : V -> W) (o : JS.obj V) (k : string) :
  JS.get (map (fun kv => (fst kv, f (snd kv))) o) k = option_map f (JS.get o k).
Proof.
  induction o as [| [k' v'] o IH]; simpl; [reflexivity |].
  destruct (String.eqb k k'); [reflexivity | exact IH].
Qed.

End ObjFacts.

(** ** The patterns of the learning engine *)

Section PatternFacts.

Variable hostname : string -> option string.

Local Abbreviation keyOf f := (Learning.elementKey (Learning.tag f) (Learning.classes f)).

Lemma recordFeedback_throws (p : Learning.Patterns) (f : Learning.Feedback) :
  ownSites (Learning.websitePatterns p) ->
  Learning.recordFeedback hostname p f = None <-> inheritedDomain hostname f = true.
Proof.
  intros Hown. unfold Learning.recordFeedback, inheritedDomain.
  destruct (JS.get (Learning.websitePatterns p) _) eqn:G.
  - split; [discriminate |].
    intros H. rewrite (Hown _ H) in G. discriminate.
  - destruct (JS.inherited _); split; congruence.
Qed.

Lemma recordFeedback_sites (p p' : Learning.Patterns) (f : Learning.Feedback) :
  ownSites (Learning.websitePatterns p) ->
  Learning.recordFeedback hostname p f = Some p' ->
  ownSites (Learning.websitePatterns p').
Proof.
  intros Hown H. unfold Learning.recordFeedback in H.
  set (d := Learning.extractDomain hostname (Learning.url f)) in *.
  assert (Hd : JS.inherited d = false).
  { destruct (JS.inherited d) eqn:E; [| reflexivity].
    rewrite (Hown _ E) in H. discriminate. }
  assert (Hstep : forall site, ownSites (JS.set (Learning.websitePatterns p) d site)).
  { intros site x Hx. rewrite get_set_other; [apply Hown; exact Hx |].
    intros ->. congruence. }
  destruct (JS.get (Learning.websitePatterns p) d).
  - injection H as <-. apply Hstep.
  - rewrite Hd in H. injection H as <-. apply Hstep.
Qed.

Lemma recordFeedback_fixes (p p' : Learning.Patterns) (f : Learning.Feedback) :
  Learning.recordFeedback hostname p f = Some p' ->
  Learning.successfulFixes p' =
    if Learning.fixed f then
      JS.set (Learning.successfulFixes p) (keyOf f)
        {| Learning.count := S (fixCount (Learning.successfulFixes p) (keyOf f));
           Learning.cssFixes :=
             Learning.cssFixes
               (match JS.get (Learning.successfulFixes p) (keyOf f) with
                | Some x => x
                | None => {| Learning.count := 0; Learning.cssFixes := [] |}
                end)
             ++ match Learning.appliedCSS f with
                | Some css => if JS.truthy css then [css] else []
                | None => []
                end |}
    else Learning.successfulFixes p.
Proof.
  unfold Learning.recordFeedback, fixCount. intros H.
  assert (E : forall l : list string, (l ++ [])%list = l) by (intros; apply app_nil_r).
  destruct (JS.get (Learning.websitePatterns p) _);
    [| destruct (JS.inherited _); [discriminate |]];
    injection H as <-; cbn [Learning.successfulFixes];
    destruct (Learning.fixed f); try reflexivity;
    destruct (JS.get (Learning.successfulFixes p) _);
    destruct (Learning.appliedCSS f) as [css |];
    try destruct (JS.truthy css); cbn [Learning.count Learning.cssFixes];
    rewrite ?E; reflexivity.
Qed.

Lemma recordFeedback_count (p p' : Learning.Patterns) (f : Learning.Feedback) (k : string) :
  Learning.recordFeedback hostname p f = Some p' ->
  fixCount (Learning.successfulFixes p') k
  = (fixCount (Learning.successfulFixes p) k
     + if Learning.fixed f && String.eqb (keyOf f) k then 1 else 0)%nat.
Proof.
  intros H. rewrite (recordFeedback_fixes _ _ _ H).
  destruct (Learning.fixed f); cbn [andb]; [| lia].
  destruct (String.eqb (keyOf f) k) eqn:E.
  - apply String.eqb_eq in E. subst k.
    unfold fixCount at 1. rewrite get_set_same. cbn [Learning.count]. lia.
  - apply String.eqb_neq in E.
    unfold fixCount at 1. rewrite get_set_other by exact E.
    fold (fixCount (Learning.successfulFixes p) k). lia.
Qed.

Lemma recordFeedback_positive (p p' : Learning.Patterns) (f : Learning.Feedback) :
  positiveCounts (Learning.successfulFixes p) ->
  Learning.recordFeedback hostname p f = Some p' ->
  positiveCounts (Learning.successfulFixes p').
Proof.
  intros Hpos H k fx. rewrite (recordFeedback_fixes _ _ _ H).
  destruct (Learning.fixed f); [| apply Hpos].
  destruct (String.eqb (keyOf f) k) eqn:E.
  - apply String.eqb_eq in E. subst k. rewrite get_set_same.
    intros [= <-]. cbn [Learning.count]. lia.
  - apply String.eqb_neq in E. rewrite get_set_other by exact E. apply Hpos.
Qed.

Lemma recordAll_app (p : Learning.Patterns) (fs gs : list Learning.Feedback) :
  Learning.recordAll hostname p (fs ++ gs)
  = match Learning.recordAll hostname p fs with
    | Some p' => Learning.recordAll hostname p' gs
    | None => None
    end.
Proof.
  revert p. induction fs as [| f fs IH]; intros p; simpl; [reflexivity |].
  destruct (Learning.recordFeedback hostname p f); [apply IH | reflexivity].
Qed.

Lemma recordAll_throws (fs : list Learning.Feedback) (p : Learning.Patterns) :
  ownSites (Learning.websitePatterns p) ->
  Learning.recordAll hostname p fs = None <-> existsb (inheritedDomain hostname) fs = true.
Proof.
  revert p. induction fs as [| f fs IH]; intros p Hown; simpl.
  - split; discriminate.
  - destruct (Learning.recordFeedback hostname p f) as [p' |] eqn:R.
    + rewrite (IH p' (recordFeedback_sites _ _ _ Hown R)).
      destruct (inheritedDomain hostname f) eqn:E; [| reflexivity].
      apply (recordFeedback_throws p f Hown) in E. congruence.
    + apply (recordFeedback_throws p f Hown) in R. rewrite R. split; reflexivity.
Qed.

Lemma recordAll_counts (fs : list Learning.Feedback) (p p' : Learning.Patterns) (k : string) :
  Learning.recordAll hostname p fs = Some p' ->
  fixCount (Learning.successfulFixes p') k
  = (fixCount (Learning.successfulFixes p) k + successCount k fs)%nat.
Proof.
  revert p. induction fs as [| f fs IH]; intros p; simpl.
  - intros [= <-]. unfold successCount. simpl. lia.
  - destruct (Learning.recordFeedback hostname p f) as [p1 |] eqn:R; [| discriminate].
    intros H. rewrite (IH _ H), (recordFeedback_count _ _ _ k R).
    unfold successCount. simpl.
    destruct (Learning.fixed f && String.eqb (keyOf f) k); simpl; lia.
Qed.

Lemma recordAll_positive (fs : list Learning.Feedback) (p p' : Learning.Patterns) :
  positiveCounts (Learning.successfulFixes p) ->
  Learning.recordAll hostname p fs = Some p' ->
  positiveCounts (Learning.successfulFixes p').
Proof.
  revert p. induction fs as [| f fs IH]; intros p Hpos; simpl.
  - intros [= <-]. exact Hpos.
  - destruct (Learning.recordFeedback hostname p f) as [p1 |] eqn:R; [| discriminate].
    apply IH. exact (recordFeedback_positive _ _ _ Hpos R).
Qed.

Lemma empty_ownSites : ownSites (Learning.websitePatterns Learning.emptyPatterns).
Proof. intros d _. reflexivity. Qed.

Lemma empty_positive : positiveCounts (Learning.successfulFixes Learning.emptyPatterns).
Proof. intros k fx H. discriminate. Qed.

(** [extractPatterns] throws exactly when the page of some entry is on a
    host named like an inherited property. *)
Lemma extractPatterns_throws (fb : list Learning.Feedback) :
  Learning.extractPatterns hostname fb = None
  <-> existsb (inheritedDomain hostname) fb = true.
Proof.
  unfold Learning.extractPatterns.
  rewrite <- (recordAll_throws fb Learning.emptyPatterns empty_ownSites).
  destruct (Learning.recordAll hostname Learning.emptyPatterns fb); split; congruence.
Qed.

(** The confidence of a key is the score of its success count, and a key
    without a success has no confidence. *)
Lemma extractPatterns_confidence (fb : list Learning.Feedback) (p : Learning.Patterns)
    (k : string) :
  Learning.extractPatterns hostname fb = Some p ->
  JS.get (Learning.confidence p) k
  = if (successCount k fb =? 0)%nat then None
    else Some (tenthsConfidence (successCount k fb)).
Proof.
  unfold Learning.extractPatterns.
  destruct (Learning.recordAll hostname Learning.emptyPatterns fb) as [p0 |] eqn:R;
    [| discriminate].
  intros [= <-]. cbn [Learning.confidence]. unfold Learning.scoreAll.
  rewrite get_map.
  pose proof (recordAll_counts fb _ _ k R) as Hc.
  pose proof (recordAll_positive fb _ _ empty_positive R) as Hpos.
  unfold fixCount in Hc. simpl in Hc.
  destruct (JS.get (Learning.successfulFixes p0) k) as [fx |] eqn:G; simpl.
  - specialize (Hpos _ _ G). rewrite <- Hc.
    destruct (Nat.eqb_spec (Learning.count fx) 0); [lia | reflexivity].
  - rewrite <- Hc. reflexivity.
Qed.

Lemma confidenceFor_spec (fb : list Learning.Feedback) (k : string) :
  confidenceFor hostname fb k
  = if existsb (inheritedDomain hostname) fb then None
    else if (successCount k fb =? 0)%nat then None
    else Some (tenthsConfidence (successCount k fb)).
Proof.
  unfold confidenceFor.
  destruct (Learning.extractPatterns hostname fb) as [p |] eqn:E.
  - destruct (existsb (inheritedDomain hostname) fb) eqn:X.
    + apply extractPatterns_throws in X. congruence.
    + apply extractPatterns_confidence. exact E.
  - apply extractPatterns_throws in E. rewrite E. reflexivity.
Qed.

End PatternFacts.

(** ** Arithmetic of the scores *)

Lemma tenths_bounds (n : nat) : (0 <= tenthsConfidence n <= 1)%Q.
Proof.
  unfold tenthsConfidence. split.
  - apply Q.min_glb; [| lra].
    apply Qle_shift_div_l; [reflexivity |].
    rewrite Qmult_0_l. rewrite <- (Zle_Qle 0). lia.
  - apply Q.le_min_r.
Qed.

Lemma tenths_small (n : nat) :
  (n <= 10)%nat -> (tenthsConfidence n == inject_Z (Z.of_nat n) / 10)%Q.
Proof.
  intros H. unfold tenthsConfidence. apply Q.min_l.
  apply Qle_shift_div_r; [reflexivity |].
  rewrite Qmult_1_l. change 10%Q with (inject_Z 10). rewrite <- Zle_Qle. lia.
Qed.

Lemma tenths_monotone (n m : nat) :
  (n <= m)%nat -> (tenthsConfidence n <= tenthsConfidence m)%Q.
Proof.
  intros H. unfold tenthsConfidence.
  apply Q.min_le_compat_r.
  apply Qmult_le_compat_r; [| discriminate].
  rewrite <- Zle_Qle. lia.
Qed.

(** ** Confidence of a pattern *)

Lemma successCount_app (k : string) (fs gs : list Learning.Feedback) :
  successCount k (fs ++ gs) = (successCount k fs + successCount k gs)%nat.
Proof.
  unfold successCount. rewrite filter_app, length_app. reflexivity.
Qed.

(** C3, as the code has it.  [extractPatterns] returns unless the page
    of an entry is on a host named like an inherited property, and then
    the confidence of every key is [min(successCount / 10, 1)], where
    [successCount] counts the entries of that key marked fixed; a key
    without such an entry has no confidence.  Entries that are not marked
    fixed do not enter the score: appending one changes no confidence.
    Below ten successes the score is exactly [successCount / 10]. *)
Theorem C3_confidence_is_a_tenth_per_success :
  (forall hostname fb,
     Learning.extractPatterns hostname fb = None
     <-> existsb (inheritedDomain hostname) fb = true)
  /\ (forall hostname fb p k,
        Learning.extractPatterns hostname fb = Some p ->
        JS.get (Learning.confidence p) k
        = if (successCount k fb =? 0)%nat then None
          else Some (tenthsConfidence (successCount k fb)))
  /\ (forall hostname fb f k,
        Learning.fixed f = false ->
        inheritedDomain hostname f = false ->
        confidenceFor hostname (fb ++ [f]) k = confidenceFor hostname fb k)
  /\ (forall n, (n <= 10)%nat ->
        (tenthsConfidence n == inject_Z (Z.of_nat n) / 10)%Q).
Proof.
  split; [exact extractPatterns_throws |].
  split; [exact extractPatterns_confidence |].
  split; [| exact tenths_small].
  intros hostname fb f k Hfixed Hdom.
  rewrite !confidenceFor_spec, existsb_app, successCount_app.
  simpl. rewrite Hdom, orb_false_r.
  replace (successCount k [f]) with 0%nat
    by (unfold successCount; simpl; rewrite Hfixed; reflexivity).
  rewrite Nat.add_0_r. reflexivity.
Qed.

(** The theorem at three repaired entries and one that was not: the
    confidence is 3/10 with and without the last entry. *)
Lemma C3_witness :
  Learning.fixed down = false
  /\ inheritedDomain sampleHostname down = false
  /\ confidenceFor sampleHostname ([up; up; up] ++ [down]) "div.menu"
     = confidenceFor sampleHostname [up; up; up] "div.menu"
  /\ (tenthsConfidence 3 == inject_Z 3 / 10)%Q.
Proof.
  destruct C3_confidence_is_a_tenth_per_success as (_ & _ & Hneg & Hval).
  split; [reflexivity |]. split; [reflexivity |]. split.
  - apply Hneg; reflexivity.
  - apply (Hval 3%nat). repeat constructor.
Defined.

(** C3 as the specification words it fails: after three successes and one
    failure the ratio is 3/4, the code's confidence is 3/10, and it was 3/10
    before the failure was recorded; after a single success the ratio is 1
    and the code's confidence 1/10. *)
Lemma C3_counterexample :
  exists c c1,
    confidenceFor sampleHostname [up; up; up; down] "div.menu" = Some c
    /\ successCount "div.menu" [up; up; up; down] = 3%nat
    /\ failureCount "div.menu" [up; up; up; down] = 1%nat
    /\ (ratioConfidence 3 1 == 3 # 4)%Q
    /\ (c == 3 # 10)%Q
    /\ ~ (c == ratioConfidence 3 1)%Q
    /\ confidenceFor sampleHostname [up; up; up] "div.menu" = Some c
    /\ confidenceFor sampleHostname [up] "div.menu" = Some c1
    /\ (c1 == 1 # 10)%Q
    /\ (ratioConfidence 1 0 == 1)%Q.
Proof.
  exists (tenthsConfidence 3), (tenthsConfidence 1).
  repeat split; try reflexivity.
  intros H. vm_compute in H. discriminate.
Qed.

(** ** Confidence values are probabilities *)

Lemma ratio_bounds (a b : nat) :
  (a <= b)%nat -> (0 < b)%nat ->
  (0 <= inject_Z (Z.of_nat a) / inject_Z (Z.of_nat b) <= 1)%Q.
Proof.
  intros Hab Hb.
  assert (Hpos : (0 < inject_Z (Z.of_nat b))%Q).
  { rewrite <- (Zlt_Qlt 0). lia. }
  split.
  - apply Qle_shift_div_l; [exact Hpos |].
    rewrite Qmult_0_l. rewrite <- (Zle_Qle 0). lia.
  - apply Qle_shift_div_r; [exact Hpos |].
    rewrite Qmult_1_l. rewrite <- Zle_Qle. lia.
Qed.


Lemma filter_length_le {A} (f : A -> bool) (l : list A) :
  (List.length (filter f l) <= List.length l)%nat.
Proof.
  induction l as [| x l IH]; simpl; [lia |].
  destruct (f x); simpl; lia.
Qed.





(** The keys of the confidence object are distinct, so each of its
    values is what [get] returns for its key. *)
Lemma set_keys_nodup {V} (o : JS.obj V) (k : string) (v : V) :
  NoDup (JS.keys o) -> NoDup (JS.keys (JS.set o k v)).
Proof.
  unfold JS.keys. induction o as [| [k' v'] o IH]; simpl; intros Hnd.
  - constructor; [intros [] | constructor].
  - inversion Hnd as [| ? ? Hnotin Hnd']; subst.
    destruct (String.eqb k k') eqn:E; simpl.
    + constructor; assumption.
    + constructor; [| apply IH; exact Hnd'].
      intros Hin. apply Hnotin. clear - Hin E.
      induction o as [| [k0 v0] o IH]; simpl in *.
      * destruct Hin as [<- | []]. rewrite String.eqb_refl in E. discriminate.
      * destruct (String.eqb k k0); simpl in *; tauto.
Qed.

Lemma get_of_nodup {V} (o : JS.obj V) (k : string) (v : V) :
  NoDup (JS.keys o) -> In (k, v) o -> JS.get o k = Some v.
Proof.
  unfold JS.keys. induction o as [| [k' v'] o IH]; simpl; intros Hnd Hin; [tauto |].
  inversion Hnd as [| ? ? Hnotin Hnd']; subst.
  destruct Hin as [[= -> ->] | Hin].
  - rewrite String.eqb_refl. reflexivity.
  - destruct (String.eqb k k') eqn:E; [| apply IH; assumption].
    apply String.eqb_eq in E. subst k'.
    exfalso. apply Hnotin. apply (in_map fst) in Hin. exact Hin.
Qed.

Section KeyFacts.

Variable hostname : string -> option string.

Lemma recordAll_nodup (fs : list Learning.Feedback) (p p' : Learning.Patterns) :
  NoDup (JS.keys (Learning.successfulFixes p)) ->
  Learning.recordAll hostname p fs = Some p' ->
  NoDup (JS.keys (Learning.successfulFixes p')).
Proof.
  revert p. induction fs as [| f fs IH]; intros p Hnd; simpl.
  - intros [= <-]. exact Hnd.
  - destruct (Learning.recordFeedback hostname p f) as [p1 |] eqn:R; [| discriminate].
    apply IH. rewrite (recordFeedback_fixes hostname _ _ _ R).
    destruct (Learning.fixed f); [apply set_keys_nodup |]; exact Hnd.
Qed.

Lemma extractPatterns_values (fb : list Learning.Feedback) (p : Learning.Patterns) (c : Q) :
  Learning.extractPatterns hostname fb = Some p ->
  In c (map snd (Learning.confidence p)) ->
  exists k, JS.get (Learning.confidence p) k = Some c.
Proof.
  unfold Learning.extractPatterns.
  destruct (Learning.recordAll hostname Learning.emptyPatterns fb) as [p0 |] eqn:R;
    [| discriminate].
  intros [= <-]. cbn [Learning.confidence]. intros Hin.
  apply in_map_iff in Hin. destruct Hin as [[k v] [Hv Hin]]. simpl in Hv. subst v.
  exists k. apply get_of_nodup; [| exact Hin].
  unfold JS.keys, Learning.scoreAll. rewrite map_map. simpl.
  exact (recordAll_nodup fb Learning.emptyPatterns p0 (NoDup_nil _) R).
Qed.

Lemma extractPatterns_probability (fb : list Learning.Feedback) (p : Learning.Patterns)
    (k : string) (c : Q) :
  Learning.extractPatterns hostname fb = Some p ->
  JS.get (Learning.confidence p) k = Some c -> probability c.
Proof.
  intros E G. rewrite (extractPatterns_confidence hostname fb p k E) in G.
  destruct (successCount k fb =? 0)%nat; [discriminate |].
  injection G as <-. apply tenths_bounds.
Qed.



End KeyFacts.

(** ** The pattern-based generator of the server *)

Lemma classEvidence_spec (e : Server.ElementData) (p : Server.Patterns) :
  Server.ev_confidence (Server.classEvidence e p) = tally (isSome (learnedFix e p)) false false
  /\ Server.ev_rules (Server.classEvidence e p)
     = match learnedFix e p with Some f => [f] | None => [] end.
Proof.
  unfold Server.classEvidence, learnedFix, tally.
  destruct (Server.nonempty (Server.ed_classes e)) as [cs |]; [| split; reflexivity].
  destruct (JS.get (Server.commonSelectors p) _) as [sel |]; [| split; reflexivity].
  destruct (3 <=? Server.count sel)%nat; [| split; reflexivity].
  destruct (Server.some_truthy _); split; reflexivity.
Qed.

Lemma tagEvidence_spec (e : Server.ElementData) (p : Server.Patterns) (ev : Server.Evidence) :
  Server.ev_confidence (Server.tagEvidence e p ev)
  = (if typeSucceeds e p then (Server.ev_confidence ev + 0.3)%Q else Server.ev_confidence ev)
  /\ Server.ev_rules (Server.tagEvidence e p ev) = Server.ev_rules ev.
Proof.
  unfold Server.tagEvidence, typeSucceeds.
  destruct (Server.some_truthy (Server.ed_tag e)) as [t |]; [| split; reflexivity].
  destruct (JS.get (Server.elementTypeEffectiveness p) t) as [eff |]; [| split; reflexivity].
  destruct (JS.Qgtb _ _); split; reflexivity.
Qed.

Lemma domainEvidence_spec (domain : option string) (p : Server.Patterns)
    (ev ev' : Server.Evidence) :
  Server.domainEvidence domain p ev = Some ev' ->
  Server.ev_confidence ev'
  = (if domainKnown domain p then (Server.ev_confidence ev + 0.2)%Q else Server.ev_confidence ev)
  /\ Server.ev_rules ev' = Server.ev_rules ev.
Proof.
  unfold Server.domainEvidence, domainKnown.
  destruct (Server.some_truthy domain) as [d |]; [| intros [= <-]; split; reflexivity].
  destruct (JS.get (Server.domainSpecificPatterns p) d) as [dp |].
  - destruct (2 <=? _)%nat; intros [= <-]; split; reflexivity.
  - destruct (JS.inherited d); [discriminate |]. intros [= <-]; split; reflexivity.
Qed.

(** The evidence [generateSmartCSS] has gathered when it decides. *)
Lemma evidence_spec (e : Server.ElementData) (domain : option string)
    (p : Server.Patterns) (ev : Server.Evidence) :
  Server.domainEvidence domain p (Server.tagEvidence e p (Server.classEvidence e p)) = Some ev ->
  Server.ev_confidence ev
  = tally (isSome (learnedFix e p)) (typeSucceeds e p) (domainKnown domain p)
  /\ Server.ev_rules ev = match learnedFix e p with Some f => [f] | None => [] end.
Proof.
  intros H. destruct (domainEvidence_spec _ _ _ _ H) as [Hc Hr].
  destruct (tagEvidence_spec e p (Server.classEvidence e p)) as [Hc' Hr'].
  destruct (classEvidence_spec e p) as [Hc0 Hr0].
  split.
  - rewrite Hc, Hc', Hc0. unfold tally.
    destruct (isSome _), (typeSucceeds e p), (domainKnown domain p); reflexivity.
  - rewrite Hr, Hr', Hr0. reflexivity.
Qed.



Lemma learnedFix_observed (e : Server.ElementData) (p : Server.Patterns) (f : string) :
  learnedFix e p = Some f -> (3 <= observations e p)%nat.
Proof.
  unfold learnedFix, observations.
  destruct (Server.nonempty (Server.ed_classes e)) as [cs |]; [| discriminate].
  destruct (JS.get (Server.commonSelectors p) _) as [sel |]; [| discriminate].
  destruct (Nat.leb_spec 3 (Server.count sel)); [intros _; assumption | discriminate].
Qed.

(** C6.  Whenever [generateSmartCSS] returns, its confidence is the
    clamped sum of the three checks and its rules follow one of three
    cases, in this order.  (1) A learned pattern is stored for the class
    key: it is the rule text, the key has at least 3 observations, the
    confidence is at least 0.6 and the endpoint answers with it.  (2) No
    learned pattern, and the template table is consulted: the confidence is
    at least 0.3 (it is 0.5: the element type succeeds and the domain is
    known) and the rules are the table's.  (3) Otherwise no rule is emitted,
    and the confidence is at most 0.3.  Without a learned pattern the
    endpoint hands over to the remote generator. *)
Theorem C6_policy_is_threshold_gated (e : Server.ElementData) (domain : option string)
    (p : Server.Patterns) (r : Server.SmartCSS) :
  Server.generateSmartCSS e domain p = Some r ->
  Server.confidence r
  = Qmin (tally (isSome (learnedFix e p)) (typeSucceeds e p) (domainKnown domain p)) 1
  /\ match learnedFix e p with
     | Some f =>
         Server.rules r = f
         /\ (3 <= observations e p)%nat
         /\ (0.6 <= Server.confidence r)%Q
         /\ Server.respond (Some r)
            = Server.PatternBased f (Server.confidence r) (Server.reasoning r)
     | None =>
         Server.respond (Some r) = Server.FallbackToGemini
         /\ ((exists rs,
                Server.generateBasicDarkModeCSS e = Some rs
                /\ Server.rules r = JS.join JS.nl rs
                /\ (0.3 <= Server.confidence r)%Q
                /\ (Server.confidence r == 0.5)%Q)
             \/ (Server.rules r = "" /\ (Server.confidence r <= 0.3)%Q))
     end.
Proof.
  unfold Server.generateSmartCSS.
  destruct (Server.domainEvidence _ _ _) as [ev |] eqn:E; [| discriminate].
  destruct (evidence_spec _ _ _ _ E) as [Hc Hr]. rewrite Hr, Hc.
  destruct (learnedFix e p) as [f |] eqn:L; cbn [isSome].
  - intros [= <-]. cbn [Server.confidence Server.rules Server.reasoning].
    split; [reflexivity |]. split; [reflexivity |].
    split; [exact (learnedFix_observed _ _ _ L) |].
    unfold Server.respond. cbn [Server.confidence Server.rules Server.reasoning].
    destruct (typeSucceeds e p), (domainKnown domain p);
      (split; [discriminate | reflexivity]).
  - destruct (typeSucceeds e p), (domainKnown domain p);
      match goal with
      | |- context [JS.Qgtb ?c ?t] =>
          let b := eval vm_compute in (JS.Qgtb c t) in
          change (JS.Qgtb c t) with b; cbv iota
      end.
    + destruct (Server.generateBasicDarkModeCSS e) as [rs |]; [| discriminate].
      intros [= <-]. cbn [Server.confidence Server.rules Server.reasoning].
      split; [reflexivity |]. split; [reflexivity |].
      left. exists rs. repeat split; try reflexivity; discriminate.
    + intros [= <-]. split; [reflexivity |]. split; [reflexivity |].
      right. split; [reflexivity | discriminate].
    + intros [= <-]. split; [reflexivity |]. split; [reflexivity |].
      right. split; [reflexivity | discriminate].
    + intros [= <-]. split; [reflexivity |]. split; [reflexivity |].
      right. split; [reflexivity | discriminate].
Qed.

(** The theorem at a menu whose class key was fixed three times the same
    way: the stored fix is the answer. *)
Lemma C6_witness :
  Server.generateSmartCSS menuElement None menuPatterns
  = Some {| Server.rules := menuFix; Server.confidence := Qmin (0 + 0.8) 1;
            Server.reasoning := ["Based on 3 successful fixes for similar elements"] |}
  /\ (3 <= observations menuElement menuPatterns)%nat
  /\ Server.respond (Server.generateSmartCSS menuElement None menuPatterns)
     = Server.PatternBased menuFix (Qmin (0 + 0.8) 1)
         ["Based on 3 successful fixes for similar elements"].
Proof.
  assert (E : Server.generateSmartCSS menuElement None menuPatterns
              = Some {| Server.rules := menuFix; Server.confidence := Qmin (0 + 0.8) 1;
                        Server.reasoning :=
                          ["Based on 3 successful fixes for similar elements"] |})
    by reflexivity.
  pose proof (C6_policy_is_threshold_gated _ _ _ _ E) as [_ H].
  change (learnedFix menuElement menuPatterns) with (Some menuFix) in H.
  destruct H as (_ & Hobs & _ & Hresp).
  split; [exact E |]. split; [exact Hobs |].
  rewrite E. exact Hresp.
Defined.

(** The template table at work: a [nav] element whose type succeeds on a
    known domain gets the table's rule with confidence 0.5, which the
    endpoint does not pass on; with the type's success alone the confidence
    is 0.3 and no rule is emitted. *)
Example template_gate :
  Server.generateSmartCSS navElement (Some "example.org") menuPatterns
  = Some {| Server.rules := Server.rule_nav "nav";
            Server.confidence := Qmin (0 + 0.3 + 0.2) 1;
            Server.reasoning :=
              ["nav elements have 75% fix success rate";
               "Found 2 similar issues on this domain";
               "Generated basic dark mode CSS based on element type"] |}
  /\ Server.respond (Server.generateSmartCSS navElement (Some "example.org") menuPatterns)
     = Server.FallbackToGemini
  /\ Server.generateSmartCSS navElement None menuPatterns
     = Some {| Server.rules := "";
               Server.confidence := Qmin (0 + 0.3) 1;
               Server.reasoning := ["nav elements have 75% fix success rate"] |}.
Proof. repeat split. Qed.

(** ** The order of the buckets in [generatePredictiveCSS] *)

Lemma tenths_threshold (n : nat) :
  JS.Qgeb (tenthsConfidence n) Learning.learningThreshold = (7 <=? n)%nat.
Proof.
  unfold JS.Qgeb.
  destruct (Nat.leb_spec 7 n) as [H | H].
  - apply Qle_bool_iff.
    apply Qle_trans with (tenthsConfidence 7); [discriminate |].
    apply tenths_monotone. exact H.
  - destruct (Qle_bool _ _) eqn:E; [| reflexivity].
    apply Qle_bool_iff in E.
    assert (Hle : (tenthsConfidence n <= tenthsConfidence 6)%Q)
      by (apply tenths_monotone; lia).
    assert (Hlt : (tenthsConfidence 6 < Learning.learningThreshold)%Q) by reflexivity.
    exfalso. apply (Qlt_irrefl Learning.learningThreshold).
    apply Qle_lt_trans with (tenthsConfidence 6); [| exact Hlt].
    apply Qle_trans with (tenthsConfidence n); assumption.
Qed.

Lemma half_exceeded (a b : nat) :
  (0 < b)%nat ->
  JS.Qgtb (inject_Z (Z.of_nat a) / inject_Z (Z.of_nat b)) 0.5 = true ->
  (b < 2 * a)%nat.
Proof.
  intros Hb H. unfold JS.Qgtb, JS.Qltb in H.
  apply negb_true_iff in H.
  destruct (Nat.ltb_spec b (2 * a)) as [Hlt | Hge]; [exact Hlt | exfalso].
  assert (Hq : Qle_bool (inject_Z (Z.of_nat a) / inject_Z (Z.of_nat b)) 0.5 = true).
  { apply Qle_bool_iff.
    apply Qle_shift_div_r; [rewrite <- (Zlt_Qlt 0); lia |].
    unfold Qle, Qmult, inject_Z. cbn [Qnum Qden].
    change (Z.pos (1 * 10)) with 10%Z. change (Z.pos (10 * 1)) with 10%Z. lia. }
  congruence.
Qed.

Section BucketFacts.

Variable hostname : string -> option string.

Local Abbreviation domainOf f := (Learning.extractDomain hostname (Learning.url f)).

Lemma recordFeedback_site (p p' : Learning.Patterns) (f : Learning.Feedback) (d : string) :
  Learning.recordFeedback hostname p f = Some p' ->
  issuesOf (Learning.websitePatterns p') d
  = (issuesOf (Learning.websitePatterns p) d
     ++ if String.eqb (domainOf f) d then [f] else [])%list.
Proof.
  unfold Learning.recordFeedback, issuesOf. intros H.
  assert (Hset : forall site,
    JS.get (JS.set (Learning.websitePatterns p) (domainOf f) site) d
    = if String.eqb (domainOf f) d then Some site
      else JS.get (Learning.websitePatterns p) d).
  { intros site. destruct (String.eqb (domainOf f) d) eqn:E.
    - apply String.eqb_eq in E. subst d. apply get_set_same.
    - apply String.eqb_neq in E. apply get_set_other. exact E. }
  destruct (JS.get (Learning.websitePatterns p) (domainOf f)) as [site |] eqn:G.
  - injection H as <-. cbn [Learning.websitePatterns]. rewrite Hset.
    destruct (String.eqb (domainOf f) d) eqn:E.
    + apply String.eqb_eq in E. subst d. rewrite G. reflexivity.
    + rewrite app_nil_r. reflexivity.
  - destruct (JS.inherited _); [discriminate |].
    injection H as <-. cbn [Learning.websitePatterns]. rewrite Hset.
    destruct (String.eqb (domainOf f) d) eqn:E.
    + apply String.eqb_eq in E. subst d. rewrite G. reflexivity.
    + rewrite app_nil_r. reflexivity.
Qed.

Lemma recordAll_sites (fs : list Learning.Feedback) (p p' : Learning.Patterns) (d : string) :
  Learning.recordAll hostname p fs = Some p' ->
  issuesOf (Learning.websitePatterns p') d
  = (issuesOf (Learning.websitePatterns p) d ++ siteIssues hostname d fs)%list.
Proof.
  revert p. induction fs as [| f fs IH]; intros p; simpl.
  - intros [= <-]. rewrite app_nil_r. reflexivity.
  - destruct (Learning.recordFeedback hostname p f) as [p1 |] eqn:R; [| discriminate].
    intros H. rewrite (IH _ H), (recordFeedback_site _ _ _ d R), <- app_assoc.
    destruct (String.eqb (domainOf f) d); reflexivity.
Qed.

(** The bucket of a domain holds the entries recorded on its pages, in
    order. *)
Lemma extractPatterns_site (fb : list Learning.Feedback) (p : Learning.Patterns)
    (d : string) (site : Learning.Site) :
  Learning.extractPatterns hostname fb = Some p ->
  JS.get (Learning.websitePatterns p) d = Some site ->
  Learning.issues site = siteIssues hostname d fb.
Proof.
  unfold Learning.extractPatterns.
  destruct (Learning.recordAll hostname Learning.emptyPatterns fb) as [p0 |] eqn:R;
    [| discriminate].
  intros [= <-] G. cbn [Learning.websitePatterns] in G.
  pose proof (recordAll_sites fb _ _ d R) as Hs.
  unfold issuesOf in Hs. rewrite G in Hs. exact Hs.
Qed.

Lemma extractPatterns_fix (fb : list Learning.Feedback) (p : Learning.Patterns)
    (k : string) :
  Learning.extractPatterns hostname fb = Some p ->
  (successCount k fb <> 0)%nat ->
  exists fx, JS.get (Learning.successfulFixes p) k = Some fx
             /\ Learning.count fx = successCount k fb.
Proof.
  unfold Learning.extractPatterns.
  destruct (Learning.recordAll hostname Learning.emptyPatterns fb) as [p0 |] eqn:R;
    [| discriminate].
  intros [= <-] Hn. cbn [Learning.successfulFixes].
  pose proof (recordAll_counts hostname fb _ _ k R) as Hc.
  unfold fixCount in Hc. simpl in Hc.
  destruct (JS.get (Learning.successfulFixes p0) k) as [fx |].
  - exists fx. split; [reflexivity | exact Hc].
  - congruence.
Qed.

Lemma domainPrediction_source (p : Learning.Patterns) (d : string) (r : Learning.Prediction) :
  Learning.domainPrediction p d = Learning.Resolved (Some r) ->
  exists site,
    JS.get (Learning.websitePatterns p) d = Some site
    /\ (3 <= List.length (Learning.issues site))%nat
    /\ (List.length (Learning.issues site)
        < 2 * List.length (filter Learning.fixed (Learning.issues site)))%nat
    /\ Learning.source r = "domain_pattern"
    /\ Learning.pr_confidence r
       = (inject_Z (Z.of_nat (List.length (filter Learning.fixed (Learning.issues site))))
          / inject_Z (Z.of_nat (List.length (Learning.issues site))))%Q.
Proof.
  unfold Learning.domainPrediction.
  destruct (JS.get (Learning.websitePatterns p) d) as [site |];
    [| destruct (JS.inherited d); discriminate].
  unfold Learning.analyzeDomainPattern.
  destruct (Nat.ltb_spec (List.length (Learning.issues site)) 3) as [Hs | Hs];
    cbn [Learning.dp_confidence Learning.recommendedCSS].
  - discriminate.
  - destruct (JS.Qgtb _ _) eqn:E; [| discriminate].
    intros [= <-]. exists site. cbn [Learning.source Learning.pr_confidence].
    repeat split; try assumption.
    apply half_exceeded; [lia | exact E].
Qed.

End BucketFacts.

(** C7, as the code has it.  In [generatePredictiveCSS] the global bucket
    of the element key comes first: a key with at least 7 successes
    (confidence at least 0.7) is answered from it, whatever the bucket of
    the page's domain holds.  An answer from the domain bucket is given only
    when the key has fewer than 7 successes, and only when the bucket holds
    at least 3 issues of which more than half are fixed. *)
Theorem C7_global_bucket_first (hostname : string -> option string)
    (e : Learning.ElementData) (u : string) (st : Learning.Storage)
    (p : Learning.Patterns) :
  Learning.extractPatterns hostname (Learning.darkmode_feedback st) = Some p ->
  let fb := Learning.darkmode_feedback st in
  let k := Learning.elementKey (Learning.ed_tag e) (Learning.ed_classes e) in
  let d := Learning.extractDomain hostname u in
  ((7 <= successCount k fb)%nat ->
   exists rules,
     fst (Learning.generatePredictiveCSS hostname e u st)
     = Learning.Resolved
         (Some {| Learning.css := rules;
                  Learning.pr_confidence := tenthsConfidence (successCount k fb);
                  Learning.source := "learned_pattern";
                  Learning.basedOn := JS.nat_to_string (successCount k fb)
                                      ++ " previous fixes" |}))
  /\ (forall r,
        fst (Learning.generatePredictiveCSS hostname e u st) = Learning.Resolved (Some r) ->
        Learning.source r = "domain_pattern" ->
        (successCount k fb < 7)%nat
        /\ (3 <= domainIssues hostname d fb)%nat
        /\ (domainIssues hostname d fb < 2 * domainFixed hostname d fb)%nat
        /\ Learning.pr_confidence r
           = (inject_Z (Z.of_nat (domainFixed hostname d fb))
              / inject_Z (Z.of_nat (domainIssues hostname d fb)))%Q).
Proof.
  intros E. cbv zeta.
  unfold Learning.generatePredictiveCSS, Learning.analyzeFeedbackPatterns.
  rewrite E. cbn [fst].
  set (fb := Learning.darkmode_feedback st) in *.
  set (k := Learning.elementKey (Learning.ed_tag e) (Learning.ed_classes e)).
  set (d := Learning.extractDomain hostname u).
  pose proof (extractPatterns_confidence hostname fb p k E) as Hconf.
  split.
  - intros H7.
    destruct (extractPatterns_fix hostname fb p k E ltac:(lia)) as (fx & Gfx & Hcount).
    rewrite Hconf.
    destruct (Nat.eqb_spec (successCount k fb) 0) as [H0 | _]; [lia |].
    rewrite tenths_threshold.
    destruct (Nat.leb_spec 7 (successCount k fb)) as [_ | Hlt]; [| lia].
    rewrite Gfx. cbn [fst]. rewrite Hcount. eexists. reflexivity.
  - intros r Hr Hsrc.
    assert (Hdom : Learning.domainPrediction p d = Learning.Resolved (Some r) ->
      (3 <= domainIssues hostname d fb)%nat
      /\ (domainIssues hostname d fb < 2 * domainFixed hostname d fb)%nat
      /\ Learning.pr_confidence r
         = (inject_Z (Z.of_nat (domainFixed hostname d fb))
            / inject_Z (Z.of_nat (domainIssues hostname d fb)))%Q).
    { intros Hd. destruct (domainPrediction_source p d r Hd) as (site & G & H3 & Hh & _ & Hc).
      unfold domainIssues, domainFixed.
      rewrite <- (extractPatterns_site hostname fb p d site E G).
      repeat split; assumption. }
    rewrite Hconf in Hr.
    destruct (Nat.eqb_spec (successCount k fb) 0) as [H0 | Hn0].
    + cbn [fst] in Hr. split; [lia | apply Hdom; exact Hr].
    + rewrite tenths_threshold in Hr.
      destruct (Nat.leb_spec 7 (successCount k fb)) as [H7 | Hlt].
      * destruct (JS.get (Learning.successfulFixes p) k); cbn [fst] in Hr;
          [| discriminate].
        injection Hr as <-. cbn [Learning.source] in Hsrc. discriminate.
      * cbn [fst] in Hr. split; [exact Hlt | apply Hdom; exact Hr].
Qed.

(** The theorem at a store of seven repaired menus on one site (the
    global bucket answers), and at two repaired and one unrepaired menu,
    asked about another element of the same site (the domain bucket
    answers, with confidence 2/3). *)
Lemma C7_witness :
  (exists rules,
     fst (Learning.generatePredictiveCSS sampleHostname menuData examplePage
            (storeOf sevenUps))
     = Learning.Resolved
         (Some {| Learning.css := rules;
                  Learning.pr_confidence := tenthsConfidence 7;
                  Learning.source := "learned_pattern";
                  Learning.basedOn := "7 previous fixes" |}))
  /\ (exists r,
        fst (Learning.generatePredictiveCSS sampleHostname otherData examplePage
               (storeOf [up; up; down]))
        = Learning.Resolved (Some r)
        /\ Learning.source r = "domain_pattern"
        /\ domainIssues sampleHostname "example.org" [up; up; down] = 3%nat
        /\ domainFixed sampleHostname "example.org" [up; up; down] = 2%nat
        /\ Learning.pr_confidence r = (inject_Z 2 / inject_Z 3)%Q).
Proof.
  split.
  - destruct (Learning.extractPatterns sampleHostname sevenUps) as [p |] eqn:E;
      [| vm_compute in E; discriminate].
    destruct (C7_global_bucket_first sampleHostname menuData examplePage
                (storeOf sevenUps) p E) as [H _].
    apply H. vm_compute. apply le_n.
  - destruct (Learning.extractPatterns sampleHostname [up; up; down]) as [p |] eqn:E;
      [| vm_compute in E; discriminate].
    destruct (C7_global_bucket_first sampleHostname otherData examplePage
                (storeOf [up; up; down]) p E) as [_ H].
    destruct (fst (Learning.generatePredictiveCSS sampleHostname otherData examplePage
                     (storeOf [up; up; down]))) as [[r |] |] eqn:G;
      try (vm_compute in G; discriminate).
    assert (Hsrc : Learning.source r = "domain_pattern").
    { vm_compute in G. injection G as <-. reflexivity. }
    destruct (H r eq_refl Hsrc) as (_ & _ & _ & Hc).
    exists r. repeat split; try reflexivity; [exact Hsrc | exact Hc].
Defined.

(** C7 as the specification words it fails: with seven repaired menus
    recorded on one site, the domain bucket holds seven issues and would
    answer by its own rule, yet the answer for the menu comes from the
    global bucket; and a domain bucket of two issues, both repaired, is not
    trusted for another element of the site. *)
Lemma C7_counterexample :
  exists r rd p,
    fst (Learning.generatePredictiveCSS sampleHostname menuData examplePage
           (storeOf sevenUps))
    = Learning.Resolved (Some r)
    /\ Learning.source r = "learned_pattern"
    /\ Learning.extractPatterns sampleHostname sevenUps = Some p
    /\ Learning.domainPrediction p "example.org" = Learning.Resolved (Some rd)
    /\ Learning.source rd = "domain_pattern"
    /\ domainIssues sampleHostname "example.org" sevenUps = 7%nat
    /\ domainIssues sampleHostname "example.org" [up; up] = 2%nat
    /\ fst (Learning.generatePredictiveCSS sampleHostname otherData examplePage
              (storeOf [up; up]))
       = Learning.Resolved None.
Proof.
  do 3 eexists.
  split; [vm_compute; reflexivity |].
  split; [reflexivity |].
  split; [vm_compute; reflexivity |].
  split; [vm_compute; reflexivity |].
  repeat split.
Qed.




(** ** The colour patterns *)

Lemma truthy_iff (s : string) : JS.truthy s = true <-> s <> "".
Proof. destruct s; simpl; split; congruence. Qed.

Lemma span_spec (p : ascii -> bool) (s a b : string) :
  JS.span p s = (a, b) -> s = a ++ b /\ every p a = true /\ stops p b.
Proof.
  revert a b. induction s as [| c s IH]; simpl; intros a b H.
  - injection H as <- <-. repeat split.
  - destruct (p c) eqn:Pc.
    + destruct (JS.span p s) as [a' b'] eqn:E. injection H as <- <-.
      destruct (IH a' b' eq_refl) as (-> & Ha & Hb).
      simpl. rewrite Pc, Ha. repeat split. exact Hb.
    + injection H as <- <-. simpl. repeat split. exact Pc.
Qed.

Lemma span_app (p : ascii -> bool) (a b : string) :
  every p a = true -> stops p b -> JS.span p (a ++ b) = (a, b).
Proof.
  induction a as [| c a IH]; simpl; intros Ha Hb.
  - destruct b as [| c b]; [reflexivity |]. simpl in Hb. simpl. rewrite Hb. reflexivity.
  - apply andb_true_iff in Ha. destruct Ha as [Pc Ha].
    rewrite Pc, (IH Ha Hb). reflexivity.
Qed.

Lemma expect_spec (c : ascii) (s r : string) :
  Content.expect c s = Some r <-> s = String c r.
Proof.
  unfold Content.expect. destruct s as [| d s].
  - split; discriminate.
  - destruct (Ascii.eqb_spec d c) as [-> | Hne].
    + split; congruence.
    + split; [discriminate | congruence].
Qed.

Lemma digits1_spec (s d r : string) :
  Content.digits1 s = Some (d, r) -> s = d ++ r /\ digitsText d /\ stops JS.is_digit r.
Proof.
  unfold Content.digits1. destruct (JS.span JS.is_digit s) as [a b] eqn:E.
  destruct (JS.truthy a) eqn:T; [| discriminate].
  intros [= <- <-]. destruct (span_spec _ _ _ _ E) as (Hs & Ha & Hb).
  repeat split; try assumption. apply truthy_iff. exact T.
Qed.

Lemma digits1_app (d r : string) :
  digitsText d -> stops JS.is_digit r -> Content.digits1 (d ++ r) = Some (d, r).
Proof.
  intros [Hne Hd] Hr. unfold Content.digits1.
  rewrite (span_app _ _ _ Hd Hr).
  apply truthy_iff in Hne. rewrite Hne. reflexivity.
Qed.

Lemma skipSpaces_spec (s : string) :
  exists w, s = w ++ Content.skipSpaces s /\ blank w.
Proof.
  unfold Content.skipSpaces. destruct (JS.span JS.is_space s) as [a b] eqn:E.
  destruct (span_spec _ _ _ _ E) as (Hs & Ha & _).
  exists a. split; assumption.
Qed.

Lemma skipSpaces_app (w r : string) :
  blank w -> stops JS.is_space r -> Content.skipSpaces (w ++ r) = r.
Proof.
  intros Hw Hr. unfold Content.skipSpaces. rewrite (span_app _ _ _ Hw Hr). reflexivity.
Qed.

(** A text that starts with a character of one class stops every class
    that excludes the character. *)
Lemma stops_head (p q : ascii -> bool) (d r : string) :
  d <> "" -> every p d = true ->
  (forall c, p c = true -> q c = false) -> stops q (d ++ r).
Proof.
  intros Hne Hd Hpq. destruct d as [| c d]; [congruence |].
  simpl in *. apply andb_true_iff in Hd. apply Hpq. tauto.
Qed.

Lemma digit_not_space (c : ascii) : JS.is_digit c = true -> JS.is_space c = false.
Proof.
  unfold JS.is_digit, JS.is_space. intros H.
  apply andb_true_iff in H. destruct H as [H1 H2].
  apply Nat.leb_le in H1. apply Nat.leb_le in H2.
  assert (E : JS.code c = 48 \/ JS.code c = 49 \/ JS.code c = 50 \/ JS.code c = 51
              \/ JS.code c = 52 \/ JS.code c = 53 \/ JS.code c = 54 \/ JS.code c = 55
              \/ JS.code c = 56 \/ JS.code c = 57) by lia.
  repeat (destruct E as [E | E]; [rewrite E; reflexivity |]).
  rewrite E. reflexivity.
Qed.

Lemma alpha_not_space (c : ascii) :
  Content.is_alpha_char c = true -> JS.is_space c = false.
Proof.
  unfold Content.is_alpha_char. intros H. apply orb_true_iff in H.
  destruct H as [H | H]; [apply digit_not_space; exact H |].
  apply Nat.eqb_eq in H. unfold JS.is_space. rewrite H. reflexivity.
Qed.

Lemma alphaPart_spec (s : string) (al : option string) :
  Content.alphaPart s = Some al ->
  exists w3 post,
    s = match al with
        | None => ")" ++ post
        | Some x => "," ++ w3 ++ x ++ ")" ++ post
        end
    /\ match al with
       | None => True
       | Some x => blank w3 /\ alphaText x
       end.
Proof.
  unfold Content.alphaPart. destruct s as [| c s]; [discriminate |].
  destruct c as [[] [] [] [] [] [] [] []]; try discriminate.
  - intros [= <-]. exists "", s. split; [reflexivity | exact I].
  - destruct (skipSpaces_spec s) as (w & Hs & Hw).
    destruct (JS.span Content.is_alpha_char (Content.skipSpaces s)) as [a r'] eqn:E.
    destruct (span_spec _ _ _ _ E) as (Hsk & Ha & _).
    destruct (JS.truthy a) eqn:T; [| discriminate].
    destruct r' as [| c' r']; [discriminate |].
    destruct c' as [[] [] [] [] [] [] [] []]; try discriminate.
    intros [= <-]. exists w, r'. split.
    + simpl. rewrite Hs at 1. rewrite Hsk. reflexivity.
    + split; [exact Hw |]. split; [apply truthy_iff; exact T | exact Ha].
Qed.

Lemma channels_sound (s d1 d2 d3 : string) (al : option string) :
  Content.channels s = Some (d1, d2, d3, al) ->
  exists w1 w2 w3 post,
    digitsText d1 /\ blank w1 /\ digitsText d2 /\ blank w2 /\ digitsText d3
    /\ s = "(" ++ d1 ++ "," ++ w1 ++ d2 ++ "," ++ w2 ++ d3
           ++ match al with
              | None => ")" ++ post
              | Some x => "," ++ w3 ++ x ++ ")" ++ post
              end
    /\ match al with
       | None => True
       | Some x => blank w3 /\ alphaText x
       end.
Proof.
  unfold Content.channels.
  destruct (Content.expect "(" s) as [s1 |] eqn:E1; [| discriminate].
  apply expect_spec in E1.
  destruct (Content.digits1 s1) as [[a1 s2] |] eqn:D1; [| discriminate].
  apply digits1_spec in D1. destruct D1 as (H1 & Hd1 & _).
  destruct (Content.expect "," s2) as [s3 |] eqn:E2; [| discriminate].
  apply expect_spec in E2.
  destruct (skipSpaces_spec s3) as (w1 & Hw1 & Bw1).
  destruct (Content.digits1 (Content.skipSpaces s3)) as [[a2 s4] |] eqn:D2; [| discriminate].
  apply digits1_spec in D2. destruct D2 as (H2 & Hd2 & _).
  destruct (Content.expect "," s4) as [s5 |] eqn:E3; [| discriminate].
  apply expect_spec in E3.
  destruct (skipSpaces_spec s5) as (w2 & Hw2 & Bw2).
  destruct (Content.digits1 (Content.skipSpaces s5)) as [[a3 s6] |] eqn:D3; [| discriminate].
  apply digits1_spec in D3. destruct D3 as (H3 & Hd3 & _).
  destruct (Content.alphaPart s6) as [a |] eqn:A; [| discriminate].
  destruct (alphaPart_spec _ _ A) as (w3 & post & Hs6 & Hal).
  intros [= <- <- <- <-].
  exists w1, w2, w3, post.
  repeat (split; [assumption |]). split; [| exact Hal].
  rewrite E1, H1, E2, Hw1, H2, E3, Hw2, H3, Hs6. reflexivity.
Qed.

Lemma channels_complete (d1 d2 d3 w1 w2 w3 post : string) (al : option string) :
  digitsText d1 -> blank w1 -> digitsText d2 -> blank w2 -> digitsText d3 ->
  match al with
  | None => True
  | Some x => blank w3 /\ alphaText x
  end ->
  Content.channels
    ("(" ++ d1 ++ "," ++ w1 ++ d2 ++ "," ++ w2 ++ d3
     ++ match al with
        | None => ")" ++ post
        | Some x => "," ++ w3 ++ x ++ ")" ++ post
        end)
  = Some (d1, d2, d3, al).
Proof.
  intros Hd1 Bw1 Hd2 Bw2 Hd3 Hal.
  assert (Hstop : forall d r, digitsText d -> stops JS.is_space (d ++ r)).
  { intros d r [Hne Hd]. exact (stops_head _ _ d r Hne Hd digit_not_space). }
  unfold Content.channels. cbn [Content.expect append Ascii.eqb Bool.eqb].
  rewrite (digits1_app d1 _ Hd1) by reflexivity.
  cbn [Content.expect append Ascii.eqb Bool.eqb].
  rewrite (skipSpaces_app w1 _ Bw1 (Hstop _ _ Hd2)).
  rewrite (digits1_app d2 _ Hd2) by reflexivity.
  cbn [Content.expect append Ascii.eqb Bool.eqb].
  rewrite (skipSpaces_app w2 _ Bw2 (Hstop _ _ Hd3)).
  destruct al as [x |].
  - destruct Hal as [Bw3 [Hne Hx]].
    rewrite (digits1_app d3 _ Hd3) by reflexivity.
    unfold Content.alphaPart. cbn [append].
    rewrite (skipSpaces_app w3 _ Bw3 (stops_head _ _ x _ Hne Hx alpha_not_space)).
    rewrite (span_app Content.is_alpha_char x (String ")" post) Hx) by reflexivity.
    apply truthy_iff in Hne. rewrite Hne. reflexivity.
  - rewrite (digits1_app d3 _ Hd3) by reflexivity. reflexivity.
Qed.

Lemma prefix_drop (p s : string) :
  prefix p s = true -> s = p ++ JS.drop (String.length p) s.
Proof.
  revert s. induction p as [| c p IH]; intros s.
  - intros _. destruct s; reflexivity.
  - destruct s as [| d s]; simpl; [discriminate |].
    destruct (ascii_dec c d) as [-> | _]; [| discriminate].
    intros H. f_equal. apply IH. exact H.
Qed.

Lemma prefix_app (p r : string) : prefix p (p ++ r) = true.
Proof.
  induction p as [| c p IH]; simpl.
  - destruct r; reflexivity.
  - destruct (ascii_dec c c); [exact IH | congruence].
Qed.

Lemma rgbaHere_sound (s d1 d2 d3 : string) (al : option string) :
  Content.rgbaHere s = Some (d1, d2, d3, al) ->
  exists a rest, (a = "" \/ a = "a") /\ s = "rgb" ++ a ++ rest
                 /\ Content.channels rest = Some (d1, d2, d3, al).
Proof.
  unfold Content.rgbaHere. destruct (prefix "rgb" s) eqn:P; [| discriminate].
  apply prefix_drop in P. simpl String.length in P.
  destruct (Content.expect "a" (JS.drop 3 s)) as [rest' |] eqn:E.
  - apply expect_spec in E.
    destruct (Content.channels rest') eqn:C.
    + intros [= ->]. exists "a", rest'. repeat split; [right; reflexivity | | exact C].
      rewrite P at 1. rewrite E. reflexivity.
    + intros C'. exists "", (JS.drop 3 s). repeat split; [left; reflexivity | | exact C'].
      rewrite P at 1. reflexivity.
  - intros C'. exists "", (JS.drop 3 s). repeat split; [left; reflexivity | | exact C'].
    rewrite P at 1. reflexivity.
Qed.

Lemma rgbaHere_complete (a rest : string) g :
  (a = "" \/ a = "a") ->
  (forall r, rest <> String "a" r) ->
  Content.channels rest = Some g ->
  Content.rgbaHere ("rgb" ++ a ++ rest) = Some g.
Proof.
  intros Ha Hrest C. unfold Content.rgbaHere.
  destruct Ha as [-> | ->].
  - rewrite prefix_app.
    change (JS.drop 3 ("rgb" ++ "" ++ rest)) with rest.
    destruct (Content.expect "a" rest) as [r |] eqn:E; [| exact C].
    apply expect_spec in E. exfalso. exact (Hrest r E).
  - rewrite prefix_app.
    change (JS.drop 3 ("rgb" ++ "a" ++ rest)) with (String "a" rest).
    change (Content.expect "a" (String "a" rest)) with (Some rest).
    cbv beta iota. rewrite C. reflexivity.
Qed.

(** [rgbaMatch] finds a match exactly when the text contains one, and
    what it returns are the groups of a match. *)
Lemma rgbaMatch_sound (s d1 d2 d3 : string) (al : option string) :
  Content.rgbaMatch s = Some (d1, d2, d3, al) -> containsRgbaWith s d1 d2 d3 al.
Proof.
  induction s as [| c s IH].
  - simpl. unfold Content.rgbaHere. simpl. discriminate.
  - cbn [Content.rgbaMatch].
    destruct (Content.rgbaHere (String c s)) as [g |] eqn:E.
    + intros [= ->]. apply rgbaHere_sound in E.
      destruct E as (a & rest & Ha & Hs & C).
      destruct (channels_sound _ _ _ _ _ C)
        as (w1 & w2 & w3 & post & H1 & B1 & H2 & B2 & H3 & Hrest & Hal).
      exists "", a, w1, w2, w3, post.
      repeat (split; [assumption |]). split; [| exact Hal].
      rewrite Hs, Hrest. reflexivity.
    + intros H. destruct (IH H) as (pre & a & w1 & w2 & w3 & post & Hx).
      exists (String c pre), a, w1, w2, w3, post.
      destruct Hx as (Ha & H1 & B1 & H2 & B2 & H3 & Hs & Hal).
      repeat (split; [assumption |]). split; [| exact Hal].
      rewrite Hs. reflexivity.
Qed.

Lemma rgbaMatch_complete (s : string) :
  containsRgba s -> Content.rgbaMatch s <> None.
Proof.
  intros (d1 & d2 & d3 & al & pre & a & w1 & w2 & w3 & post
          & Ha & H1 & B1 & H2 & B2 & H3 & -> & Hal).
  induction pre as [| c pre IH].
  - pose proof (channels_complete d1 d2 d3 w1 w2 w3 post al H1 B1 H2 B2 H3 Hal) as C.
    assert (E := fun Hr => rgbaHere_complete a _ _ Ha Hr C).
    specialize (E ltac:(intros r; cbn [append]; discriminate)).
    cbn [append] in E |- *.
    cbn [Content.rgbaMatch]. rewrite E. discriminate.
  - cbn [append Content.rgbaMatch].
    destruct (Content.rgbaHere _); [discriminate | exact IH].
Qed.

Lemma hexMatch_spec (s h : string) :
  Content.hexMatch s = Some h <-> isHexColorWith s h.
Proof.
  assert (Hall : forall x, Content.all_hex x = every JS.is_hex x).
  { induction x as [| c x IH]; simpl; [| rewrite IH]; reflexivity. }
  unfold isHexColorWith. split.
  - unfold Content.hexMatch. destruct s as [| c s]; [discriminate |].
    destruct c as [[] [] [] [] [] [] [] []]; try discriminate.
    rewrite Hall.
    destruct (every JS.is_hex s) eqn:A; [| discriminate]. cbn [andb].
    destruct (Nat.eqb_spec (String.length s) 3) as [L3 | _]; cbn [orb].
    + intros [= <-]. split; [reflexivity |]. split; [exact A | left; exact L3].
    + destruct (Nat.eqb_spec (String.length s) 6) as [L6 | _]; [| discriminate].
      intros [= <-]. split; [reflexivity |]. split; [exact A | right; exact L6].
  - intros (-> & A & L). cbn [append Content.hexMatch]. rewrite Hall, A.
    destruct L as [-> | ->]; reflexivity.
Qed.

(** ** [parseColor] *)

Lemma digits_value_nonneg (base : Z) (digit : ascii -> Z) (s : string) (acc : Z) :
  (0 <= base)%Z -> (forall c, 0 <= digit c)%Z -> (0 <= acc)%Z ->
  (0 <= JS.digits_value base digit acc s)%Z.
Proof.
  intros Hb Hd. revert acc. induction s as [| c s IH]; simpl; intros acc Hacc.
  - exact Hacc.
  - apply IH. specialize (Hd c). nia.
Qed.

Lemma parseInt_nonneg (s : string) : (0 <= JS.parseInt s)%Z.
Proof.
  apply digits_value_nonneg; try lia. intros c. unfold JS.dec_digit. lia.
Qed.

Lemma parseInt16_nonneg (s : string) : (0 <= JS.parseInt16 s)%Z.
Proof.
  apply digits_value_nonneg; try lia. intros c. unfold JS.hex_digit.
  destruct (JS.is_digit c); [lia |]. destruct (97 <=? JS.code c)%nat; lia.
Qed.

Lemma parseColor_default (s : string) :
  s <> "" -> s <> "transparent" -> ~ containsRgba s -> ~ isHexColor s ->
  Content.parseColor (Some s) = opaqueBlack.
Proof.
  intros Hne Htr Hrgba Hhex. unfold Content.parseColor.
  apply truthy_iff in Hne. rewrite Hne.
  apply String.eqb_neq in Htr. rewrite Htr. cbn [negb orb].
  destruct (Content.rgbaMatch s) as [[[[d1 d2] d3] al] |] eqn:R.
  - exfalso. apply Hrgba. exists d1, d2, d3, al. apply rgbaMatch_sound. exact R.
  - destruct (Content.hexMatch s) as [h |] eqn:H; [| reflexivity].
    exfalso. apply Hhex. exists h. apply hexMatch_spec. exact H.
Qed.

Lemma parseColor_channels (s : option string) :
  (0 <= Content.r (Content.parseColor s))%Z
  /\ (0 <= Content.g (Content.parseColor s))%Z
  /\ (0 <= Content.b (Content.parseColor s))%Z.
Proof.
  unfold Content.parseColor.
  destruct s as [s |]; [| cbn; lia].
  destruct (negb (JS.truthy s) || String.eqb s "transparent"); [cbn; lia |].
  destruct (Content.rgbaMatch s) as [[[[d1 d2] d3] al] |].
  - cbn. repeat split; apply parseInt_nonneg.
  - destruct (Content.hexMatch s) as [h |]; [| cbn; lia].
    destruct h as [| h0 [| h1 [| h2 [| h3 h]]]];
      cbn [Content.r Content.g Content.b]; repeat split; apply parseInt16_nonneg.
Qed.

(** C9.  [parseColor] is a total function into records of three integer
    channels, which are never negative, and a number.  On [null], the empty
    string and [transparent] it returns black with alpha 0.  On every other
    string that contains no match of the [rgb()]/[rgba()] pattern and is not
    a 3- or 6-digit hexadecimal colour it returns black with alpha 1; a
    colour name such as [red] is such a string. *)
Theorem C9_parseColor_defaults :
  Content.parseColor None = transparentBlack
  /\ Content.parseColor (Some "") = transparentBlack
  /\ Content.parseColor (Some "transparent") = transparentBlack
  /\ (forall s,
        s <> "" -> s <> "transparent" -> ~ containsRgba s -> ~ isHexColor s ->
        Content.parseColor (Some s) = opaqueBlack)
  /\ (forall s,
        (0 <= Content.r (Content.parseColor s))%Z
        /\ (0 <= Content.g (Content.parseColor s))%Z
        /\ (0 <= Content.b (Content.parseColor s))%Z)
  /\ (forall s, Content.rgbaMatch s = None <-> ~ containsRgba s)
  /\ (forall s, Content.hexMatch s = None <-> ~ isHexColor s).
Proof.
  split; [reflexivity |]. split; [reflexivity |]. split; [reflexivity |].
  split; [exact parseColor_default |].
  split; [exact parseColor_channels |].
  split.
  - intros s. split.
    + intros R C. exact (rgbaMatch_complete s C R).
    + intros C. destruct (Content.rgbaMatch s) as [[[[d1 d2] d3] al] |] eqn:R;
        [| reflexivity].
      exfalso. apply C. exists d1, d2, d3, al. apply rgbaMatch_sound. exact R.
  - intros s. split.
    + intros H [h Hh]. apply hexMatch_spec in Hh. congruence.
    + intros C. destruct (Content.hexMatch s) as [h |] eqn:H; [| reflexivity].
      exfalso. apply C. exists h. apply hexMatch_spec. exact H.
Qed.

(** The theorem at the colour name [red]. *)
Lemma C9_witness :
  "red" <> "" /\ "red" <> "transparent" /\ ~ containsRgba "red" /\ ~ isHexColor "red"
  /\ Content.parseColor (Some "red") = opaqueBlack.
Proof.
  destruct C9_parseColor_defaults as (_ & _ & _ & Hdef & _ & Hrgba & Hhex).
  assert (H1 : "red" <> "") by discriminate.
  assert (H2 : "red" <> "transparent") by discriminate.
  assert (H3 : ~ containsRgba "red") by (apply Hrgba; reflexivity).
  assert (H4 : ~ isHexColor "red") by (apply Hhex; reflexivity).
  repeat (split; [assumption |]).
  exact (Hdef "red" H1 H2 H3 H4).
Defined.

(** The patterns at work on the texts a browser computes. *)
Example parseColor_samples :
  Content.parseColor (Some "rgb(255, 255, 255)")
  = {| Content.r := 255; Content.g := 255; Content.b := 255; Content.alpha := JS.Num 1 |}
  /\ Content.parseColor (Some "rgba(0, 0, 0, 0)") = transparentBlack
  /\ Content.parseColor (Some "#1a2B3c")
     = {| Content.r := 26; Content.g := 43; Content.b := 60; Content.alpha := JS.Num 1 |}
  /\ Content.parseColor (Some "#fff")
     = {| Content.r := 255; Content.g := 255; Content.b := 255; Content.alpha := JS.Num 1 |}
  /\ Content.parseColor (Some "white") = opaqueBlack
  /\ Content.alpha (Content.parseColor (Some "rgba(1,2,3,.)")) = JS.NaN.
Proof. repeat split. Qed.

(** ** Contrast *)

Lemma Qltb_lt (x y : Q) : JS.Qltb x y = true <-> (x < y)%Q.
Proof.
  unfold JS.Qltb. rewrite negb_true_iff. split.
  - intros H. apply Qnot_le_lt. intros Hle. apply Qle_bool_iff in Hle. congruence.
  - intros H. destruct (Qle_bool y x) eqn:E; [| reflexivity].
    apply Qle_bool_iff in E. exfalso. exact (Qlt_not_le _ _ H E).
Qed.

Section ContrastFacts.

Variable pow : Q -> Q -> Q.

(** [Math.pow(1, 2.4)] is 1. *)
Hypothesis pow_one : forall x, (x == 1)%Q -> (pow x 2.4 == 1)%Q.











End ContrastFacts.



(** ** The tags of the classifiers *)

Lemma problemsOf_tags (el : AddDarkClass.Node) (style : AddDarkClass.Style) (vw vh : Q) (t : string) :
  In t (AddDarkClass.problemsOf el style vw vh) -> In t loopTags.
Proof.
  unfold AddDarkClass.problemsOf, loopTags. split_conditions; simpl; tauto.
Qed.

Lemma detectDarkModeIssues_tags (pow : Q -> Q -> Q) (text : string)
    (cs : Content.ComputedStyle) (t : string) :
  In t (Content.detectDarkModeIssues pow text cs) -> In t selectionTags.
Proof.
  unfold Content.detectDarkModeIssues, selectionTags. split_conditions; simpl; tauto.
Qed.

Lemma trim_nonempty (s : string) : JS.trim s <> "" -> s <> "".
Proof. intros H ->. apply H. reflexivity. Qed.

Lemma problemsOf_hidden (el : AddDarkClass.Node) (style : AddDarkClass.Style) (vw vh : Q) :
  ~ (AddDarkClass.rectWidth el == 0)%Q -> ~ (AddDarkClass.rectHeight el == 0)%Q ->
  In "hidden_content" (AddDarkClass.problemsOf el style vw vh)
  <-> AddDarkClass.visibility style = "hidden" /\ JS.trim (AddDarkClass.textContent el) <> "".
Proof.
  intros Hw Hh. unfold AddDarkClass.problemsOf.
  destruct (Qeq_bool (AddDarkClass.rectWidth el) 0) eqn:Ew;
    [apply Qeq_bool_iff in Ew; contradiction |].
  destruct (Qeq_bool (AddDarkClass.rectHeight el) 0) eqn:Eh;
    [apply Qeq_bool_iff in Eh; contradiction |].
  cbn [orb].
  destruct (String.eqb_spec (AddDarkClass.visibility style) "hidden") as [Hv | Hv];
    destruct (JS.truthy (JS.trim (AddDarkClass.textContent el))) eqn:T.
  - assert (Ht : JS.truthy (AddDarkClass.textContent el) = true).
    { apply truthy_iff. apply trim_nonempty. apply truthy_iff. exact T. }
    rewrite Ht. cbn [andb]. split.
    + intros _. split; [exact Hv | apply truthy_iff; exact T].
    + intros _. do 3 (apply in_or_app; right). left. reflexivity.
  - rewrite andb_false_r. split.
    + intros H. exfalso. revert H. split_conditions; simpl; intuition discriminate.
    + intros [_ H]. apply truthy_iff in H. congruence.
  - cbn [andb]. split.
    + intros H. exfalso. revert H. split_conditions; simpl; intuition discriminate.
    + intros [H _]. contradiction.
  - cbn [andb]. split.
    + intros H. exfalso. revert H. split_conditions; simpl; intuition discriminate.
    + intros [H _]. contradiction.
Qed.

(** C5, as the code has it.  The classifier of the analysis loop
    ([analyzeDarkModeIssues]) emits [hidden_content] for an element with a
    rendered box exactly when its visibility is [hidden] and its text is not
    blank, that is, non-empty once trimmed; its tags are
    [transparent_menu_background], [poor_contrast], [white_background] and
    [hidden_content], all in the taxonomy of the specification.  The
    classifier of a selected element ([detectDarkModeIssues]) has six tags
    of its own and [hidden_content] is not among them. *)
Theorem C5_hidden_content_needs_visible_text :
  (forall el style vw vh,
     ~ (AddDarkClass.rectWidth el == 0)%Q -> ~ (AddDarkClass.rectHeight el == 0)%Q ->
     AddDarkClass.visibility style = "hidden" ->
     JS.trim (AddDarkClass.textContent el) <> "" ->
     In "hidden_content" (AddDarkClass.problemsOf el style vw vh))
  /\ (forall el style vw vh,
        In "hidden_content" (AddDarkClass.problemsOf el style vw vh) ->
        AddDarkClass.visibility style = "hidden" /\ JS.trim (AddDarkClass.textContent el) <> "")
  /\ (forall el style vw vh t,
        In t (AddDarkClass.problemsOf el style vw vh) -> In t loopTags /\ In t specTags)
  /\ (forall pow text cs t,
        In t (Content.detectDarkModeIssues pow text cs) ->
        In t selectionTags /\ t <> "hidden_content").
Proof.
  split.
  { intros el style vw vh Hw Hh Hv Ht. apply problemsOf_hidden; tauto. }
  split.
  { intros el style vw vh H.
    destruct (Qeq_bool (AddDarkClass.rectWidth el) 0) eqn:Ew.
    - unfold AddDarkClass.problemsOf in H. rewrite Ew in H. destruct H.
    - destruct (Qeq_bool (AddDarkClass.rectHeight el) 0) eqn:Eh.
      + unfold AddDarkClass.problemsOf in H. rewrite Ew, Eh in H. destruct H.
      + apply (problemsOf_hidden el style vw vh); [| | exact H];
          intros X; apply Qeq_bool_iff in X; congruence. }
  split.
  { intros el style vw vh t H. apply problemsOf_tags in H. split; [exact H |].
    unfold loopTags in H. unfold specTags. simpl in *. tauto. }
  intros pow text cs t H. apply detectDarkModeIssues_tags in H. split; [exact H |].
  unfold selectionTags in H. simpl in H.
  intros ->. repeat (destruct H as [H | H]; [discriminate |]). exact H.
Qed.

(** The theorem at a hidden element whose text is a word between
    spaces. *)
Lemma C5_witness :
  ~ (AddDarkClass.rectWidth (hiddenNode " Menu ") == 0)%Q
  /\ ~ (AddDarkClass.rectHeight (hiddenNode " Menu ") == 0)%Q
  /\ AddDarkClass.visibility hiddenStyle = "hidden"
  /\ JS.trim (AddDarkClass.textContent (hiddenNode " Menu ")) = "Menu"
  /\ In "hidden_content" (AddDarkClass.problemsOf (hiddenNode " Menu ") hiddenStyle 1920 1080).
Proof.
  destruct C5_hidden_content_needs_visible_text as (H & _).
  assert (Hw : ~ (AddDarkClass.rectWidth (hiddenNode " Menu ") == 0)%Q) by discriminate.
  assert (Hh : ~ (AddDarkClass.rectHeight (hiddenNode " Menu ") == 0)%Q) by discriminate.
  repeat (split; [first [assumption | reflexivity] |]).
  apply H; [exact Hw | exact Hh | reflexivity | discriminate].
Defined.

(** C5 as the specification words it fails: a hidden element with a
    rendered box whose text is two spaces has non-empty text content and
    gets no [hidden_content] from the analysis loop; and the classifier of a
    selected element gives a hidden element with the text [Menu] no tag at
    all. *)
Lemma C5_counterexample :
  AddDarkClass.visibility hiddenStyle = "hidden"
  /\ AddDarkClass.textContent (hiddenNode "  ") <> ""
  /\ AddDarkClass.problemsOf (hiddenNode "  ") hiddenStyle 1920 1080 = []
  /\ Content.visibility hiddenComputed = "hidden"
  /\ Content.detectDarkModeIssues samplePow "Menu" hiddenComputed = [].
Proof.
  split; [reflexivity |]. split; [discriminate |]. repeat split.
Qed.

(** ** Applying and removing patches *)

Lemma filter_snoc {A} (f : A -> bool) (l : list A) (x : A) :
  filter f (l ++ [x]) = (filter f l ++ if f x then [x] else [])%list.
Proof. rewrite filter_app. reflexivity. Qed.

Lemma inject_document (hostname : string -> option string) (href : string)
    (ai : bool) (now : nat -> Z) (m : Content.InjectMessage) (pg : Content.Page) :
  Dom.head (Content.document
              (snd (Content.onMessage hostname href ai now
                      (Content.inject_darkmode_css m) pg)))
  = (Dom.head (Content.document pg)
     ++ [{| Dom.id := ""; Dom.textContent := Content.css m;
            Dom.data_darkmode_patch := Some (now 0%nat);
            Dom.data_source := Some (match Server.some_truthy (Content.source m) with
                                     | Some src => src
                                     | None => "gemini"
                                     end);
            Dom.data_element_info := Some (match Content.elementInfo m with
                                           | Some info => info
                                           | None => "{}"
                                           end) |}])%list
  /\ Dom.classList (Content.document
                      (snd (Content.onMessage hostname href ai now
                              (Content.inject_darkmode_css m) pg)))
     = Dom.classList (Content.document pg).
Proof. split; reflexivity. Qed.

(** C1, on the code.  Each [inject-darkmode-css] message the listener
    of the content script handles appends one more style block: after the
    same message was handled twice the document holds two more patch blocks
    and two more blocks with the message's rule text than before, whatever
    it held.  On an empty head the same patch applied twice leaves two
    blocks. *)
Theorem C1_injection_stacks_blocks :
  (forall hostname href ai now now' m pg,
     let once := snd (Content.onMessage hostname href ai now
                        (Content.inject_darkmode_css m) pg) in
     let twice := snd (Content.onMessage hostname href ai now'
                         (Content.inject_darkmode_css m) once) in
     List.length (Dom.patches (Content.document twice))
     = (List.length (Dom.patches (Content.document pg)) + 2)%nat
     /\ List.length (Dom.blocksWith (Content.css m) (Content.document twice))
        = (List.length (Dom.blocksWith (Content.css m) (Content.document pg)) + 2)%nat
     /\ Content.fixesApplied twice = (Content.fixesApplied pg + 2)%nat)
  /\ List.length
       (Dom.blocksWith menuFix
          (Content.document
             (after (Content.inject_darkmode_css menuPatch) (fun _ => 1%Z)
                (after (Content.inject_darkmode_css menuPatch) (fun _ => 0%Z) emptyPage))))
     = 2%nat.
Proof.
  split; [| reflexivity].
  intros hostname href ai now now' m pg once twice.
  destruct (inject_document hostname href ai now' m once) as [H2 _].
  destruct (inject_document hostname href ai now m pg) as [H1 _].
  fold once in H1. fold twice in H2.
  unfold Content.fixesApplied, Dom.patches, Dom.blocksWith.
  rewrite H2, H1, !filter_snoc, !length_app.
  cbn [Dom.data_darkmode_patch Dom.textContent].
  rewrite String.eqb_refl. simpl. lia.
Qed.

Lemma removeFirst_single (i : string) (l : list Dom.StyleElement) :
  (List.length (filter (fun e => String.eqb (Dom.id e) i) l) <= 1)%nat ->
  filter (fun e => String.eqb (Dom.id e) i) (Dom.removeFirst i l) = [].
Proof.
  induction l as [| e l IH]; simpl; [reflexivity |].
  destruct (String.eqb (Dom.id e) i) eqn:E; simpl.
  - intros H. destruct (filter _ l); [reflexivity | simpl in H; lia].
  - rewrite E. exact IH.
Qed.

Lemma removeFirst_snoc (i : string) (l : list Dom.StyleElement) (e : Dom.StyleElement) :
  filter (fun x => String.eqb (Dom.id x) i) l = [] -> Dom.id e = i ->
  Dom.removeFirst i (l ++ [e]) = l.
Proof.
  induction l as [| x l IH]; simpl; intros H He.
  - rewrite He, String.eqb_refl. reflexivity.
  - destruct (String.eqb (Dom.id x) i); [discriminate |].
    rewrite (IH H He). reflexivity.
Qed.

(** X1.  The listener of the other content script replaces its block: on a
    document with at most one block of its own, injecting twice is injecting
    once, and one block is left. *)
Lemma sibling_injection_replaces (css : string) (d : Dom.Document) :
  css <> "" ->
  (List.length (siblingBlocks d) <= 1)%nat ->
  AddDarkClass.onInject css (AddDarkClass.onInject css d) = AddDarkClass.onInject css d
  /\ List.length (siblingBlocks (AddDarkClass.onInject css d)) = 1%nat.
Proof.
  intros Hcss Hone. unfold AddDarkClass.onInject, AddDarkClass.injectGeminiCssPatch.
  apply truthy_iff in Hcss. rewrite Hcss. cbn [negb].
  pose proof (removeFirst_single AddDarkClass.patchId (Dom.head d) Hone) as Hnone.
  split.
  - unfold Dom.appendChild, Dom.removeById. cbn [Dom.head Dom.classList].
    rewrite removeFirst_snoc by (try exact Hnone; reflexivity). reflexivity.
  - unfold siblingBlocks, Dom.appendChild, Dom.removeById. cbn [Dom.head].
    rewrite filter_snoc, Hnone. reflexivity.
Qed.

Lemma classList_remove_contains (c : string) (d : Dom.Document) :
  Dom.classList_contains c (Dom.classList_remove c d) = false.
Proof.
  unfold Dom.classList_contains, Dom.classList_remove. cbn [Dom.classList].
  induction (Dom.classList d) as [| x l IH]; [reflexivity |].
  cbn [filter]. destruct (String.eqb c x) eqn:E; cbn [negb existsb].
  - exact IH.
  - rewrite E. exact IH.
Qed.

(** The replacement at a head that holds an older patch block. *)
Lemma sibling_injection_witness :
  menuFix <> ""
  /\ (List.length (siblingBlocks patchedDocument) <= 1)%nat
  /\ AddDarkClass.onInject menuFix (AddDarkClass.onInject menuFix patchedDocument)
     = AddDarkClass.onInject menuFix patchedDocument
  /\ List.length (siblingBlocks (AddDarkClass.onInject menuFix patchedDocument)) = 1%nat
  /\ List.length (Dom.head (AddDarkClass.onInject menuFix patchedDocument)) = 2%nat.
Proof.
  assert (H1 : menuFix <> "") by discriminate.
  assert (H2 : (List.length (siblingBlocks patchedDocument) <= 1)%nat) by (apply le_n).
  destruct (sibling_injection_replaces menuFix patchedDocument H1 H2) as [Ha Hb].
  repeat (split; [assumption |]). reflexivity.
Defined.

(** C2, on the code.  The listener's case [TOGGLE_DARK_MODE] with
    [enabled] false removes the class [universal-dark-mode] and nothing
    else: every style block of the head, and so every applied patch, is
    still there.  After one patch and the toggle one patch block is left. *)
Theorem C2_toggle_keeps_style_blocks :
  (forall hostname href ai now pg,
     let off := snd (Content.onMessage hostname href ai now
                       (Content.TOGGLE_DARK_MODE false) pg) in
     Dom.classList_contains "universal-dark-mode" (Content.document off) = false
     /\ Dom.head (Content.document off) = Dom.head (Content.document pg)
     /\ Content.fixesApplied off = Content.fixesApplied pg
     /\ Content.storage off = Content.storage pg)
  /\ Content.fixesApplied
       (after (Content.TOGGLE_DARK_MODE false) (fun _ => 1%Z)
          (after (Content.inject_darkmode_css menuPatch) (fun _ => 0%Z) emptyPage))
     = 1%nat.
Proof.
  split; [| reflexivity].
  intros hostname href ai now pg off. subst off.
  cbn [Content.onMessage Content.toggleDarkMode snd Content.document Content.storage].
  split; [apply classList_remove_contains |]. repeat split.
Qed.

(** X2.  The other content script's case of the same message removes its
    patch block with the class and stops the analysis loop. *)
Lemma sibling_toggle_removes_patch (d : Dom.Document) (m : AddDarkClass.Monitor) :
  (List.length (siblingBlocks d) <= 1)%nat ->
  siblingBlocks (fst (AddDarkClass.toggleDarkModeOff d m)) = []
  /\ Dom.classList_contains "universal-dark-mode" (fst (AddDarkClass.toggleDarkModeOff d m)) = false
  /\ AddDarkClass.running (snd (AddDarkClass.toggleDarkModeOff d m)) = false.
Proof.
  intros Hone. unfold AddDarkClass.toggleDarkModeOff, AddDarkClass.removeGeminiCssPatch. cbn [fst snd].
  split; [| split; [| reflexivity]].
  - unfold siblingBlocks, Dom.classList_remove, Dom.removeById. cbn [Dom.head].
    apply removeFirst_single. exact Hone.
  - apply classList_remove_contains.
Qed.

(** The removal at a head that holds a patch block. *)
Lemma sibling_toggle_witness :
  (List.length (siblingBlocks patchedDocument) <= 1)%nat
  /\ siblingBlocks (fst (AddDarkClass.toggleDarkModeOff patchedDocument
                           {| AddDarkClass.running := true;
                              AddDarkClass.lastKnownIssues := 3 |})) = []
  /\ Dom.classList_contains "universal-dark-mode"
       (fst (AddDarkClass.toggleDarkModeOff patchedDocument
               {| AddDarkClass.running := true; AddDarkClass.lastKnownIssues := 3 |}))
     = false.
Proof.
  assert (H : (List.length (siblingBlocks patchedDocument) <= 1)%nat) by (apply le_n).
  destruct (sibling_toggle_removes_patch patchedDocument
              {| AddDarkClass.running := true; AddDarkClass.lastKnownIssues := 3 |} H)
    as (Ha & Hb & _).
  split; [exact H |]. split; [exact Ha | exact Hb].
Defined.

(** ** Bounded logs *)

Section KeepLast.

Context {A : Type}.

Lemma keepLast_length (cap : nat) (log : list A) (x : A) :
  (List.length (keepLast cap log x) <= cap)%nat.
Proof.
  unfold keepLast. rewrite length_skipn. lia.
Qed.

Lemma keepLast_suffix (cap : nat) (log : list A) (x : A) :
  (firstn (List.length (log ++ [x]) - cap) (log ++ [x]) ++ keepLast cap log x
   = log ++ [x])%list.
Proof.
  unfold keepLast. apply firstn_skipn.
Qed.

Lemma keepLast_newest (cap : nat) (log : list A) (x : A) :
  (0 < cap)%nat ->
  keepLast cap log x
  = (skipn (List.length (log ++ [x])%list - cap) log ++ [x])%list.
Proof.
  intros Hcap. unfold keepLast.
  rewrite skipn_app.
  replace (List.length (log ++ [x])%list - cap - List.length log)%nat with 0%nat
    by (rewrite length_app; simpl; lia).
  reflexivity.
Qed.

Lemma keepLast_full (cap : nat) (log : list A) (x : A) :
  (0 < cap)%nat -> List.length log = cap ->
  keepLast cap log x = (tl log ++ [x])%list.
Proof.
  intros Hcap Hlen. rewrite keepLast_newest by assumption.
  rewrite length_app; simpl.
  replace (List.length log + 1 - cap)%nat with 1%nat by lia.
  destruct log; [simpl in Hlen; lia | reflexivity].
Qed.

Lemma keepLast_room (cap : nat) (log : list A) (x : A) :
  (List.length log < cap)%nat -> keepLast cap log x = (log ++ [x])%list.
Proof.
  intros Hlen. unfold keepLast.
  replace (List.length (log ++ [x])%list - cap)%nat with 0%nat
    by (rewrite length_app; simpl; lia).
  reflexivity.
Qed.

Lemma capped_is_keepLast (cap : nat) (log : list A) (x : A) :
  (if (cap <? List.length (log ++ [x])%list)%nat
   then skipn (List.length (log ++ [x])%list - cap) (log ++ [x])%list
   else (log ++ [x])%list)
  = keepLast cap log x.
Proof.
  unfold keepLast. destruct (Nat.ltb_spec cap (List.length (log ++ [x])%list)) as [H | H].
  - reflexivity.
  - replace (List.length (log ++ [x])%list - cap)%nat with 0%nat by lia. reflexivity.
Qed.

End KeepLast.

Lemma engine_success_log (hostname : string -> option string) (href : string)
    (now later : Z) (ed : Learning.ElementData) (css rating : string)
    (st : Learning.Storage) :
  Learning.darkmode_success
    (snd (Learning.trackFixSuccess hostname href now later ed css rating st))
  = keepLast 500 (Learning.darkmode_success st)
      (fst (Learning.trackFixSuccess hostname href now later ed css rating st)).
Proof.
  unfold Learning.trackFixSuccess, Learning.updateFeedbackWithSuccess, JS.slice_last.
  cbn [fst snd].
  destruct (Learning.updateFirst ed css rating later _);
    cbn [Learning.darkmode_success]; apply capped_is_keepLast.
Qed.

Lemma popup_fix_log (now : Z) (ed : Popup.ElementData) (resp : Popup.GeminiResponse)
    (fb : string) (log : list Popup.FixRecord) :
  fst (Popup.trackFixSuccess now ed resp fb log)
  = keepLast 100 log (snd (Popup.trackFixSuccess now ed resp fb log)).
Proof.
  unfold Popup.trackFixSuccess, JS.splice_front. cbn [fst snd].
  apply capped_is_keepLast.
Qed.

(** C10.  Whatever [localStorage] held before, the list the engine's
    [trackFixSuccess] stores under [darkmode_success] has at most 500
    entries and the list the popup's [trackFixSuccess] stores under
    [darkmode_fix_tracking] has at most 100.  What is stored is the end of
    the old list followed by the new entry: entries are dropped from the
    front only, the new entry is always kept, and a list that was exactly at
    its cap loses its oldest entry. *)
Theorem C10_logs_are_bounded :
  (forall hostname href now later ed css rating st,
     let r := Learning.trackFixSuccess hostname href now later ed css rating st in
     let old := Learning.darkmode_success st in
     let stored := Learning.darkmode_success (snd r) in
     (List.length stored <= 500)%nat
     /\ stored = (skipn (List.length old + 1 - 500) old ++ [fst r])%list
     /\ (List.length old = 500%nat -> stored = (tl old ++ [fst r])%list)
     /\ (List.length old < 500 -> stored = (old ++ [fst r])%list)%nat)
  /\
  (forall now ed resp fb log,
     let r := Popup.trackFixSuccess now ed resp fb log in
     let stored := fst r in
     (List.length stored <= 100)%nat
     /\ stored = (skipn (List.length log + 1 - 100) log ++ [snd r])%list
     /\ (List.length log = 100%nat -> stored = (tl log ++ [snd r])%list)
     /\ (List.length log < 100 -> stored = (log ++ [snd r])%list)%nat).
Proof.
  split.
  - intros hostname href now later ed css rating st r old stored.
    subst stored old r. rewrite engine_success_log.
    repeat split.
    + apply keepLast_length.
    + rewrite keepLast_newest by lia. rewrite length_app. reflexivity.
    + intros H. apply keepLast_full; [lia | exact H].
    + intros H. apply keepLast_room; exact H.
  - intros now ed resp fb log r stored.
    subst stored r. rewrite popup_fix_log.
    repeat split.
    + apply keepLast_length.
    + rewrite keepLast_newest by lia. rewrite length_app. reflexivity.
    + intros H. apply keepLast_full; [lia | exact H].
    + intros H. apply keepLast_room; exact H.
Qed.

(** The popup's log at its cap: the record of time 0, the oldest, makes
    room for the record of time 2. *)
Example popup_log_at_cap :
  List.length fullLog = 100%nat
  /\ fst (Popup.trackFixSuccess 2
            {| Popup.tag := "DIV"; Popup.elementType := "navigation";
               Popup.detectedIssues := ["low_contrast"]; Popup.url := examplePage;
               Popup.automated := false; Popup.refinement := false |}
            {| Popup.cssPatch := menuFix |} "positive" fullLog)
     = (repeat (sampleFix 1) 99 ++ [sampleFix 2])%list.
Proof. split; vm_compute; reflexivity. Qed.

(** * Further properties *)

(** ** Tallies and the sort by decreasing count *)

Section SortFacts.

Context {A : Type} (cnt : A -> nat).

Lemma insert_desc_perm (x : A) (l : list A) :
  Permutation (JS.insert_desc cnt x l) (x :: l).
Proof.
  induction l as [| y r IH]; simpl; [reflexivity |].
  destruct (cnt y <=? cnt x)%nat; [reflexivity |].
  rewrite IH. apply perm_swap.
Qed.

Lemma sort_desc_perm (l : list A) : Permutation (JS.sort_desc cnt l) l.
Proof.
  induction l as [| x l IH]; simpl; [reflexivity |].
  rewrite insert_desc_perm. constructor. exact IH.
Qed.

Lemma insert_desc_sorted (x : A) (l : list A) :
  StronglySorted (fun a b => cnt b <= cnt a)%nat l ->
  StronglySorted (fun a b => cnt b <= cnt a)%nat (JS.insert_desc cnt x l).
Proof.
  induction l as [| y r IH]; simpl; intros Hs.
  - constructor; constructor.
  - inversion Hs as [| ? ? Hr Hy]; subst.
    destruct (Nat.leb_spec (cnt y) (cnt x)) as [Hle | Hlt].
    + constructor; [exact Hs |].
      constructor; [exact Hle |].
      rewrite Forall_forall in *. intros z Hz. specialize (Hy z Hz). lia.
    + constructor; [apply IH; exact Hr |].
      rewrite Forall_forall in *. intros z Hz.
      apply (Permutation_in _ (insert_desc_perm x r)) in Hz.
      destruct Hz as [<- | Hz]; [lia | apply Hy; exact Hz].
Qed.

Lemma sort_desc_sorted (l : list A) :
  StronglySorted (fun a b => cnt b <= cnt a)%nat (JS.sort_desc cnt l).
Proof.
  induction l as [| x l IH]; simpl; [constructor |].
  apply insert_desc_sorted. exact IH.
Qed.

(** The first element of the sorted list counts most. *)
Lemma sort_desc_head (l : list A) (x : A) (r : list A) :
  JS.sort_desc cnt l = x :: r -> In x l /\ forall y, In y l -> (cnt y <= cnt x)%nat.
Proof.
  intros E. pose proof (sort_desc_sorted l) as Hs. pose proof (sort_desc_perm l) as Hp.
  rewrite E in Hs, Hp. split.
  - apply (Permutation_in _ Hp). left. reflexivity.
  - intros y Hy. apply (Permutation_in _ (Permutation_sym Hp)) in Hy.
    inversion Hs as [| ? ? _ Hall]; subst.
    destruct Hy as [<- | Hy]; [lia |].
    rewrite Forall_forall in Hall. apply Hall. exact Hy.
Qed.

End SortFacts.

Lemma in_set_inv {V} (o : JS.obj V) (k k' : string) (v v' : V) :
  In (k', v') (JS.set o k v) -> (k' = k /\ v' = v) \/ In (k', v') o.
Proof.
  induction o as [| [k0 v0] o IH]; simpl.
  - intros [[= <- <-] | []]. left. split; reflexivity.
  - destruct (String.eqb k k0) eqn:E; simpl.
    + apply String.eqb_eq in E. subst k0.
      intros [[= <- <-] | H]; [left; split; reflexivity | right; right; exact H].
    + intros [H | H]; [right; left; exact H |].
      destruct (IH H) as [H' | H']; [left; exact H' | right; right; exact H'].
Qed.

Lemma get_in {V} (o : JS.obj V) (k : string) (v : V) :
  JS.get o k = Some v -> In (k, v) o.
Proof.
  induction o as [| [k0 v0] o IH]; simpl; [discriminate |].
  destruct (String.eqb k k0) eqn:E.
  - apply String.eqb_eq in E. subst k0. intros [= ->]. left. reflexivity.
  - intros H. right. apply IH. exact H.
Qed.

Lemma bump_counted (o : JS.obj nat) (k x : string) :
  counted (Learning.bump o k) x
  = (counted o x + if String.eqb k x then 1 else 0)%nat.
Proof.
  unfold counted, Learning.bump.
  destruct (String.eqb k x) eqn:E.
  - apply String.eqb_eq in E. subst x. rewrite get_set_same. lia.
  - apply String.eqb_neq in E. rewrite get_set_other by exact E. lia.
Qed.

Lemma tally_counted (l : list string) (o : JS.obj nat) (x : string) :
  counted (fold_left Learning.bump l o) x = (counted o x + occurrences x l)%nat.
Proof.
  revert o. induction l as [| k l IH]; intros o; simpl.
  - unfold occurrences. simpl. lia.
  - rewrite IH, bump_counted. unfold occurrences. simpl.
    destruct (string_dec k x) as [-> | Hne].
    + rewrite String.eqb_refl. lia.
    + apply String.eqb_neq in Hne. rewrite Hne. lia.
Qed.

Lemma tally_nodup (l : list string) (o : JS.obj nat) :
  NoDup (JS.keys o) -> NoDup (JS.keys (fold_left Learning.bump l o)).
Proof.
  revert o. induction l as [| k l IH]; intros o Hnd; simpl; [exact Hnd |].
  apply IH. apply set_keys_nodup. exact Hnd.
Qed.

Lemma tally_positive (l : list string) (o : JS.obj nat) :
  positiveTally o -> positiveTally (fold_left Learning.bump l o).
Proof.
  revert o. induction l as [| k l IH]; intros o Hpos; simpl; [exact Hpos |].
  apply IH. intros k' n Hin. unfold Learning.bump in Hin.
  destruct (in_set_inv _ _ _ _ _ Hin) as [[_ ->] | Hin']; [lia | exact (Hpos _ _ Hin')].
Qed.

(** The entries of the tally of a list are its distinct elements, each
    with the number of its occurrences. *)
Lemma tallyOf_spec (l : list string) (k : string) (n : nat) :
  In (k, n) (tallyOf l) <-> n = occurrences k l /\ (0 < n)%nat.
Proof.
  unfold tallyOf.
  assert (Hnd : NoDup (JS.keys (fold_left Learning.bump l []))).
  { apply tally_nodup. constructor. }
  assert (Hpos : positiveTally (fold_left Learning.bump l [])).
  { apply tally_positive. intros ? ? []. }
  pose proof (tally_counted l [] k) as Hc. unfold counted in Hc. simpl in Hc.
  split.
  - intros Hin. rewrite (get_of_nodup _ _ _ Hnd Hin) in Hc.
    split; [exact Hc | exact (Hpos _ _ Hin)].
  - intros [-> Hn].
    destruct (JS.get (fold_left Learning.bump l []) k) as [m |] eqn:G; [| lia].
    apply get_in in G. rewrite <- Hc. exact G.
Qed.

Lemma occurrences_in (x : string) (l : list string) :
  (0 < occurrences x l)%nat <-> In x l.
Proof. unfold occurrences. symmetry. apply count_occ_In. Qed.

(** X3.  [findMostFrequentFix] returns a most frequent fix: on a list that
    is not empty it returns one of its texts, and no text occurs in the
    list more often than that one.  On the empty list it returns [null]. *)
Theorem mostFrequentFix_is_a_mode (fs : list string) :
  (forall x, In x fs -> JS.inherited x = false) ->
  match fs with
  | [] => Server.findMostFrequentFix fs = None
  | _ =>
      exists f,
        Server.findMostFrequentFix fs = Some f
        /\ In f fs
        /\ forall g, (occurrences g fs <= occurrences f fs)%nat
  end.
Proof.
  intros _. destruct fs as [| f0 fs0]; [reflexivity |].
  set (fs := f0 :: fs0).
  unfold Server.findMostFrequentFix. fold (tallyOf fs).
  destruct (JS.sort_desc snd (tallyOf fs)) as [| [f n] r] eqn:E.
  - exfalso.
    assert (Hin : In (f0, occurrences f0 fs) (tallyOf fs)).
    { apply tallyOf_spec. split; [reflexivity |]. apply occurrences_in. left. reflexivity. }
    apply (Permutation_in _ (Permutation_sym (sort_desc_perm snd (tallyOf fs)))) in Hin.
    rewrite E in Hin. destruct Hin.
  - destruct (sort_desc_head snd _ _ _ E) as [Hin Hmax].
    apply tallyOf_spec in Hin. destruct Hin as [Hn Hpos]. cbn [snd] in *.
    exists f. split; [reflexivity |]. split.
    + apply occurrences_in. rewrite <- Hn. exact Hpos.
    + intros g. destruct (Nat.eq_dec (occurrences g fs) 0) as [-> | Hg]; [lia |].
      assert (Hing : In (g, occurrences g fs) (tallyOf fs)).
      { apply tallyOf_spec. split; [reflexivity | lia]. }
      specialize (Hmax _ Hing). cbn [snd] in Hmax. lia.
Qed.

(** The most frequent of three fixes. *)
Lemma mostFrequentFix_witness :
  Server.findMostFrequentFix ["a { }"; menuFix; menuFix] = Some menuFix
  /\ exists f,
       Server.findMostFrequentFix ["a { }"; menuFix; menuFix] = Some f
       /\ In f ["a { }"; menuFix; menuFix]
       /\ forall g, (occurrences g ["a { }"; menuFix; menuFix]
                     <= occurrences f ["a { }"; menuFix; menuFix])%nat.
Proof.
  split; [reflexivity |].
  apply (mostFrequentFix_is_a_mode ["a { }"; menuFix; menuFix]).
  intros x [<- | [<- | [<- | []]]]; reflexivity.
Defined.


(** The keys of [popular]: those counted at least twice, each once, by
    decreasing count. *)
Lemma filter_keys_nodup {V} (p : string * V -> bool) (o : JS.obj V) :
  NoDup (JS.keys o) -> NoDup (JS.keys (filter p o)).
Proof.
  unfold JS.keys. induction o as [| kv o IH]; simpl; intros Hnd; [constructor |].
  inversion Hnd as [| ? ? Hnotin Hnd']; subst.
  destruct (p kv); simpl; [| apply IH; exact Hnd'].
  constructor; [| apply IH; exact Hnd'].
  intros Hin. apply Hnotin. apply in_map_iff in Hin.
  destruct Hin as (kv' & E & Hin). apply filter_In in Hin.
  apply in_map_iff. exists kv'. tauto.
Qed.

Lemma popular_spec (l : list string) :
  (forall k, In k (Learning.popular (tallyOf l)) <-> (2 <= occurrences k l)%nat)
  /\ NoDup (Learning.popular (tallyOf l))
  /\ StronglySorted (fun a b => occurrences b l <= occurrences a l)%nat
       (Learning.popular (tallyOf l)).
Proof.
  unfold Learning.popular.
  set (kept := filter (fun kv : string * nat => (2 <=? snd kv)%nat) (tallyOf l)).
  assert (Hkept : forall k n, In (k, n) kept <-> n = occurrences k l /\ (2 <= n)%nat).
  { intros k n. unfold kept. rewrite filter_In, tallyOf_spec. cbn [snd].
    rewrite Nat.leb_le. split; [intros [[-> _] H]; split; [reflexivity | exact H] |].
    intros [-> H]. repeat split; [lia | exact H]. }
  pose proof (sort_desc_perm snd kept) as Hp.
  split; [| split].
  - intros k. rewrite in_map_iff. split.
    + intros ([k' n] & E & Hin). cbn [fst] in E. subst k'.
      apply (Permutation_in _ Hp) in Hin. apply Hkept in Hin.
      destruct Hin as [-> H]. exact H.
    + intros H. exists (k, occurrences k l). split; [reflexivity |].
      apply (Permutation_in _ (Permutation_sym Hp)). apply Hkept. split; [reflexivity | exact H].
  - apply (Permutation_NoDup (Permutation_map fst (Permutation_sym Hp))).
    apply (filter_keys_nodup _ (tallyOf l)). unfold tallyOf. apply tally_nodup. constructor.
  - pose proof (sort_desc_sorted snd kept) as Hs.
    assert (Hall : Forall (fun kv => snd kv = occurrences (fst kv) l) (JS.sort_desc snd kept)).
    { rewrite Forall_forall. intros [k n] Hin.
      apply (Permutation_in _ Hp) in Hin. apply Hkept in Hin. cbn [fst snd]. tauto. }
    clear Hp.
    induction Hs as [| kv r Hr IH Hhd]; simpl; [constructor |].
    inversion Hall as [| ? ? E Hall']; subst.
    constructor; [apply IH; exact Hall' |].
    rewrite Forall_forall in *. intros k Hk. apply in_map_iff in Hk.
    destruct Hk as (kv' & <- & Hin).
    rewrite <- E, <- (Hall' _ Hin). apply Hhd. exact Hin.
Qed.

Lemma fold_tally_flat_map {B} (f : B -> list string) (l : list B) (o : JS.obj nat) :
  fold_left (fun freq x => fold_left Learning.bump (f x) freq) l o
  = fold_left Learning.bump (flat_map f l) o.
Proof.
  revert o. induction l as [| x l IH]; intros o; simpl; [reflexivity |].
  rewrite IH, fold_left_app. reflexivity.
Qed.

Lemma fold_tally_map {B} (f : B -> string) (l : list B) (o : JS.obj nat) :
  fold_left (fun freq x => Learning.bump freq (f x)) l o
  = fold_left Learning.bump (map f l) o.
Proof.
  revert o. induction l as [| x l IH]; intros o; simpl; [reflexivity | apply IH].
Qed.

(** X4.  What [findMostSuccessfulCSS] returns for the fixes of a pattern:
    [null] when there is none, otherwise the lines of [learnedRules].  Those
    are exactly the rules that occur at least twice among the rules of all
    the fixes, each once, the more frequent first. *)
Theorem learned_css_is_what_repeats (fixes : list string) :
  Learning.findMostSuccessfulCSS fixes
  = match fixes with
    | [] => None
    | _ => Some (JS.join JS.nl (learnedRules fixes))
    end
  /\ (forall r, In r (learnedRules fixes) <-> (2 <= occurrences r (allRules fixes))%nat)
  /\ NoDup (learnedRules fixes)
  /\ StronglySorted
       (fun a b => occurrences b (allRules fixes) <= occurrences a (allRules fixes))%nat
       (learnedRules fixes).
Proof.
  split; [destruct fixes; reflexivity |].
  unfold learnedRules. rewrite fold_tally_flat_map.
  exact (popular_spec (allRules fixes)).
Qed.

(** ** The domain bucket of the learning engine *)

Lemma more_than_half (a b : nat) :
  (0 < b)%nat -> (b < 2 * a)%nat ->
  JS.Qgtb (inject_Z (Z.of_nat a) / inject_Z (Z.of_nat b)) 0.5 = true.
Proof.
  intros Hb H. unfold JS.Qgtb, JS.Qltb. apply negb_true_iff.
  destruct (Qle_bool _ _) eqn:E; [exfalso | reflexivity].
  apply Qle_bool_iff in E.
  assert (Hpos : (0 < inject_Z (Z.of_nat b))%Q) by (rewrite <- (Zlt_Qlt 0); lia).
  apply (Qmult_le_r _ _ _ Hpos) in E.
  rewrite Qmult_comm, Qmult_div_r in E by (intros Hz; rewrite Hz in Hpos; discriminate).
  unfold Qle, Qmult, inject_Z in E. cbn [Qnum Qden] in E.
  change (Z.pos (10 * 1)) with 10%Z in E. lia.
Qed.

Lemma untemplated_css (problems : list string) :
  (forall c, In c problems -> ~ In c templated) ->
  Learning.generateDomainSpecificCSS problems = "".
Proof.
  intros H. unfold Learning.generateDomainSpecificCSS.
  assert (E : flat_map
                (fun problem =>
                   if String.eqb problem "transparent_background"
                   then [Learning.css_transparent_background]
                   else if String.eqb problem "poor_contrast" then [Learning.css_poor_contrast]
                   else if String.eqb problem "menu_issues" then [Learning.css_menu_issues]
                   else []) problems = []).
  { induction problems as [| c r IH]; [reflexivity |]. cbn [flat_map].
    assert (Hc : ~ In c templated) by (apply H; left; reflexivity).
    unfold templated in Hc. cbn [In] in Hc.
    destruct (String.eqb_spec c "transparent_background") as [-> | _]; [tauto |].
    destruct (String.eqb_spec c "poor_contrast") as [-> | _]; [tauto |].
    destruct (String.eqb_spec c "menu_issues") as [-> | _]; [tauto |].
    apply IH. intros c' Hc'. apply H. right. exact Hc'. }
  rewrite E. reflexivity.
Qed.

(** X5.  The answer of the domain bucket can carry no rule at all.  For a
    site with at least three recorded issues, more than half of them
    repaired, on which none of the three categories that have a template
    ([transparent_background], [poor_contrast], [menu_issues]) was reported
    twice, the second check of [generatePredictiveCSS] answers with the
    source [domain_pattern], a confidence above one half and the empty text
    as its CSS. *)
Theorem domain_answer_without_rules (p : Learning.Patterns) (d : string)
    (site : Learning.Site) :
  JS.get (Learning.websitePatterns p) d = Some site ->
  (3 <= List.length (Learning.issues site))%nat ->
  (List.length (Learning.issues site)
   < 2 * List.length (filter Learning.fixed (Learning.issues site)))%nat ->
  (forall c, In c templated ->
             (occurrences c (categoriesOf (Learning.issues site)) <= 1)%nat) ->
  exists r,
    Learning.domainPrediction p d = Learning.Resolved (Some r)
    /\ Learning.css r = Some ""
    /\ Learning.source r = "domain_pattern"
    /\ (0.5 < Learning.pr_confidence r)%Q.
Proof.
  intros G H3 Hhalf Hrare.
  unfold Learning.domainPrediction. rewrite G.
  unfold Learning.analyzeDomainPattern.
  destruct (Nat.ltb_spec (List.length (Learning.issues site)) 3) as [Hlt | _]; [lia |].
  cbn [Learning.dp_confidence Learning.recommendedCSS].
  assert (Hpos : (0 < List.length (Learning.issues site))%nat) by lia.
  pose proof (more_than_half _ _ Hpos Hhalf) as Hq. rewrite Hq.
  eexists. split; [reflexivity |]. cbn [Learning.css Learning.source Learning.pr_confidence].
  split; [| split; [reflexivity |]].
  - f_equal. apply untemplated_css.
    unfold Learning.findCommonProblemsInDomain. intros c Hc Ht.
    rewrite fold_tally_map in Hc. fold (tallyOf (categoriesOf (Learning.issues site))) in Hc.
    destruct (popular_spec (categoriesOf (Learning.issues site))) as [Hin _].
    apply Hin in Hc. specialize (Hrare c Ht). lia.
  - unfold JS.Qgtb in Hq. apply Qltb_lt in Hq. exact Hq.
Qed.

(** A site with three repaired issues of no templated category. *)
Lemma domain_answer_witness :
  JS.get (Learning.websitePatterns oddPatterns) "example.org" = Some oddSite
  /\ exists r,
       Learning.domainPrediction oddPatterns "example.org" = Learning.Resolved (Some r)
       /\ Learning.css r = Some ""
       /\ Learning.source r = "domain_pattern"
       /\ (0.5 < Learning.pr_confidence r)%Q.
Proof.
  split; [reflexivity |].
  apply (domain_answer_without_rules oddPatterns "example.org" oddSite).
  - reflexivity.
  - cbn. lia.
  - cbn. lia.
  - intros c [<- | [<- | [<- | []]]]; vm_compute; lia.
Defined.


(** ** The rules of a style sheet *)

Lemma trimEnd_cons (c : ascii) (r : string) :
  JS.trimEnd (String c r)
  = match JS.trimEnd r with
    | EmptyString => if JS.is_space c then EmptyString else String c EmptyString
    | r' => String c r'
    end.
Proof. reflexivity. Qed.

Lemma trimEnd_idempotent (s : string) : JS.trimEnd (JS.trimEnd s) = JS.trimEnd s.
Proof.
  induction s as [| c r IH]; [reflexivity |].
  rewrite trimEnd_cons. destruct (JS.trimEnd r) as [| c' r'] eqn:E.
  - destruct (JS.is_space c) eqn:S; [reflexivity |].
    rewrite trimEnd_cons. cbn [JS.trimEnd]. rewrite S. reflexivity.
  - rewrite trimEnd_cons, IH. reflexivity.
Qed.

Lemma trimStart_stops (s : string) : stops JS.is_space (JS.trimStart s).
Proof.
  induction s as [| c r IH]; simpl; [exact I |].
  destruct (JS.is_space c) eqn:S; [exact IH | simpl; exact S].
Qed.

Lemma trimStart_clean (s : string) : stops JS.is_space s -> JS.trimStart s = s.
Proof.
  destruct s as [| c r]; simpl; [reflexivity |]. intros ->. reflexivity.
Qed.

Lemma trimEnd_stops (s : string) : stops JS.is_space s -> stops JS.is_space (JS.trimEnd s).
Proof.
  destruct s as [| c r]; [intros _; exact I |]. rewrite trimEnd_cons. cbn [stops]. intros S.
  destruct (JS.trimEnd r); [rewrite S |]; exact S.
Qed.

Lemma trim_idempotent (s : string) : JS.trim (JS.trim s) = JS.trim s.
Proof.
  unfold JS.trim.
  rewrite (trimStart_clean (JS.trimEnd (JS.trimStart s)))
    by (apply trimEnd_stops, trimStart_stops).
  apply trimEnd_idempotent.
Qed.

Lemma every_trimStart (p : ascii -> bool) (s : string) :
  every p s = true -> every p (JS.trimStart s) = true.
Proof.
  induction s as [| c r IH]; simpl; [reflexivity |]. intros H.
  apply andb_true_iff in H. destruct H as [Hc Hr].
  destruct (JS.is_space c); [apply IH; exact Hr |].
  simpl. rewrite Hc, Hr. reflexivity.
Qed.

Lemma every_trimEnd (p : ascii -> bool) (s : string) :
  every p s = true -> every p (JS.trimEnd s) = true.
Proof.
  induction s as [| c r IH]; [reflexivity |]. rewrite trimEnd_cons. cbn [every]. intros H.
  apply andb_true_iff in H. destruct H as [Hc Hr]. specialize (IH Hr).
  destruct (JS.trimEnd r) as [| c' r'].
  - destruct (JS.is_space c); [reflexivity |]. simpl. rewrite Hc. reflexivity.
  - change (every p (String c (String c' r'))) with (p c && every p (String c' r')).
    rewrite Hc, IH. reflexivity.
Qed.

Lemma every_trim (p : ascii -> bool) (s : string) :
  every p s = true -> every p (JS.trim s) = true.
Proof. intros H. apply every_trimEnd, every_trimStart, H. Qed.

(** The pieces of [split] hold no separator, and a text without
    separator is its only piece. *)
Lemma split_pieces (c : ascii) (s : string) :
  Forall (fun piece => every (fun d => negb (Ascii.eqb d c)) piece = true) (JS.split c s).
Proof.
  induction s as [| d r IH]; simpl.
  - constructor; [reflexivity | constructor].
  - destruct (Ascii.eqb d c) eqn:E.
    + constructor; [reflexivity | exact IH].
    + destruct (JS.split c r) as [| piece pieces].
      * constructor; [simpl; rewrite E; reflexivity | constructor].
      * inversion IH as [| ? ? Hp Hps]; subst.
        constructor; [simpl; rewrite E, Hp; reflexivity | exact Hps].
Qed.

Lemma split_whole (c : ascii) (s : string) :
  every (fun d => negb (Ascii.eqb d c)) s = true -> JS.split c s = [s].
Proof.
  induction s as [| d r IH]; simpl; [reflexivity |]. intros H.
  apply andb_true_iff in H. destruct H as [Hd Hr].
  apply negb_true_iff in Hd. rewrite Hd, (IH Hr). reflexivity.
Qed.

Lemma length_snoc (s t : string) :
  String.length (s ++ t) = (String.length s + String.length t)%nat.
Proof. induction s as [| c r IH]; simpl; [reflexivity | rewrite IH; reflexivity]. Qed.

(** X6.  The shape of the rules [extractCSSRules] of the learning engine
    cuts a style sheet into: each is a text without closing brace, not
    empty and without white space at either end, followed by one closing
    brace.  A style sheet without any closing brace is taken for one rule:
    its trimmed text, with a brace appended. *)
Theorem engine_rules_shape :
  (forall css r,
     In r (Learning.extractCSSRules css) ->
     exists body,
       r = body ++ "}" /\ body <> "" /\ braceFree body = true /\ JS.trim body = body)
  /\ (forall css,
        braceFree css = true ->
        Learning.extractCSSRules css
        = if JS.truthy (JS.trim css) then [JS.trim css ++ "}"] else []).
Proof.
  split.
  - intros css r Hin. unfold Learning.extractCSSRules in Hin.
    apply filter_In in Hin. destruct Hin as [Hin Hlen].
    apply in_map_iff in Hin. destruct Hin as (piece & <- & Hpiece).
    exists (JS.trim piece). split; [reflexivity |]. split; [| split].
    + intros E. rewrite E in Hlen. discriminate.
    + pose proof (split_pieces "}" css) as Hall. rewrite Forall_forall in Hall.
      apply every_trim. exact (Hall _ Hpiece).
    + apply trim_idempotent.
  - intros css H. unfold Learning.extractCSSRules.
    rewrite (split_whole "}" css H). cbn [map filter].
    rewrite length_snoc. cbn [String.length].
    destruct (JS.trim css) as [| a s]; [reflexivity |].
    cbn [JS.truthy String.length]. rewrite Nat.add_1_r. reflexivity.
Qed.

Lemma filter_map_swap {B C} (f : B -> C) (p : C -> bool) (l : list B) :
  filter p (map f l) = map f (filter (fun x => p (f x)) l).
Proof.
  induction l as [| x l IH]; simpl; [reflexivity |].
  destruct (p (f x)); simpl; rewrite IH; reflexivity.
Qed.

Lemma filter_filter {B} (p q : B -> bool) (l : list B) :
  filter p (filter q l) = filter (fun x => q x && p x) l.
Proof.
  induction l as [| x l IH]; simpl; [reflexivity |].
  destruct (q x); simpl; [destruct (p x) |]; rewrite IH; reflexivity.
Qed.

(** X7.  The two [extractCSSRules] agree on long rules: on every text, what
    the server extracts are the rules the learning engine extracts that
    have more than six characters, in the same order. *)
Theorem server_rules_are_the_long_engine_rules (css : string) :
  Server.extractCSSRules (Some css)
  = filter (fun rule => (6 <? String.length rule)%nat) (Learning.extractCSSRules css).
Proof.
  unfold Server.extractCSSRules, Learning.extractCSSRules, Server.some_truthy.
  destruct css as [| c css']; [reflexivity |].
  cbn [JS.truthy]. set (pieces := JS.split "}" (String c css')).
  rewrite filter_filter, filter_map_swap, filter_map_swap.
  rewrite map_map. f_equal.
  apply filter_ext. intros piece. rewrite length_snoc. cbn [String.length].
  set (n := String.length (JS.trim piece)).
  destruct (Nat.ltb_spec 1 (n + 1)), (Nat.ltb_spec 6 (n + 1)), (Nat.ltb_spec 5 n);
    simpl; try reflexivity; lia.
Qed.

(** ** The learning report *)

Lemma insert_by_perm {B} (keeps : B -> B -> bool) (x : B) (l : list B) :
  Permutation (JS.insert_by keeps x l) (x :: l).
Proof.
  induction l as [| y r IH]; simpl; [reflexivity |].
  destruct (keeps x y); [reflexivity |].
  rewrite IH. apply perm_swap.
Qed.

Lemma sort_by_perm {B} (keeps : B -> B -> bool) (l : list B) :
  Permutation (JS.sort_by keeps l) l.
Proof.
  induction l as [| x l IH]; simpl; [reflexivity |].
  rewrite insert_by_perm. constructor. exact IH.
Qed.

Lemma firstn_incl {B} (n : nat) (l : list B) (x : B) : In x (firstn n l) -> In x l.
Proof.
  intros H. rewrite <- (firstn_skipn n l). apply in_or_app. left. exact H.
Qed.

Lemma fold_add_sum {B} (f : B -> nat) (l : list B) (acc : nat) :
  fold_left (fun sum x => (sum + f x)%nat) l acc = (acc + list_sum (map f l))%nat.
Proof.
  revert acc. induction l as [| x l IH]; intros acc; simpl; [lia |].
  rewrite IH. lia.
Qed.

Lemma set_sum {V} (f : V -> nat) (o : JS.obj V) (k : string) (v : V) :
  (list_sum (map (fun kv => f (snd kv)) (JS.set o k v))
   + match JS.get o k with Some x => f x | None => 0 end
   = list_sum (map (fun kv => f (snd kv)) o) + f v)%nat.
Proof.
  induction o as [| [k0 v0] o IH]; simpl; [lia |].
  destruct (String.eqb k k0); simpl; lia.
Qed.

Lemma set_length {V} (o : JS.obj V) (k : string) (v : V) :
  (List.length (JS.set o k v) <= S (List.length o))%nat.
Proof.
  induction o as [| [k0 v0] o IH]; simpl; [lia |].
  destruct (String.eqb k k0); simpl; lia.
Qed.

Section ReportFacts.

Variable hostname : string -> option string.

Local Abbreviation problemTotal p :=
  (list_sum (map (fun kv => Learning.p_count (snd kv)) (Learning.commonProblems p))).

Lemma recordFeedback_total (p p' : Learning.Patterns) (f : Learning.Feedback) :
  Learning.recordFeedback hostname p f = Some p' ->
  problemTotal p' = S (problemTotal p)
  /\ (List.length (Learning.websitePatterns p')
      <= S (List.length (Learning.websitePatterns p)))%nat.
Proof.
  unfold Learning.recordFeedback.
  set (key := Learning.categorizeProlem (Learning.description f)).
  set (d := Learning.extractDomain hostname (Learning.url f)).
  pose proof (set_sum Learning.p_count (Learning.commonProblems p) key
                {| Learning.p_count :=
                     S (Learning.p_count
                          match JS.get (Learning.commonProblems p) key with
                          | Some x => x
                          | None => {| Learning.p_count := 0; Learning.examples := [] |}
                          end);
                   Learning.examples :=
                     Learning.examples
                       match JS.get (Learning.commonProblems p) key with
                       | Some x => x
                       | None => {| Learning.p_count := 0; Learning.examples := [] |}
                       end ++ [f] |}) as Hsum.
  cbn [Learning.p_count] in Hsum.
  destruct (JS.get (Learning.websitePatterns p) d) as [site |].
  - intros [= <-]. cbn [Learning.commonProblems Learning.websitePatterns].
    split; [| apply set_length].
    destruct (JS.get (Learning.commonProblems p) key); cbn [Learning.p_count] in *; lia.
  - destruct (JS.inherited d); [discriminate |].
    intros [= <-]. cbn [Learning.commonProblems Learning.websitePatterns].
    split; [| apply set_length].
    destruct (JS.get (Learning.commonProblems p) key); cbn [Learning.p_count] in *; lia.
Qed.

Lemma recordAll_total (fs : list Learning.Feedback) (p p' : Learning.Patterns) :
  Learning.recordAll hostname p fs = Some p' ->
  problemTotal p' = (problemTotal p + List.length fs)%nat
  /\ (List.length (Learning.websitePatterns p')
      <= List.length (Learning.websitePatterns p) + List.length fs)%nat.
Proof.
  revert p. induction fs as [| f fs IH]; intros p; simpl.
  - intros [= <-]. lia.
  - destruct (Learning.recordFeedback hostname p f) as [p1 |] eqn:R; [| discriminate].
    intros H. destruct (IH _ H) as [H1 H2].
    destruct (recordFeedback_total _ _ _ R) as [H3 H4]. lia.
Qed.

End ReportFacts.

(** X8.  [generateLearningReport] rejects exactly when the page of some
    stored entry is on a host named like a property every object inherits.
    Otherwise it resolves to a report whose [totalFeedback] is the number
    of stored entries; the number of domains does not exceed it; the two
    rankings have at most 5 and 10 entries; every ranked confidence lies
    between 0.5 and 1; and the success rate lies between 0 and 1. *)
Theorem report_counts_every_entry (hostname : string -> option string)
    (st : Learning.Storage) :
  if existsb (inheritedDomain hostname) (Learning.darkmode_feedback st)
  then fst (Learning.generateLearningReport hostname st) = Learning.Rejected
  else
    exists r,
      fst (Learning.generateLearningReport hostname st) = Learning.Resolved r
      /\ Learning.totalFeedback r = List.length (Learning.darkmode_feedback st)
      /\ (Learning.domainSpecialization r <= Learning.totalFeedback r)%nat
      /\ (List.length (Learning.mostCommonProblems r) <= 5)%nat
      /\ (List.length (Learning.topSuccessfulFixes r) <= 10)%nat
      /\ (forall k c, In (k, c) (Learning.topSuccessfulFixes r) -> (0.5 <= c <= 1)%Q)
      /\ probability (Learning.overallSuccessRate r).
Proof.
  unfold Learning.generateLearningReport, Learning.analyzeFeedbackPatterns.
  destruct (existsb _ _) eqn:X.
  - apply extractPatterns_throws in X. rewrite X. reflexivity.
  - destruct (Learning.extractPatterns hostname (Learning.darkmode_feedback st))
      as [p |] eqn:E; [| apply extractPatterns_throws in E; congruence].
    cbn [fst Learning.darkmode_success]. eexists. split; [reflexivity |].
    cbn [Learning.totalFeedback Learning.domainSpecialization Learning.mostCommonProblems
         Learning.topSuccessfulFixes Learning.overallSuccessRate].
    assert (Htot : fold_left (fun sum pr => (sum + Learning.p_count pr)%nat)
                     (map snd (Learning.commonProblems p)) 0%nat
                   = List.length (Learning.darkmode_feedback st)
                   /\ (List.length (JS.keys (Learning.websitePatterns p))
                       <= List.length (Learning.darkmode_feedback st))%nat).
    { unfold Learning.extractPatterns in E.
      destruct (Learning.recordAll hostname Learning.emptyPatterns _) as [p0 |] eqn:R;
        [| discriminate].
      injection E as <-. cbn [Learning.commonProblems Learning.websitePatterns].
      destruct (recordAll_total hostname _ _ _ R) as [H1 H2]. simpl in H1, H2.
      rewrite fold_add_sum, map_map. unfold JS.keys. rewrite length_map. lia. }
    destruct Htot as [Htot Hdom]. rewrite Htot.
    split; [reflexivity |]. split; [exact Hdom |].
    split; [apply firstn_le_length |]. split; [apply firstn_le_length |]. split.
    + intros k c Hin. apply firstn_incl in Hin.
      apply (Permutation_in _ (sort_by_perm _ _)) in Hin.
      apply filter_In in Hin. destruct Hin as [Hin Hge]. cbn [snd] in Hge.
      split; [apply Qle_bool_iff; exact Hge |].
      destruct (extractPatterns_values hostname _ p c E) as [k' G].
      { apply in_map_iff. exists (k, c). split; [reflexivity | exact Hin]. }
      exact (proj2 (extractPatterns_probability hostname _ p k' c E G)).
    + destruct (Nat.ltb_spec 0 (List.length (Learning.darkmode_success st))) as [Hpos | _];
        [| split; discriminate].
      apply ratio_bounds; [apply filter_length_le | exact Hpos].
Qed.

(** ** Ratings and the feedback list *)

Section RatingFacts.

Variables (e : Learning.ElementData) (css rating : string) (now : Z).

Local Abbreviation target := (Learning.ed_tag e, Learning.ed_classes e).

Lemma element_eqb_eq (a b : string * list string) : element_eqb a b = true <-> a = b.
Proof.
  destruct a as [t cs], b as [t' cs']. unfold element_eqb, JS.str_eqb_list. cbn [fst snd].
  rewrite andb_true_iff, String.eqb_eq.
  destruct (list_eq_dec string_dec cs cs') as [-> | Hne].
  - split; [intros [-> _]; reflexivity | intros [= ->]; split; reflexivity].
  - split; [intros [_ H]; discriminate | intros [= _ H]; contradiction].
Qed.

(** What [updateFirst] does: the first entry of the element takes the
    rating, and nothing else changes. *)
Lemma updateFirst_spec (fs : list Learning.Feedback) :
  match Learning.updateFirst e css rating now fs with
  | Some fs' =>
      exists pre f post,
        fs = (pre ++ f :: post)%list
        /\ (forall g, In g pre -> elementOf g <> target)
        /\ elementOf f = target
        /\ fs' = (pre ++ {| Learning.tag := Learning.tag f; Learning.classes := Learning.classes f;
                            Learning.xpath := Learning.xpath f;
                            Learning.description := Learning.description f;
                            Learning.url := Learning.url f;
                            Learning.timestamp := Learning.timestamp f;
                            Learning.fixed := String.eqb rating "up";
                            Learning.appliedCSS := Some css;
                            Learning.userRating := Some rating;
                            Learning.lastUpdated := Some now |} :: post)%list
  | None => forall g, In g fs -> elementOf g <> target
  end.
Proof.
  induction fs as [| f r IH]; cbn [Learning.updateFirst]; [intros g [] |].
  destruct (String.eqb (Learning.tag f) (Learning.ed_tag e)
            && JS.str_eqb_list (Learning.classes f) (Learning.ed_classes e)) eqn:M.
  - exists [], f, r. repeat split; [intros g [] |].
    apply (element_eqb_eq (elementOf f) target). exact M.
  - assert (Hf : elementOf f <> target).
    { intros E. apply (element_eqb_eq (elementOf f) target) in E.
      unfold element_eqb, elementOf in E. cbn [fst snd] in E. congruence. }
    destruct (Learning.updateFirst e css rating now r) as [r' |].
    + destruct IH as (pre & f0 & post & -> & Hpre & Hf0 & ->).
      exists (f :: pre), f0, post. repeat split; try assumption.
      intros g [<- | Hg]; [exact Hf | apply Hpre; exact Hg].
    + intros g [<- | Hg]; [exact Hf | apply IH; exact Hg].
Qed.

End RatingFacts.

Lemma successCount_cons (k : string) (f : Learning.Feedback) (fs : list Learning.Feedback) :
  successCount k (f :: fs)
  = ((if Learning.fixed f
          && String.eqb (Learning.elementKey (Learning.tag f) (Learning.classes f)) k
      then 1 else 0) + successCount k fs)%nat.
Proof.
  unfold successCount. cbn [filter].
  destruct (Learning.fixed f && _); reflexivity.
Qed.

(** The feedback list after [trackFixSuccess]. *)
Lemma tracked_feedback (hostname : string -> option string) (href : string) (now later : Z)
    (e : Learning.ElementData) (css rating : string) (st : Learning.Storage) :
  Learning.darkmode_feedback
    (snd (Learning.trackFixSuccess hostname href now later e css rating st))
  = match Learning.updateFirst e css rating later (Learning.darkmode_feedback st) with
    | Some fs => fs
    | None => Learning.darkmode_feedback st
    end.
Proof.
  unfold Learning.trackFixSuccess, Learning.updateFeedbackWithSuccess.
  cbn [snd Learning.darkmode_feedback].
  destruct (Learning.updateFirst _ _ _ _ _); reflexivity.
Qed.

(** X9.  Ratings do not add up.  After [trackFixSuccess] took the rating
    [up] for an element, taking it once more for the same element (whatever
    the rule text and the time) leaves the number of repaired entries of
    every element key as it was; the first rating raises it by at most one;
    and the list keeps its length. *)
Theorem rating_up_twice_counts_once (hostname : string -> option string)
    (href href' : string) (now later now' later' : Z) (e : Learning.ElementData)
    (css css' : string) (st : Learning.Storage) (k : string) :
  let once := snd (Learning.trackFixSuccess hostname href now later e css "up" st) in
  let twice := snd (Learning.trackFixSuccess hostname href' now' later' e css' "up" once) in
  successCount k (Learning.darkmode_feedback twice)
  = successCount k (Learning.darkmode_feedback once)
  /\ (successCount k (Learning.darkmode_feedback once)
      <= S (successCount k (Learning.darkmode_feedback st)))%nat
  /\ List.length (Learning.darkmode_feedback twice)
     = List.length (Learning.darkmode_feedback st).
Proof.
  cbv zeta. rewrite !tracked_feedback.
  pose proof (updateFirst_spec e css "up" later (Learning.darkmode_feedback st)) as H1.
  destruct (Learning.updateFirst e css "up" later (Learning.darkmode_feedback st))
    as [fs1 |] eqn:U1.
  - destruct H1 as (pre & f & post & E & Hpre & Hf & ->).
    pose proof (updateFirst_spec e css' "up" later'
                  (pre ++ {| Learning.tag := Learning.tag f;
                             Learning.classes := Learning.classes f;
                             Learning.xpath := Learning.xpath f;
                             Learning.description := Learning.description f;
                             Learning.url := Learning.url f;
                             Learning.timestamp := Learning.timestamp f;
                             Learning.fixed := String.eqb "up" "up";
                             Learning.appliedCSS := Some css;
                             Learning.userRating := Some "up";
                             Learning.lastUpdated := Some later |} :: post)%list) as H2.
    destruct (Learning.updateFirst e css' "up" later' _) as [fs2 |].
    + destruct H2 as (pre2 & f2 & post2 & E2 & Hpre2 & Hf2 & ->).
      assert (Hsame : pre2 = pre /\ post2 = post
                      /\ Learning.tag f2 = Learning.tag f
                      /\ Learning.classes f2 = Learning.classes f).
      { clear - E2 Hpre Hpre2 Hf Hf2. revert pre2 E2 Hpre2.
        induction pre as [| g pre IH]; intros pre2 E2 Hpre2.
        - destruct pre2 as [| g2 pre2].
          + injection E2 as <- <-. repeat split.
          + injection E2 as <- _. exfalso. apply (Hpre2 _ (or_introl eq_refl)).
            unfold elementOf in *. cbn [Learning.tag Learning.classes]. exact Hf.
        - destruct pre2 as [| g2 pre2].
          + injection E2 as -> _. exfalso. apply (Hpre _ (or_introl eq_refl)). exact Hf2.
          + injection E2 as <- E2.
            destruct (IH (fun x Hx => Hpre x (or_intror Hx)) pre2 E2
                         (fun x Hx => Hpre2 x (or_intror Hx))) as (-> & -> & Ht & Hc).
            repeat split; assumption. }
      destruct Hsame as (-> & -> & Ht & Hc).
      rewrite E, !length_app. cbn [List.length].
      unfold successCount. rewrite !filter_app, !length_app. cbn [filter].
      cbn [Learning.fixed Learning.tag Learning.classes].
      change (String.eqb "up" "up") with true. cbn [andb]. rewrite Ht, Hc.
      destruct (Learning.fixed f),
               (String.eqb (Learning.elementKey (Learning.tag f) (Learning.classes f)) k);
        cbn [andb List.length]; repeat split; lia.
    + exfalso. apply (H2 _ (in_elt _ pre post)).
      unfold elementOf in *. cbn [Learning.tag Learning.classes]. exact Hf.
  - pose proof (updateFirst_spec e css' "up" later' (Learning.darkmode_feedback st)) as H2.
    destruct (Learning.updateFirst e css' "up" later' (Learning.darkmode_feedback st))
      as [fs2 |]; [| repeat split; lia].
    destruct H2 as (pre & f & post & E & _ & Hf & _).
    exfalso. apply (H1 f); [rewrite E; apply in_elt | exact Hf].
Qed.

Lemma updateFirst_at (e : Learning.ElementData) (css rating : string) (now : Z)
    (pre : list Learning.Feedback) (f : Learning.Feedback) (post : list Learning.Feedback) :
  (forall g, In g pre -> elementOf g <> (Learning.ed_tag e, Learning.ed_classes e)) ->
  elementOf f = (Learning.ed_tag e, Learning.ed_classes e) ->
  Learning.updateFirst e css rating now (pre ++ f :: post)%list
  = Some (pre ++ marked css rating now f :: post)%list.
Proof.
  intros Hpre Hf. induction pre as [| g pre IH]; cbn [app Learning.updateFirst].
  - apply (element_eqb_eq (elementOf f)) in Hf.
    unfold element_eqb, elementOf in Hf. cbn [fst snd] in Hf. rewrite Hf. reflexivity.
  - assert (Hg : String.eqb (Learning.tag g) (Learning.ed_tag e)
                 && JS.str_eqb_list (Learning.classes g) (Learning.ed_classes e) = false).
    { destruct (_ && _) eqn:M; [| reflexivity].
      exfalso. apply (Hpre g (or_introl eq_refl)).
      apply (element_eqb_eq (elementOf g)). exact M. }
    rewrite Hg, IH; [reflexivity |].
    intros x Hx. apply Hpre. right. exact Hx.
Qed.

(** The first entry of an element, when the list has one. *)
Lemma first_entry (el : string * list string) (fs : list Learning.Feedback) :
  In el (map elementOf fs) ->
  exists pre f post,
    fs = (pre ++ f :: post)%list
    /\ (forall g, In g pre -> elementOf g <> el) /\ elementOf f = el.
Proof.
  induction fs as [| f r IH]; simpl; [intros [] |].
  destruct (element_eqb (elementOf f) el) eqn:M.
  - intros _. exists [], f, r. apply element_eqb_eq in M. repeat split; [intros g [] | exact M].
  - assert (Hf : elementOf f <> el).
    { intros E. apply element_eqb_eq in E. congruence. }
    intros [E | Hin]; [contradiction |].
    destruct (IH Hin) as (pre & f0 & post & -> & Hpre & Hf0).
    exists (f :: pre), f0, post. repeat split; [| exact Hf0].
    intros g [<- | Hg]; [exact Hf | apply Hpre; exact Hg].
Qed.

Lemma successCount_split (k : string) (pre : list Learning.Feedback) (f : Learning.Feedback)
    (post : list Learning.Feedback) :
  successCount k (pre ++ f :: post)%list
  = (successCount k pre
     + (if Learning.fixed f
           && String.eqb (Learning.elementKey (Learning.tag f) (Learning.classes f)) k
        then 1 else 0)
     + successCount k post)%nat.
Proof. rewrite successCount_app, successCount_cons. lia. Qed.

(** A rating other than [up] raises no count. *)
Lemma other_rating_counts (hostname : string -> option string) (href : string)
    (now later : Z) (e : Learning.ElementData) (css rating : string)
    (st : Learning.Storage) (k : string) :
  rating <> "up" ->
  (successCount k (Learning.darkmode_feedback
                     (snd (Learning.trackFixSuccess hostname href now later e css rating st)))
   <= successCount k (Learning.darkmode_feedback st))%nat.
Proof.
  intros Hr. rewrite tracked_feedback.
  pose proof (updateFirst_spec e css rating later (Learning.darkmode_feedback st)) as H.
  destruct (Learning.updateFirst e css rating later _) as [fs |]; [| lia].
  destruct H as (pre & f & post & -> & _ & _ & ->).
  rewrite !successCount_split. cbn [Learning.fixed].
  apply String.eqb_neq in Hr. rewrite Hr. cbn [andb].
  destruct (Learning.fixed f && _); lia.
Qed.

(** X10.  Applying a fix takes a thumbs-up back.  The case
    [inject-darkmode-css] of the listener raises the number of repaired
    entries of no element key; nor does a rating other than [up].  When
    the list has an entry for the element, a rating [up] followed by the
    tracking of an injection for the same element leaves its key with fewer
    repaired entries than the rating had given it. *)
Theorem applying_a_fix_takes_the_rating_back (hostname : string -> option string) :
  (forall href aiLearning now m pg k,
     (successCount k
        (feedbackOf (snd (Content.injectDarkmodeCss hostname href aiLearning now m pg)))
      <= successCount k (feedbackOf pg))%nat)
  /\ (forall href now later e css rating st k,
        rating <> "up" ->
        (successCount k
           (Learning.darkmode_feedback
              (snd (Learning.trackFixSuccess hostname href now later e css rating st)))
         <= successCount k (Learning.darkmode_feedback st))%nat)
  /\ (forall href href' now later now' later' e css css' st,
        In (Learning.ed_tag e, Learning.ed_classes e)
           (map elementOf (Learning.darkmode_feedback st)) ->
        let key := Learning.elementKey (Learning.ed_tag e) (Learning.ed_classes e) in
        let rated := snd (Learning.trackFixSuccess hostname href now later e css "up" st) in
        let applied :=
          snd (Learning.trackFixSuccess hostname href' now' later' e css' "applied" rated) in
        (successCount key (Learning.darkmode_feedback applied)
         < successCount key (Learning.darkmode_feedback rated))%nat).
Proof.
  split; [| split].
  - intros href aiLearning now m pg k. unfold Content.injectDarkmodeCss, feedbackOf.
    cbn [snd Content.storage].
    destruct aiLearning; [| lia].
    destruct (Content.elementData m) as [ed |]; [| lia].
    apply other_rating_counts. discriminate.
  - intros href now later e css rating st k. apply other_rating_counts.
  - intros href href' now later now' later' e css css' st Hin. cbv zeta.
    destruct (first_entry _ _ Hin) as (pre & f & post & E & Hpre & Hf).
    rewrite !tracked_feedback, E.
    rewrite (updateFirst_at e css "up" later pre f post Hpre Hf).
    rewrite (updateFirst_at e css' "applied" later' pre (marked css "up" later f) post Hpre Hf).
    rewrite !successCount_split. cbn [marked Learning.fixed Learning.tag Learning.classes].
    change (String.eqb "up" "up") with true. change (String.eqb "applied" "up") with false.
    cbn [andb].
    assert (Hkey : Learning.elementKey (Learning.tag f) (Learning.classes f)
                   = Learning.elementKey (Learning.ed_tag e) (Learning.ed_classes e)).
    { unfold elementOf in Hf. injection Hf as -> ->. reflexivity. }
    rewrite Hkey, String.eqb_refl. lia.
Qed.

(** ** The handlers of the content script and the feedback list *)

Lemma firstOnly_snoc (f : Learning.Feedback) (fb : list Learning.Feedback)
    (seen : list (string * list string)) :
  Learning.fixed f = false -> firstOnly seen fb -> firstOnly seen (fb ++ [f])%list.
Proof.
  intros Hf. revert seen. induction fb as [| g fb IH]; intros seen; cbn [app firstOnly].
  - intros _. split; [congruence | exact I].
  - intros [Hg Hrest]. split; [exact Hg | apply IH; exact Hrest].
Qed.

Lemma firstOnly_update (e : Learning.ElementData) (css rating : string) (now : Z)
    (fb fb' : list Learning.Feedback) (seen : list (string * list string)) :
  ~ In (Learning.ed_tag e, Learning.ed_classes e) seen ->
  firstOnly seen fb ->
  Learning.updateFirst e css rating now fb = Some fb' ->
  firstOnly seen fb'.
Proof.
  revert seen fb'. induction fb as [| f r IH]; intros seen fb' Hseen; cbn [firstOnly Learning.updateFirst];
    [discriminate |].
  intros [Hf Hrest].
  destruct (String.eqb (Learning.tag f) (Learning.ed_tag e)
            && JS.str_eqb_list (Learning.classes f) (Learning.ed_classes e)) eqn:M.
  - intros [= <-]. cbn [firstOnly].
    repeat match goal with
           | |- context [elementOf ?x] =>
               lazymatch x with
               | f => fail
               | _ => change (elementOf x) with (elementOf f)
               end
           end.
    split; [| exact Hrest].
    intros _.
    assert (M' : elementOf f = (Learning.ed_tag e, Learning.ed_classes e))
      by (apply element_eqb_eq; exact M).
    rewrite M'. exact Hseen.
  - destruct (Learning.updateFirst e css rating now r) as [r' |] eqn:U; [| discriminate].
    intros [= <-]. cbn [firstOnly]. split; [exact Hf |].
    apply (IH (elementOf f :: seen) r'); [| exact Hrest | reflexivity].
    intros [E | Hin]; [| exact (Hseen Hin)].
    apply element_eqb_eq in E.
    unfold element_eqb, elementOf in E. cbn [fst snd] in E. congruence.
Qed.

Lemma firstOnly_tracked (hostname : string -> option string) (href : string)
    (now later : Z) (e : Learning.ElementData) (css rating : string) (st : Learning.Storage) :
  firstOnly [] (Learning.darkmode_feedback st) ->
  firstOnly [] (Learning.darkmode_feedback
                  (snd (Learning.trackFixSuccess hostname href now later e css rating st))).
Proof.
  intros H. rewrite tracked_feedback.
  destruct (Learning.updateFirst e css rating later _) as [fs |] eqn:U; [| exact H].
  apply (firstOnly_update e css rating later (Learning.darkmode_feedback st) fs []);
    [intros [] | exact H | exact U].
Qed.

Lemma firstOnly_count (el : string * list string) (fb : list Learning.Feedback)
    (seen : list (string * list string)) :
  firstOnly seen fb ->
  (In el seen -> fixedFor el fb = []) /\ (List.length (fixedFor el fb) <= 1)%nat.
Proof.
  revert seen. induction fb as [| f r IH]; intros seen; cbn [firstOnly].
  - intros _. split; [reflexivity | simpl; lia].
  - intros [Hf Hrest]. destruct (IH _ Hrest) as [IH1 IH2].
    unfold fixedFor in *. cbn [filter].
    destruct (Learning.fixed f && element_eqb (elementOf f) el) eqn:M.
    + apply andb_true_iff in M. destruct M as [Hfix M]. apply element_eqb_eq in M.
      split.
      * intros Hin. exfalso. apply (Hf Hfix). rewrite M. exact Hin.
      * rewrite IH1 by (left; exact M). simpl. lia.
    + split; [| exact IH2]. intros Hin. apply IH1. right. exact Hin.
Qed.

(** X11.  However many reports, ratings, injections and toggles the
    listener of the content script handles, starting from an empty feedback
    list, the list never holds more than one entry marked as repaired for
    the same tag and class list: a rating always goes to the first entry of
    its element. *)
Theorem one_repaired_entry_per_element (hostname : string -> option string)
    (pg : Content.Page) :
  reached hostname pg ->
  forall el, (List.length (fixedFor el (feedbackOf pg)) <= 1)%nat.
Proof.
  intros Hr el.
  assert (Hinv : firstOnly [] (feedbackOf pg)).
  { induction Hr as [d st E | pg pg' _ IH Hstep]; unfold feedbackOf in *.
    - cbn [Content.storage]. rewrite E. exact I.
    - destruct Hstep as [href now m pg | href ai now later ed applied rating pg
                         | href ai now msg pg].
      + cbn [Content.submitDarkmodeFeedback Content.storage Learning.darkmode_feedback].
        apply firstOnly_snoc; [reflexivity | exact IH].
      + unfold Content.rateAiFix.
        destruct ai; [| exact IH]. destruct ed as [ed |]; [| exact IH].
        destruct (Server.some_truthy applied) as [css |]; [| exact IH].
        cbn [snd Content.storage]. apply firstOnly_tracked. exact IH.
      + destruct msg as [enabled | m]; cbn [Content.onMessage].
        * exact IH.
        * unfold Content.injectDarkmodeCss. cbn [snd Content.storage].
          destruct ai; [| exact IH].
          destruct (Content.elementData m) as [ed |]; [| exact IH].
          apply firstOnly_tracked. exact IH. }
  exact (proj2 (firstOnly_count el _ [] Hinv)).
Qed.

(** A page after a report and a rating. *)
Lemma one_repaired_entry_witness :
  reached sampleHostname ratedPage
  /\ List.length (fixedFor ("div", ["menu"]) (feedbackOf ratedPage)) = 1%nat
  /\ forall el, (List.length (fixedFor el (feedbackOf ratedPage)) <= 1)%nat.
Proof.
  assert (H : reached sampleHostname ratedPage).
  { apply reached_next with (pg := reportedPage).
    - apply reached_next with (pg := emptyPage).
      + apply reached_start. reflexivity.
      + apply handles_report.
    - apply handles_rating. }
  split; [exact H |]. split; [reflexivity |].
  exact (one_repaired_entry_per_element sampleHostname ratedPage H).
Defined.


(** X12.  A report changes no learned confidence.  After the case
    [SUBMIT_DARKMODE_FEEDBACK] every element key has the confidence it had
    before, and the bucket of the page's domain holds one more issue;
    except on a page whose host is named like a property every object
    inherits, after which [extractPatterns] throws and no key has a
    confidence. *)
Theorem report_changes_no_confidence (hostname : string -> option string)
    (href : string) (now : Z) (m : Content.FeedbackMessage) (pg : Content.Page) (k : string) :
  confidenceFor hostname (feedbackOf (Content.submitDarkmodeFeedback href now m pg)) k
  = (if JS.inherited (Learning.extractDomain hostname href) then None
     else confidenceFor hostname (feedbackOf pg) k)
  /\ domainIssues hostname (Learning.extractDomain hostname href)
       (feedbackOf (Content.submitDarkmodeFeedback href now m pg))
     = S (domainIssues hostname (Learning.extractDomain hostname href) (feedbackOf pg)).
Proof.
  unfold feedbackOf.
  cbn [Content.submitDarkmodeFeedback Content.storage Learning.darkmode_feedback].
  split.
  - rewrite !confidenceFor_spec, existsb_app, successCount_app.
    cbn [existsb]. unfold inheritedDomain at 2. cbn [Content.feedbackData Learning.url].
    rewrite orb_false_r.
    replace (successCount k [Content.feedbackData href now m]) with 0%nat by reflexivity.
    rewrite Nat.add_0_r.
    destruct (existsb _ _), (JS.inherited _); reflexivity.
  - unfold domainIssues, siteIssues. rewrite filter_app, length_app.
    cbn [filter Content.feedbackData Learning.url]. rewrite String.eqb_refl.
    cbn [List.length]. lia.
Qed.

(** ** The proxy and its log *)

(** One request: the answer has status 500 exactly when the key is
    missing, the remote generator fails or the file holds JSON that is no
    array, and the file is then left as it was; otherwise the file, when it
    can be written, holds what the handler read followed by the new
    entry. *)
Lemma proxy_step (Data : Type) (darkModeCss : Data -> option string)
    (apiKey : option string) (gemini : string -> option Data) (now : Z)
    (writable : bool) (body : Server.GeminiRequest) (file : Server.LogFile) :
  let answer := fst (Server.geminiProxy Data darkModeCss apiKey gemini now writable body file) in
  let file' := snd (Server.geminiProxy Data darkModeCss apiKey gemini now writable body file) in
  match Server.some_truthy apiKey, gemini (Server.promptOf body), file with
  | None, _, _ => answer = Server.Status500 "API key not configured." /\ file' = file
  | Some _, None, _
  | Some _, Some _, Server.NotAnArray =>
      answer = Server.Status500 "Failed to process request with Gemini API." /\ file' = file
  | Some _, Some data, _ =>
      answer = Server.Status200 data
      /\ file' = (if writable
                  then Server.Stored
                         (entriesOf file ++ [Server.feedbackEntry Data darkModeCss now body data])
                  else file)
  end.
Proof.
  cbv zeta. unfold Server.geminiProxy.
  destruct (Server.some_truthy apiKey); [| split; reflexivity].
  destruct (gemini (Server.promptOf body)) as [data |]; [| split; reflexivity].
  destruct file; cbn [fst snd entriesOf]; repeat split; reflexivity.
Qed.

(** X13.  The log of the proxy only grows.  Whatever requests
    [POST /api/gemini] serves, in whatever number, a stored log stays a
    stored log and keeps every entry it had, in place: the log afterwards
    is the log before followed by the entries added since.  Nothing is
    dropped or capped.  Only a file that is no JSON loses its content: it
    counts as empty, and the first answered request overwrites it with a
    log of one entry. *)
Theorem proxy_log_only_grows (Data : Type) (darkModeCss : Data -> option string) :
  (forall file file',
     proxyCalls Data darkModeCss file file' ->
     forall log, file = Server.Stored log ->
     exists more, file' = Server.Stored (log ++ more)%list)
  /\ (forall key gemini now body data,
        Server.some_truthy key <> None ->
        gemini (Server.promptOf body) = Some data ->
        snd (Server.geminiProxy Data darkModeCss key gemini now true body Server.Malformed)
        = Server.Stored [Server.feedbackEntry Data darkModeCss now body data]).
Proof.
  split.
  - intros file file' Hcalls.
    induction Hcalls as [file | apiKey gemini now writable body file file' _ IH];
      intros log E.
    + exists []. rewrite app_nil_r. exact E.
    + destruct (IH log E) as [more ->].
      pose proof (proxy_step Data darkModeCss apiKey gemini now writable body
                    (Server.Stored (log ++ more)%list)) as H.
      cbv zeta in H.
      destruct (Server.some_truthy apiKey);
        [| destruct H as [_ ->]; exists more; reflexivity].
      destruct (gemini (Server.promptOf body)) as [data |];
        [| destruct H as [_ ->]; exists more; reflexivity].
      destruct H as [_ ->]. destruct writable; [| exists more; reflexivity].
      cbn [entriesOf]. eexists. rewrite <- app_assoc. reflexivity.
  - intros key gemini now body data Hkey Hg. unfold Server.geminiProxy.
    destruct (Server.some_truthy key); [| contradiction].
    rewrite Hg. reflexivity.
Qed.

(** ** The tallies of [analyzeHistoricalPatterns] *)

Section TallyFacts.

Variable hostname : string -> option string.

Local Abbreviation isFor k e :=
  (match Server.nonempty (Server.classes e) with
   | Some cs => String.eqb (JS.join "." cs) k
   | None => false
   end).

Lemma analyzeEntry_selector (p p' : Server.Patterns) (e : Server.Entry) (k : string) :
  JS.inherited k = false ->
  Server.analyzeEntry hostname p e = Some p' ->
  JS.get (Server.commonSelectors p') k
  = if isFor k e
    then grownSelector (JS.get (Server.commonSelectors p) k) [e]
    else JS.get (Server.commonSelectors p) k.
Proof.
  intros Hk. unfold Server.analyzeEntry.
  destruct (Server.nonempty (Server.classes e)) as [cs |].
  - destruct (String.eqb_spec (JS.join "." cs) k) as [-> | Hne].
    + destruct (JS.get (Server.commonSelectors p) k) as [sel |] eqn:G.
      * intros [= <-]. cbn [Server.commonSelectors]. rewrite get_set_same.
        unfold grownSelector, patchesOf. cbn [map filter List.length].
        destruct (JS.truthy (Server.patch e)); rewrite ?app_nil_r, Nat.add_1_r; reflexivity.
      * rewrite Hk. intros [= <-]. cbn [Server.commonSelectors]. rewrite get_set_same.
        unfold grownSelector, patchesOf. cbn [map filter List.length].
        destruct (JS.truthy (Server.patch e)); reflexivity.
    + destruct (JS.get (Server.commonSelectors p) (JS.join "." cs)) as [sel |].
      * intros [= <-]. cbn [Server.commonSelectors]. apply get_set_other. exact Hne.
      * destruct (JS.inherited (JS.join "." cs)).
        -- destruct (JS.truthy (Server.patch e)); [discriminate |].
           intros [= <-]. reflexivity.
        -- intros [= <-]. cbn [Server.commonSelectors]. apply get_set_other. exact Hne.
  - intros [= <-]. reflexivity.
Qed.

Lemma grownSelector_more (o : option Server.Selector) (e : Server.Entry)
    (es : list Server.Entry) :
  grownSelector (grownSelector o [e]) es = grownSelector o (e :: es).
Proof.
  unfold grownSelector, patchesOf. cbn [map filter List.length].
  destruct o as [sel |]; cbn [Server.count Server.fixes];
    destruct es as [| e' es']; cbn [map filter List.length];
    destruct (JS.truthy (Server.patch e)); cbn [app];
    rewrite <- ?app_assoc, ?app_nil_r; cbn [app]; f_equal; f_equal; lia.
Qed.

Lemma grownSelector_none (o : option Server.Selector) : grownSelector o [] = o.
Proof.
  destruct o as [[c f] |]; [| reflexivity].
  unfold grownSelector, patchesOf. cbn [map filter List.length Server.count Server.fixes].
  rewrite app_nil_r, Nat.add_0_r. reflexivity.
Qed.

Lemma analyzeEntries_selector (log : list Server.Entry) (p p' : Server.Patterns) (k : string) :
  JS.inherited k = false ->
  Server.analyzeEntries hostname p log = Some p' ->
  JS.get (Server.commonSelectors p') k
  = grownSelector (JS.get (Server.commonSelectors p) k) (entriesFor k log).
Proof.
  intros Hk. revert p. induction log as [| e r IH]; intros p; cbn [Server.analyzeEntries].
  - intros [= <-]. cbn [entriesFor filter]. symmetry. apply grownSelector_none.
  - destruct (Server.analyzeEntry hostname p e) as [p1 |] eqn:A; [| discriminate].
    intros H. rewrite (IH _ H), (analyzeEntry_selector _ _ _ _ Hk A).
    unfold entriesFor. cbn [filter]. fold (entriesFor k r).
    destruct (isFor k e); [apply grownSelector_more | reflexivity].
Qed.

Local Abbreviation hasTag t e :=
  (match Server.some_truthy (Server.tag e) with
   | Some t' => String.eqb t' t
   | None => false
   end).

Lemma analyzeEntry_counts (p p' : Server.Patterns) (e : Server.Entry) (t : string) :
  JS.inherited t = false ->
  Server.analyzeEntry hostname p e = Some p' ->
  option_map countsOf (JS.get (Server.elementTypeEffectiveness p') t)
  = if hasTag t e
    then grownCounts (option_map countsOf (JS.get (Server.elementTypeEffectiveness p) t)) t [e]
    else option_map countsOf (JS.get (Server.elementTypeEffectiveness p) t).
Proof.
  intros Ht. unfold Server.analyzeEntry.
  destruct (match Server.nonempty (Server.classes e) with
            | Some cs => _
            | None => Some (Server.commonSelectors p)
            end) as [sels |]; [| discriminate].
  intros [= <-]. cbn [Server.elementTypeEffectiveness].
  unfold grownCounts, successes, attempts. cbn [filter].
  destruct (Server.some_truthy (Server.tag e)) as [t' |]; [| reflexivity].
  destruct (String.eqb_spec t' t) as [-> | Hne].
  - cbn [filter List.length].
    destruct (JS.get (Server.elementTypeEffectiveness p) t) as [eff |] eqn:G.
    + rewrite get_set_same. cbn [option_map countsOf fst snd].
      unfold countsOf. cbn [Server.totalAttempts Server.successfulFixes].
      destruct (10 <? String.length (Server.patch e))%nat; cbn [List.length];
        rewrite ?Nat.add_1_r, ?Nat.add_0_r; reflexivity.
    + rewrite Ht, get_set_same. cbn [option_map].
      unfold countsOf. cbn [Server.totalAttempts Server.successfulFixes].
      destruct (10 <? String.length (Server.patch e))%nat; reflexivity.
  - destruct (JS.get (Server.elementTypeEffectiveness p) t') as [eff |].
    + rewrite get_set_other by exact Hne. reflexivity.
    + destruct (JS.inherited t'); [reflexivity |].
      rewrite get_set_other by exact Hne. reflexivity.
Qed.

Lemma analyzeEntries_counts (log : list Server.Entry) (p p' : Server.Patterns) (t : string) :
  JS.inherited t = false ->
  Server.analyzeEntries hostname p log = Some p' ->
  option_map countsOf (JS.get (Server.elementTypeEffectiveness p') t)
  = grownCounts (option_map countsOf (JS.get (Server.elementTypeEffectiveness p) t)) t log.
Proof.
  intros Ht. revert p. induction log as [| e r IH]; intros p; cbn [Server.analyzeEntries].
  - intros [= <-]. unfold grownCounts, successes, attempts. cbn [filter List.length].
    destruct (option_map countsOf _) as [[a b] |]; [| reflexivity].
    cbn [fst snd]. rewrite !Nat.add_0_r. reflexivity.
  - destruct (Server.analyzeEntry hostname p e) as [p1 |] eqn:A; [| discriminate].
    intros H. rewrite (IH _ H), (analyzeEntry_counts _ _ _ _ Ht A).
    unfold grownCounts, successes, attempts. cbn [filter].
    destruct (hasTag t e); [| reflexivity].
    cbn [filter List.length].
    set (o := option_map countsOf (JS.get (Server.elementTypeEffectiveness p) t)).
    set (es := filter _ r).
    destruct o as [[a b] |]; cbn [fst snd];
      destruct (10 <? String.length (Server.patch e))%nat; cbn [List.length];
      destruct es; cbn [filter List.length]; f_equal; f_equal; lia.
Qed.

End TallyFacts.

(** X14.  The tallies of [analyzeHistoricalPatterns] are exact.  When it
    returns, the record stored for a class key holds the number of log
    entries with that key and their patches that are not empty, in the order
    of the log, and there is no record for a key without entry; the record
    stored for a tag holds the number of entries with that tag, the number
    of those whose patch has more than ten characters, and their quotient.
    (Keys named like a property every object inherits are never stored.) *)
Theorem historical_tallies_are_exact (hostname : string -> option string)
    (log : list Server.Entry) (p : Server.Patterns) :
  Server.analyzeHistoricalPatterns hostname log = Some p ->
  (forall k,
     JS.inherited k = false ->
     JS.get (Server.commonSelectors p) k
     = match entriesFor k log with
       | [] => None
       | es => Some {| Server.count := List.length es; Server.fixes := patchesOf es |}
       end)
  /\ (forall t,
        JS.inherited t = false ->
        JS.get (Server.elementTypeEffectiveness p) t
        = match attempts t log with
          | [] => None
          | es =>
              Some {| Server.totalAttempts := List.length es;
                      Server.successfulFixes := List.length (successes t log);
                      Server.effectivenessRatio :=
                        (inject_Z (Z.of_nat (List.length (successes t log)))
                         / inject_Z (Z.of_nat (List.length es)))%Q |}
          end).
Proof.
  unfold Server.analyzeHistoricalPatterns.
  destruct (Server.analyzeEntries hostname _ log) as [p0 |] eqn:A; [| discriminate].
  intros [= <-]. cbn [Server.commonSelectors Server.elementTypeEffectiveness]. split.
  - intros k Hk. rewrite (analyzeEntries_selector hostname log _ _ k Hk A).
    cbn [Server.commonSelectors JS.get]. unfold grownSelector.
    destruct (entriesFor k log); reflexivity.
  - intros t Ht. rewrite get_map.
    pose proof (analyzeEntries_counts hostname log _ _ t Ht A) as H.
    cbn [Server.elementTypeEffectiveness JS.get option_map] in H. unfold grownCounts in H.
    destruct (attempts t log) as [| e es] eqn:E.
    + destruct (JS.get (Server.elementTypeEffectiveness p0) t); [discriminate | reflexivity].
    + destruct (JS.get (Server.elementTypeEffectiveness p0) t) as [eff |]; [| discriminate].
      cbn [option_map] in *. injection H as H1 H2. cbn [fst snd] in H1, H2.
      unfold Server.withRatio. rewrite H1, H2. cbn [Nat.add List.length Nat.ltb Nat.leb].
      reflexivity.
Qed.

(** The tallies of a log with two entries for one menu. *)
Lemma historical_tallies_witness :
  exists p,
    Server.analyzeHistoricalPatterns sampleHostname menuLog = Some p
    /\ JS.get (Server.commonSelectors p) "menu"
       = Some {| Server.count := 2; Server.fixes := [menuFix] |}
    /\ (forall k,
          JS.inherited k = false ->
          JS.get (Server.commonSelectors p) k
          = match entriesFor k menuLog with
            | [] => None
            | es => Some {| Server.count := List.length es; Server.fixes := patchesOf es |}
            end).
Proof.
  eexists. split; [reflexivity |]. split; [reflexivity |].
  apply (historical_tallies_are_exact sampleHostname menuLog). reflexivity.
Defined.


(** ** The log the extension produces *)

Lemma classless_entry (hostname : string -> option string) (p p' : Server.Patterns)
    (e : Server.Entry) :
  classless e = true ->
  Server.analyzeEntry hostname p e = Some p' ->
  Server.commonSelectors p' = Server.commonSelectors p.
Proof.
  unfold classless, Server.analyzeEntry.
  destruct (Server.nonempty (Server.classes e)); [discriminate |].
  intros _ [= <-]. reflexivity.
Qed.

Lemma classless_log (hostname : string -> option string) (log : list Server.Entry)
    (p p' : Server.Patterns) :
  forallb classless log = true ->
  Server.analyzeEntries hostname p log = Some p' ->
  Server.commonSelectors p' = Server.commonSelectors p.
Proof.
  revert p. induction log as [| e r IH]; intros p; cbn [forallb Server.analyzeEntries].
  - intros _ [= <-]. reflexivity.
  - intros H. apply andb_true_iff in H. destruct H as [He Hr].
    destruct (Server.analyzeEntry hostname p e) as [p1 |] eqn:A; [| discriminate].
    intros H. rewrite (IH _ Hr H). exact (classless_entry hostname _ _ _ He A).
Qed.

(** Without a learned fix the endpoint never answers with a pattern. *)
Lemma unlearned_answer (e : Server.ElementData) (domain : option string)
    (p : Server.Patterns) :
  learnedFix e p = None ->
  Server.respond (Server.generateSmartCSS e domain p) = Server.FallbackToGemini
  \/ Server.respond (Server.generateSmartCSS e domain p) = Server.ServerError.
Proof.
  intros L. unfold Server.generateSmartCSS.
  destruct (Server.domainEvidence _ _ _) as [ev |] eqn:E; [| right; reflexivity].
  destruct (evidence_spec _ _ _ _ E) as [Hc Hr]. rewrite Hr, Hc, L. cbn [isSome].
  destruct (typeSucceeds e p), (domainKnown domain p);
    match goal with
    | |- context [JS.Qgtb ?c ?t] =>
        let b := eval vm_compute in (JS.Qgtb c t) in
        change (JS.Qgtb c t) with b; cbv iota
    end;
    try (left; reflexivity).
  destruct (Server.generateBasicDarkModeCSS e); [left | right]; reflexivity.
Qed.

(** X15.  With the extension as its only client the pattern endpoint
    never answers with a pattern.  [callGeminiAPI] of the background script
    sends its prompt as the description, with the CSS [N/A] and an empty
    class list: the proxy forwards the prompt as it is, and every entry it
    logs has an empty class list.  On a log made of such entries
    [POST /api/smart-css-generation] answers [fallback_to_gemini] (or with
    status 500), whatever element and domain it is asked about. *)
Theorem extension_logs_teach_nothing (Data : Type) (darkModeCss : Data -> option string) :
  (forall prompt,
     Server.promptOf (Background.requestBody prompt)
     = if JS.truthy prompt then prompt else "Generate dark mode CSS fixes")
  /\ (forall file,
        extensionLog Data darkModeCss file ->
        forallb classless (entriesOf file) = true
        /\ forall hostname e domain,
             Server.smartCssGenerationOn hostname file e domain = Server.FallbackToGemini
             \/ Server.smartCssGenerationOn hostname file e domain = Server.ServerError).
Proof.
  split; [intros prompt; destruct prompt; reflexivity |].
  intros file Hext.
  assert (Hinv : (file = Server.Missing \/ exists log, file = Server.Stored log)
                 /\ forallb classless (entriesOf file) = true).
  { induction Hext as [| apiKey gemini now writable prompt file _ [Hshape Hall]].
    - split; [left; reflexivity | reflexivity].
    - pose proof (proxy_step Data darkModeCss apiKey gemini now writable
                    (Background.requestBody prompt) file) as H.
      cbv zeta in H.
      destruct (Server.some_truthy apiKey); [| destruct H as [_ ->]; split; assumption].
      destruct (gemini _) as [data |]; [| destruct H as [_ ->]; split; assumption].
      assert (Hfile : file <> Server.NotAnArray).
      { destruct Hshape as [-> | [log ->]]; discriminate. }
      destruct file; try contradiction; destruct H as [_ ->];
        (destruct writable; [| split; assumption]);
        (split; [right; eexists; reflexivity |]);
        cbn [entriesOf] in *; rewrite forallb_app, Hall; reflexivity. }
  destruct Hinv as [Hshape Hall]. split; [exact Hall |].
  intros hostname e domain.
  assert (Hlog : forall log,
             forallb classless log = true ->
             Server.smartCssGeneration hostname log e domain = Server.FallbackToGemini
             \/ Server.smartCssGeneration hostname log e domain = Server.ServerError).
  { intros log Hcl. unfold Server.smartCssGeneration, Server.analyzeHistoricalPatterns.
    destruct (Server.analyzeEntries hostname _ log) as [p0 |] eqn:A; [| right; reflexivity].
    apply unlearned_answer. unfold learnedFix. cbn [Server.commonSelectors].
    rewrite (classless_log hostname log _ _ Hcl A). cbn [Server.commonSelectors JS.get].
    destruct (Server.nonempty (Server.ed_classes e)); reflexivity. }
  destruct Hshape as [-> | [log ->]]; cbn [Server.smartCssGenerationOn entriesOf] in *.
  - apply Hlog. reflexivity.
  - apply Hlog. exact Hall.
Qed.

(** ** The data of a selected element *)

Lemma substring_prefix (n : nat) (s : string) : prefix (substring 0 n s) s = true.
Proof.
  revert s. induction n as [| n IH]; intros s.
  - destruct s; reflexivity.
  - destruct s as [| c r]; [reflexivity |]. cbn [substring prefix].
    destruct (ascii_dec c c) as [_ | Hne]; [apply IH | contradiction].
Qed.

Lemma substring_length (n : nat) (s : string) :
  String.length (substring 0 n s) = Nat.min n (String.length s).
Proof.
  revert s. induction n as [| n IH]; intros s.
  - destruct s; reflexivity.
  - destruct s as [| c r]; [reflexivity |]. cbn [substring String.length Nat.min].
    rewrite IH. reflexivity.
Qed.

(** X16.  The data sent for a selected element is bounded.  In the result
    of [getComprehensiveElementData] the field [innerHTML] has at most 515
    characters: it is the element's own when that has at most 500, else its
    first 500 characters followed by a mark; and [textContent] has at most
    200 characters and is the beginning of the element's trimmed text, the
    empty text when [hasText] is false. *)
Theorem element_payload_is_bounded (pow : Q -> Q -> Q) (element : Content.Selected) :
  let report := Content.getComprehensiveElementData pow element in
  (String.length (Content.er_innerHTML report) <= 515)%nat
  /\ prefix (JS.slice 0 500 (Content.sel_innerHTML element)) (Content.er_innerHTML report) = true
  /\ ((String.length (Content.sel_innerHTML element) <= 500)%nat ->
      Content.er_innerHTML report = Content.sel_innerHTML element)
  /\ (String.length (Content.er_textContent report) <= 200)%nat
  /\ prefix (Content.er_textContent report) (JS.trim (Content.sel_textContent element)) = true
  /\ (Content.er_hasText report = false -> Content.er_textContent report = "").
Proof.
  cbv zeta. unfold Content.getComprehensiveElementData, JS.slice.
  cbn [Content.er_innerHTML Content.er_textContent Content.er_hasText]. rewrite !Nat.sub_0_r.
  set (html := Content.sel_innerHTML element).
  set (text := Content.sel_textContent element).
  destruct (Nat.ltb_spec 500 (String.length html)) as [Hlong | Hshort].
  - split; [| split; [| split]].
    + rewrite length_snoc, substring_length. cbn [String.length]. lia.
    + apply prefix_app.
    + intros H. lia.
    + destruct (JS.truthy text && _) eqn:T.
      * split; [rewrite substring_length; lia |].
        split; [apply substring_prefix | discriminate].
      * split; [simpl; lia |]. split; [destruct (JS.trim text); reflexivity | reflexivity].
  - split; [lia |]. split; [apply substring_prefix |]. split; [reflexivity |].
    destruct (JS.truthy text && _) eqn:T.
    + split; [rewrite substring_length; lia |].
      split; [apply substring_prefix | discriminate].
    + split; [simpl; lia |]. split; [destruct (JS.trim text); reflexivity | reflexivity].
Qed.

(** ** The analysis of the page *)

Section PageFacts.

Variable pow : Q -> Q -> Q.
Variable querySelectorAll : string -> list Content.Element.

Local Abbreviation issuesOfA a := (List.length (Content.darkModeIssues a)).

Lemma analyzeElement_grows (a : Content.Analysis) (e : Content.Element) :
  let a' := Content.analyzeElement pow a e in
  (Content.hasTransparentMenus a <= Content.hasTransparentMenus a')%nat
  /\ (issuesOfA a <= issuesOfA a')%nat
  /\ (Content.hasTransparentMenus a' + issuesOfA a
      <= Content.hasTransparentMenus a + issuesOfA a')%nat
  /\ (issuesOfA a' <= issuesOfA a + 2)%nat
  /\ Content.totalElements a' = Content.totalElements a.
Proof.
  cbv zeta. unfold Content.analyzeElement.
  destruct (String.eqb _ "transparent" || _ || _);
    destruct (Content.haspoorContrast pow _ _);
    cbn [Content.hasTransparentMenus Content.darkModeIssues Content.totalElements];
    rewrite ?length_app; cbn [List.length]; lia.
Qed.

Lemma analyzeElements_grow (l : list Content.Element) (a : Content.Analysis) :
  let a' := fold_left (Content.analyzeElement pow) l a in
  (Content.hasTransparentMenus a <= Content.hasTransparentMenus a')%nat
  /\ (issuesOfA a <= issuesOfA a')%nat
  /\ (Content.hasTransparentMenus a' + issuesOfA a
      <= Content.hasTransparentMenus a + issuesOfA a')%nat
  /\ (issuesOfA a' <= issuesOfA a + 2 * List.length l)%nat
  /\ Content.totalElements a' = Content.totalElements a.
Proof.
  cbv zeta. revert a. induction l as [| e l IH]; intros a; cbn [fold_left List.length].
  - lia.
  - pose proof (analyzeElement_grows a e) as H. cbv zeta in H.
    specialize (IH (Content.analyzeElement pow a e)). lia.
Qed.

Lemma analyzeSelectors_grow (selectors : list string) (a : Content.Analysis) :
  let a' := fold_left (Content.analyzeSelector pow querySelectorAll) selectors a in
  (Content.hasTransparentMenus a' + issuesOfA a
   <= Content.hasTransparentMenus a + issuesOfA a')%nat
  /\ (issuesOfA a' <= issuesOfA a + 2 * List.length (flat_map querySelectorAll selectors))%nat
  /\ Content.totalElements a'
     = (Content.totalElements a + List.length (flat_map querySelectorAll selectors))%nat.
Proof.
  cbv zeta. revert a. induction selectors as [| s r IH]; intros a;
    cbn [fold_left flat_map List.length].
  - lia.
  - rewrite length_app.
    pose proof (analyzeElements_grow (querySelectorAll s) a) as H. cbv zeta in H.
    specialize (IH (Content.analyzeSelector pow querySelectorAll a s)).
    assert (Hstep :
      Content.hasTransparentMenus (Content.analyzeSelector pow querySelectorAll a s)
      = Content.hasTransparentMenus (fold_left (Content.analyzeElement pow) (querySelectorAll s) a)
      /\ Content.darkModeIssues (Content.analyzeSelector pow querySelectorAll a s)
         = Content.darkModeIssues (fold_left (Content.analyzeElement pow) (querySelectorAll s) a)
      /\ Content.totalElements (Content.analyzeSelector pow querySelectorAll a s)
         = (Content.totalElements (fold_left (Content.analyzeElement pow) (querySelectorAll s) a)
            + List.length (querySelectorAll s))%nat).
    { repeat split. }
    destruct Hstep as (E1 & E2 & E3). rewrite E1, E2, E3 in IH. lia.
Qed.

End PageFacts.

(** X17.  The numbers of the page analysis.  [analyzePageForDarkMode]
    counts an element once for every selector that finds it:
    [totalElements] is the number of visits.  It reports at most two issues
    per visit, of which at most one for a transparent background, so
    [hasTransparentMenus <= problemElements <= 2 * totalElements], and
    [findDarkModeIssues] returns one finding per issue.  The confidence of
    [getCurrentDarkModeStatus] lies between 20 and 100 and that of
    [verifyDarkModeFixes] between 30 and 100; each is 100 exactly when no
    issue is found, and a page that is [isWorkingWell] has a confidence of
    at least 70. *)
Theorem page_analysis_numbers (pow : Q -> Q -> Q)
    (querySelectorAll : string -> list Content.Element) (pg : Content.Page) :
  let analysis := Content.analyzePageForDarkMode pow querySelectorAll in
  let status := Content.getCurrentDarkModeStatus pow querySelectorAll pg in
  let check := Content.verifyDarkModeFixes pow querySelectorAll pg in
  Content.totalElements analysis = List.length (visited querySelectorAll)
  /\ (Content.hasTransparentMenus analysis <= Content.problemElements analysis)%nat
  /\ (Content.problemElements analysis <= 2 * Content.totalElements analysis)%nat
  /\ List.length (Content.findDarkModeIssues pow querySelectorAll)
     = Content.problemElements analysis
  /\ Content.problemsFound status = Content.problemElements analysis
  /\ (20 <= Content.st_confidence status <= 100)%Z
  /\ (30 <= Content.ve_confidence check <= 100)%Z
  /\ (Content.st_confidence status = 100%Z <-> Content.problemsFound status = 0%nat)
  /\ (Content.ve_confidence check = 100%Z <-> Content.remainingIssues check = 0%nat)
  /\ (Content.isWorkingWell check = true -> (70 <= Content.ve_confidence check)%Z).
Proof.
  cbv zeta.
  unfold Content.getCurrentDarkModeStatus, Content.verifyDarkModeFixes,
    Content.findDarkModeIssues, visited.
  change (Content.analyzePageForDarkMode pow querySelectorAll)
    with (analysisOver pow querySelectorAll Content.problematicSelectors).
  generalize Content.problematicSelectors. intros selectors.
  unfold analysisOver.
  cbn [Content.totalElements Content.hasTransparentMenus Content.problemElements
       Content.darkModeIssues Content.problemsFound Content.st_confidence
       Content.ve_confidence Content.remainingIssues Content.isWorkingWell].
  pose proof (analyzeSelectors_grow pow querySelectorAll selectors
                {| Content.hasTransparentMenus := 0; Content.darkModeIssues := [];
                   Content.totalElements := 0; Content.problemElements := 0 |}) as H.
  cbv zeta in H.
  cbn [Content.hasTransparentMenus Content.darkModeIssues Content.totalElements List.length] in H.
  destruct H as (H1 & H2 & H3).
  rewrite length_map.
  remember (fold_left (Content.analyzeSelector pow querySelectorAll) _ _) as a eqn:Ea.
  clear Ea.
  remember (List.length (Content.darkModeIssues a)) as n eqn:En. clear En.
  remember (List.length (flat_map querySelectorAll selectors)) as v eqn:Ev.
  clear Ev.
  split; [lia |]. split; [lia |]. split; [lia |]. split; [reflexivity |].
  split; [reflexivity |].
  destruct (Nat.eqb_spec n 0) as [E | E]; destruct (Nat.ltb_spec n 3); lia.
Qed.

(** ** Contrast *)

Section ContrastMore.

Variable pow : Q -> Q -> Q.

Lemma contrastOf_sym (l1 l2 : Q) : (Content.contrastOf l1 l2 == Content.contrastOf l2 l1)%Q.
Proof.
  unfold Content.contrastOf. rewrite (Q.max_comm l1 l2), (Q.min_comm l1 l2). reflexivity.
Qed.

Lemma Qltb_comp (x x' y y' : Q) : (x == x')%Q -> (y == y')%Q -> JS.Qltb x y = JS.Qltb x' y'.
Proof.
  intros Hx Hy. unfold JS.Qltb. f_equal.
  destruct (Qle_bool y x) eqn:E, (Qle_bool y' x') eqn:E'; try reflexivity.
  - apply Qle_bool_iff in E. rewrite Hx, Hy in E. apply Qle_bool_iff in E. congruence.
  - apply Qle_bool_iff in E'. rewrite <- Hx, <- Hy in E'. apply Qle_bool_iff in E'. congruence.
Qed.

Lemma contrastOf_at_least_one (l1 l2 : Q) :
  (0 <= l1)%Q -> (0 <= l2)%Q -> (1 <= Content.contrastOf l1 l2)%Q.
Proof.
  intros H1 H2. unfold Content.contrastOf.
  assert (Hmin : (0 <= Qmin l1 l2)%Q) by (apply Q.min_glb; assumption).
  assert (Hle : (Qmin l1 l2 <= Qmax l1 l2)%Q).
  { apply Qle_trans with l1; [apply Q.le_min_l | apply Q.le_max_l]. }
  apply Qle_shift_div_l; lra.
Qed.

Hypothesis pow_nonneg : forall x y, (0 <= x)%Q -> (0 <= pow x y)%Q.

Lemma linearize_nonneg (c : Q) : (0 <= c)%Q -> (0 <= Content.linearize pow c)%Q.
Proof.
  intros Hc. unfold Content.linearize.
  destruct (Qle_bool c 0.03928).
  - apply Qle_shift_div_l; lra.
  - apply pow_nonneg. apply Qle_shift_div_l; lra.
Qed.

Lemma luminanceOf_nonneg (rc gc bc : Q) :
  (0 <= rc)%Q -> (0 <= gc)%Q -> (0 <= bc)%Q -> (0 <= Content.luminanceOf pow rc gc bc)%Q.
Proof.
  intros Hr Hg Hb. unfold Content.luminanceOf.
  assert (H : forall c, (0 <= c)%Q -> (0 <= Content.linearize pow (c / 255))%Q).
  { intros c Hc. apply linearize_nonneg. apply Qle_shift_div_l; lra. }
  pose proof (H rc Hr). pose proof (H gc Hg). pose proof (H bc Hb).
  set (x := Content.linearize pow (rc / 255)) in *.
  set (y := Content.linearize pow (gc / 255)) in *.
  set (z := Content.linearize pow (bc / 255)) in *.
  lra.
Qed.

End ContrastMore.

(** X18.  The contrast ratio is symmetric and at least 1.  Neither
    [calculateContrast] nor [haspoorContrast] depends on which of the two
    colours is the background.  When [Math.pow] is not negative on bases
    that are not negative, the ratio [calculateContrast] gives two parsed
    colours is at least 1, so the issue [low_contrast] stands for a ratio
    from 1 up to 3. *)
Theorem contrast_is_symmetric (pow : Q -> Q -> Q) :
  (forall c1 c2,
     (Content.calculateContrast pow c1 c2 == Content.calculateContrast pow c2 c1)%Q)
  /\ (forall a b, Content.haspoorContrast pow a b = Content.haspoorContrast pow b a)
  /\ ((forall x y, (0 <= x)%Q -> (0 <= pow x y)%Q) ->
      forall s1 s2,
        (1 <= Content.calculateContrast pow (Content.parseColor s1) (Content.parseColor s2))%Q).
Proof.
  split; [| split].
  - intros c1 c2. unfold Content.calculateContrast. apply contrastOf_sym.
  - intros a b. unfold Content.haspoorContrast.
    destruct (Content.getColorLuminance pow a) as [la |],
             (Content.getColorLuminance pow b) as [lb |]; try reflexivity.
    apply Qltb_comp; [apply contrastOf_sym | reflexivity].
  - intros Hpow s1 s2. unfold Content.calculateContrast, Content.getLuminance.
    destruct (parseColor_channels s1) as (R1 & G1 & B1).
    destruct (parseColor_channels s2) as (R2 & G2 & B2).
    apply contrastOf_at_least_one; apply (luminanceOf_nonneg pow Hpow);
      rewrite <- (Zle_Qle 0); assumption.
Qed.

(** ** The two luminance routines *)

Lemma append_assoc (a b c : string) : ((a ++ b) ++ c = a ++ (b ++ c))%string.
Proof. induction a as [| x a IH]; simpl; [reflexivity | rewrite IH; reflexivity]. Qed.

Lemma append_nil_r (a : string) : (a ++ "" = a)%string.
Proof. induction a as [| x a IH]; simpl; [reflexivity | rewrite IH; reflexivity]. Qed.

Lemma digitRuns_digits (d rest run : string) :
  every JS.is_digit d = true ->
  JS.digitRuns (d ++ rest) run = JS.digitRuns rest (run ++ d).
Proof.
  revert run. induction d as [| c d IH]; intros run H.
  - rewrite append_nil_r. reflexivity.
  - cbn [every] in H. apply andb_true_iff in H. destruct H as [Hc Hd].
    cbn [append JS.digitRuns]. rewrite Hc, (IH _ Hd), append_assoc. reflexivity.
Qed.

(** A run of digits in front of a character that is no digit is the
    first run. *)
Lemma digitRuns_run (d : string) (c : ascii) (rest : string) :
  digitsText d -> JS.is_digit c = false ->
  JS.digitRuns (d ++ String c rest) "" = d :: JS.digitRuns rest "".
Proof.
  intros [Hne Hd] Hc. rewrite (digitRuns_digits _ _ _ Hd). cbn [append JS.digitRuns].
  rewrite Hc. destruct d; [contradiction | reflexivity].
Qed.

Lemma rgbText_runs (d1 d2 d3 : string) (al : option string) :
  digitsText d1 -> digitsText d2 -> digitsText d3 ->
  exists more, JS.digitRuns (rgbText d1 d2 d3 al) "" = d1 :: d2 :: d3 :: more.
Proof.
  intros H1 H2 H3. unfold rgbText.
  assert (Hhead : forall rest,
            JS.digitRuns ("rgb" ++ match al with Some _ => "a" | None => "" end
                          ++ "(" ++ rest) "" = JS.digitRuns rest "").
  { intros rest. destruct al; reflexivity. }
  rewrite Hhead.
  change (d1 ++ ", " ++ d2 ++ ", " ++ d3 ++ match al with
                                            | Some x => ", " ++ x ++ ")"
                                            | None => ")"
                                            end)
    with (d1 ++ String "," (String " " (d2 ++ String "," (String " "
            (d3 ++ match al with
                   | Some x => ", " ++ x ++ ")"
                   | None => ")"
                   end))))).
  rewrite (digitRuns_run d1 "," _ H1 eq_refl).
  change (JS.digitRuns (String " " ?r) "") with (JS.digitRuns r "").
  cbn [JS.digitRuns]. change (JS.is_digit " ") with false. cbv iota. cbn [JS.truthy].
  rewrite (digitRuns_run d2 "," _ H2 eq_refl).
  cbn [JS.digitRuns]. change (JS.is_digit " ") with false. cbv iota. cbn [JS.truthy].
  destruct al as [x |].
  - change (d3 ++ ", " ++ x ++ ")") with (d3 ++ String "," (String " " (x ++ ")"))).
    rewrite (digitRuns_run d3 "," _ H3 eq_refl). eexists. reflexivity.
  - change (d3 ++ ")") with (d3 ++ String ")" "").
    rewrite (digitRuns_run d3 ")" _ H3 eq_refl). eexists. reflexivity.
Qed.

Lemma rgbText_match (d1 d2 d3 : string) (al : option string) :
  digitsText d1 -> digitsText d2 -> digitsText d3 ->
  match al with Some x => alphaText x | None => True end ->
  Content.rgbaMatch (rgbText d1 d2 d3 al) = Some (d1, d2, d3, al).
Proof.
  intros H1 H2 H3 Ha.
  assert (Hhere : Content.rgbaHere (rgbText d1 d2 d3 al) = Some (d1, d2, d3, al)).
  { unfold rgbText.
    apply (rgbaHere_complete (match al with Some _ => "a" | None => "" end)).
    - destruct al; [right | left]; reflexivity.
    - intros r. cbn [append]. discriminate.
    - pose proof (channels_complete d1 d2 d3 " " " " " " "" al H1 eq_refl H2 eq_refl H3) as C.
      destruct al as [x |].
      + specialize (C (conj eq_refl Ha)). exact C.
      + specialize (C I). exact C. }
  unfold rgbText in *. destruct al; cbn [append Content.rgbaMatch] in *; rewrite Hhere; reflexivity.
Qed.

(** X19.  The two luminance routines agree on computed colours.  On a
    text [rgb(r, g, b)] or [rgba(r, g, b, a)], [getColorLuminance] of the
    page analysis returns the luminance [getLuminance] gives the colour
    [parseColor] reads, so for two such texts [haspoorContrast] holds
    exactly when [calculateContrast] of the parsed colours is below 3, the
    test of the issue [low_contrast]. *)
Theorem luminance_routines_agree (pow : Q -> Q -> Q) (bg text : string) :
  computedColour bg -> computedColour text ->
  Content.getColorLuminance pow bg
  = Some (Content.getLuminance pow (Content.parseColor (Some bg)))
  /\ Content.haspoorContrast pow bg text
     = JS.Qltb (Content.calculateContrast pow (Content.parseColor (Some bg))
                  (Content.parseColor (Some text))) 3.
Proof.
  assert (Hone : forall s, computedColour s ->
            Content.getColorLuminance pow s
            = Some (Content.getLuminance pow (Content.parseColor (Some s)))).
  { intros s (d1 & d2 & d3 & al & H1 & H2 & H3 & Ha & ->).
    unfold Content.getColorLuminance, Content.parseColor, Content.getLuminance.
    rewrite (rgbText_match d1 d2 d3 al H1 H2 H3 Ha).
    destruct (rgbText_runs d1 d2 d3 al H1 H2 H3) as [more ->].
    unfold rgbText. destruct al; reflexivity. }
  intros Hbg Htext. split; [apply Hone; exact Hbg |].
  unfold Content.haspoorContrast, Content.calculateContrast.
  rewrite (Hone _ Hbg), (Hone _ Htext). reflexivity.
Qed.

(** White behind half transparent black. *)
Lemma luminance_routines_witness :
  computedColour "rgb(255, 255, 255)" /\ computedColour "rgba(0, 0, 0, 0.5)"
  /\ Content.getColorLuminance samplePow "rgb(255, 255, 255)"
     = Some (Content.getLuminance samplePow (Content.parseColor (Some "rgb(255, 255, 255)")))
  /\ Content.haspoorContrast samplePow "rgb(255, 255, 255)" "rgba(0, 0, 0, 0.5)" = false.
Proof.
  assert (H1 : computedColour "rgb(255, 255, 255)").
  { exists "255", "255", "255", None. repeat split; discriminate. }
  assert (H2 : computedColour "rgba(0, 0, 0, 0.5)").
  { exists "0", "0", "0", (Some "0.5"). repeat split; discriminate. }
  destruct (luminance_routines_agree samplePow _ _ H1 H2) as [Ha Hb].
  split; [exact H1 |]. split; [exact H2 |]. split; [exact Ha |]. reflexivity.
Defined.


(** X20.  A hex colour of fewer than five digits has no luminance in the
    page analysis: for the text [#] followed by at most four characters
    (the short form [#rgb] among them) [getColorLuminance] is [NaN], and
    [haspoorContrast] is false whatever the other colour is, on either
    side. *)
Theorem short_hex_is_never_poor_contrast (pow : Q -> Q -> Q) (h other : string) :
  (String.length h <= 4)%nat ->
  Content.getColorLuminance pow ("#" ++ h) = None
  /\ Content.haspoorContrast pow ("#" ++ h) other = false
  /\ Content.haspoorContrast pow other ("#" ++ h) = false.
Proof.
  intros Hlen.
  assert (Hnone : Content.getColorLuminance pow ("#" ++ h) = None).
  { unfold Content.getColorLuminance. cbn [append JS.truthy negb orb].
    change (String.eqb (String "#" h) "transparent") with false.
    change (JS.startsWith (String "#" h) "rgb") with false.
    change (JS.startsWith (String "#" h) "#") with (prefix "" h).
    replace (prefix "" h) with true by (destruct h; reflexivity).
    cbv iota. cbn [JS.drop].
    assert (E : JS.slice 4 6 h = "").
    { unfold JS.slice. cbn [Nat.sub].
      destruct h as [| c0 [| c1 [| c2 [| c3 [| c4 r]]]]]; try reflexivity.
      cbn [String.length] in Hlen. lia. }
    rewrite E. change (JS.parseIntHex "") with (@None Z).
    destruct (JS.parseIntHex (JS.slice 0 2 h)), (JS.parseIntHex (JS.slice 2 4 h)); reflexivity. }
  split; [exact Hnone |]. unfold Content.haspoorContrast. rewrite Hnone.
  split; [reflexivity |].
  destruct (Content.getColorLuminance pow other); reflexivity.
Qed.

(** The short form of white. *)
Lemma short_hex_witness :
  Content.getColorLuminance samplePow "#fff" = None
  /\ Content.haspoorContrast samplePow "#fff" "rgb(255, 255, 255)" = false
  /\ Content.haspoorContrast samplePow "rgb(255, 255, 255)" "#fff" = false.
Proof.
  apply (short_hex_is_never_poor_contrast samplePow "fff" "rgb(255, 255, 255)").
  cbn. lia.
Defined.


(** ** The automatic repair of menus *)

Lemma combinedPatch_truthy (menus : list AddDarkClass.MenuElement) :
  menus <> [] -> JS.truthy (combinedPatch menus) = true.
Proof.
  destruct menus as [| m rest]; [contradiction |]. intros _.
  unfold combinedPatch, JS.join. cbn [map String.concat].
  assert (H : exists r, AddDarkClass.menuPatchFor (AddDarkClass.generateCssSelector m)
                        = String "010" r).
  { unfold AddDarkClass.menuPatchFor, JS.join, JS.nl. cbn [String.concat append].
    eexists. reflexivity. }
  destruct H as [r ->]. destruct (map _ rest); reflexivity.
Qed.

Lemma inject_twice (a b : string) (d : Dom.Document) :
  JS.truthy a = true ->
  (List.length (siblingBlocks d) <= 1)%nat ->
  AddDarkClass.injectGeminiCssPatch a (AddDarkClass.injectGeminiCssPatch b d)
  = AddDarkClass.injectGeminiCssPatch a d
  /\ siblingBlocks (AddDarkClass.injectGeminiCssPatch a d) = [patchBlock a].
Proof.
  intros Ha Hone. unfold AddDarkClass.injectGeminiCssPatch. rewrite Ha. cbn [negb].
  pose proof (removeFirst_single AddDarkClass.patchId (Dom.head d) Hone) as Hnone.
  split.
  - destruct (JS.truthy b); cbn [negb]; [| reflexivity].
    unfold Dom.appendChild, Dom.removeById. cbn [Dom.head Dom.classList].
    rewrite removeFirst_snoc by (try exact Hnone; reflexivity). reflexivity.
  - unfold siblingBlocks, Dom.appendChild, Dom.removeById. cbn [Dom.head].
    rewrite filter_snoc, Hnone. reflexivity.
Qed.

(** X21.  The automatic repair overwrites the patch.  When
    [autoFixTransparentMenus] has menus to repair, on a document that holds
    at most one block with the id of the patch, it makes no difference
    whether [injectGeminiCssPatch] had injected a rule text before: the only
    block with that id that is left holds the rules of the menus, and the
    rule text injected before is gone.  Without menus the document is left
    as it is. *)
Theorem auto_fix_overwrites_the_patch (menus : list AddDarkClass.MenuElement)
    (css : string) (d : Dom.Document) :
  menus <> [] ->
  (List.length (siblingBlocks d) <= 1)%nat ->
  AddDarkClass.autoFixTransparentMenus menus (AddDarkClass.injectGeminiCssPatch css d)
  = AddDarkClass.autoFixTransparentMenus menus d
  /\ siblingBlocks (AddDarkClass.autoFixTransparentMenus menus d)
     = [patchBlock (combinedPatch menus)]
  /\ AddDarkClass.autoFixTransparentMenus [] d = d.
Proof.
  intros Hmenus Hone.
  assert (E : forall doc,
            AddDarkClass.autoFixTransparentMenus menus doc
            = AddDarkClass.injectGeminiCssPatch (combinedPatch menus) doc).
  { intros doc. unfold AddDarkClass.autoFixTransparentMenus, combinedPatch.
    destruct menus; [contradiction | reflexivity]. }
  rewrite !E.
  destruct (inject_twice (combinedPatch menus) css d (combinedPatch_truthy menus Hmenus) Hone)
    as [H1 H2].
  repeat split; assumption.
Qed.

(** One menu, on a document that holds an older patch. *)
Lemma auto_fix_witness :
  (List.length (siblingBlocks patchedDocument) <= 1)%nat
  /\ AddDarkClass.autoFixTransparentMenus [sideMenu]
       (AddDarkClass.injectGeminiCssPatch menuFix patchedDocument)
     = AddDarkClass.autoFixTransparentMenus [sideMenu] patchedDocument
  /\ siblingBlocks (AddDarkClass.autoFixTransparentMenus [sideMenu] patchedDocument)
     = [patchBlock (combinedPatch [sideMenu])]
  /\ AddDarkClass.generateCssSelector sideMenu = "div#side.menu.open".
Proof.
  assert (H1 : [sideMenu] <> []) by discriminate.
  assert (H2 : (List.length (siblingBlocks patchedDocument) <= 1)%nat) by (apply le_n).
  destruct (auto_fix_overwrites_the_patch [sideMenu] menuFix patchedDocument H1 H2)
    as (Ha & Hb & _).
  split; [exact H2 |]. split; [exact Ha |]. split; [exact Hb |]. reflexivity.
Defined.


(** ** The accuracy feedback *)

Section AccuracyFacts.

Variables (html url : string) (isFixed : bool).

Lemma markFound_spec (arr : list AddDarkClass.AccuracyEntry) :
  match AddDarkClass.markFound html url isFixed arr with
  | Some arr' =>
      List.length arr' = List.length arr
      /\ AddDarkClass.markFound html url isFixed arr' = Some arr'
      /\ filter (fun f => negb (isEntryOf html url f)) arr'
         = filter (fun f => negb (isEntryOf html url f)) arr
      /\ exists f, In f arr' /\ isEntryOf html url f = true
                   /\ AddDarkClass.ae_fixed f = isFixed
  | None => forallb (fun f => negb (isEntryOf html url f)) arr = true
  end.
Proof.
  induction arr as [| f rest IH]; cbn [AddDarkClass.markFound]; [reflexivity |].
  fold (isEntryOf html url f).
  destruct (isEntryOf html url f) eqn:M.
  - split; [reflexivity |]. split; [| split].
    + cbn [AddDarkClass.markFound AddDarkClass.outerHTML AddDarkClass.ae_url].
      unfold isEntryOf in M. rewrite M. reflexivity.
    + cbn [filter]. rewrite M.
      match goal with
      | |- context [isEntryOf html url ?x] =>
          change (isEntryOf html url x) with (isEntryOf html url f)
      end.
      rewrite M. reflexivity.
    + eexists. split; [left; reflexivity |]. split; [exact M | reflexivity].
  - destruct (AddDarkClass.markFound html url isFixed rest) as [rest' |].
    + destruct IH as (Hlen & Hidem & Hothers & g & Hin & Hg & Hfix).
      split; [cbn [List.length]; rewrite Hlen; reflexivity |]. split; [| split].
      * cbn [AddDarkClass.markFound]. fold (isEntryOf html url f). rewrite M, Hidem. reflexivity.
      * cbn [filter]. rewrite M, Hothers. reflexivity.
      * exists g. split; [right; exact Hin | split; assumption].
    + cbn [forallb]. rewrite M, IH. reflexivity.
Qed.

Lemma markFound_new (arr : list AddDarkClass.AccuracyEntry) (f : AddDarkClass.AccuracyEntry) :
  forallb (fun g => negb (isEntryOf html url g)) arr = true ->
  isEntryOf html url f = true -> AddDarkClass.ae_fixed f = isFixed ->
  AddDarkClass.markFound html url isFixed (arr ++ [f])%list = Some (arr ++ [f])%list.
Proof.
  intros Hnone Hf Hfix. induction arr as [| g rest IH]; cbn [app AddDarkClass.markFound].
  - fold (isEntryOf html url f). rewrite Hf. destruct f. cbn in Hfix. rewrite Hfix. reflexivity.
  - cbn [forallb] in Hnone. apply andb_true_iff in Hnone. destruct Hnone as [Hg Hrest].
    fold (isEntryOf html url g). apply negb_true_iff in Hg. rewrite Hg, (IH Hrest). reflexivity.
Qed.

End AccuracyFacts.

(** X22.  [saveAccuracyFeedback] inserts or updates.  The list it stores
    has the entries of the old list, in place, and at most one more; it
    holds an entry with the element's [outerHTML] and the page's URL whose
    flag [fixed] is the answer given; the entries of other elements or
    pages are the same as before; and saving the same answer for the same
    element again, at any time, stores the same list. *)
Theorem accuracy_feedback_is_an_upsert (href : string) (now later : Z)
    (html elTag : string) (elClasses : list string) (isFixed : bool)
    (arr : list AddDarkClass.AccuracyEntry) :
  let stored :=
    fst (AddDarkClass.saveAccuracyFeedback href now later html elTag elClasses isFixed arr) in
  (List.length arr <= List.length stored <= S (List.length arr))%nat
  /\ (exists f, In f stored /\ isEntryOf html href f = true
                /\ AddDarkClass.ae_fixed f = isFixed)
  /\ filter (fun f => negb (isEntryOf html href f)) stored
     = filter (fun f => negb (isEntryOf html href f)) arr
  /\ (forall now' later',
        fst (AddDarkClass.saveAccuracyFeedback href now' later' html elTag elClasses
               isFixed stored)
        = stored).
Proof.
  cbv zeta. unfold AddDarkClass.saveAccuracyFeedback. cbn [fst].
  pose proof (markFound_spec html href isFixed arr) as H.
  destruct (AddDarkClass.markFound html href isFixed arr) as [arr' |].
  - destruct H as (Hlen & Hidem & Hothers & Hex).
    split; [lia |]. split; [exact Hex |]. split; [exact Hothers |].
    intros now' later'. rewrite Hidem. reflexivity.
  - set (entry := {| AddDarkClass.outerHTML := Some html; AddDarkClass.ae_tag := elTag;
                     AddDarkClass.ae_classes := elClasses; AddDarkClass.ae_url := href;
                     AddDarkClass.ae_feedback := Some "";
                     AddDarkClass.ae_timestamp := now; AddDarkClass.ae_fixed := isFixed |}).
    assert (Hentry : isEntryOf html href entry = true).
    { unfold isEntryOf, entry, AddDarkClass.attrIs.
      cbn [AddDarkClass.outerHTML AddDarkClass.ae_url]. rewrite !String.eqb_refl. reflexivity. }
    split; [rewrite length_app; cbn [List.length]; lia |]. split; [| split].
    + exists entry. split; [apply in_or_app; right; left; reflexivity |].
      split; [exact Hentry | reflexivity].
    + rewrite filter_app. cbn [filter]. rewrite Hentry. cbn [negb]. apply app_nil_r.
    + intros now' later'.
      rewrite (markFound_new html href isFixed arr entry H Hentry eq_refl). reflexivity.
Qed.

(** ** The theme file of the background script *)

Lemma classList_add_contains (c : string) (d : Dom.Document) :
  Dom.classList_contains c (Dom.classList_add c d) = true.
Proof.
  unfold Dom.classList_contains, Dom.classList_add. cbn [Dom.classList].
  destruct (existsb (String.eqb c) (Dom.classList d)) eqn:E; [exact E |].
  rewrite existsb_app. cbn [existsb]. rewrite String.eqb_refl.
  rewrite orb_true_r. reflexivity.
Qed.

(** X23.  The theme file follows the class, so the order of the two
    listeners matters.  Once a content script handled [TOGGLE_DARK_MODE]
    with [enabled] false, [toggleTheme] of the background script finds no
    class and does nothing: it does not remove [dark-theme.css].  Once a
    content script handled the message with [enabled] true, [toggleTheme]
    inserts the file.  [applyThemeToAllTabs] acts only in tabs whose URL
    starts with [http] and whose document has the class, and there it
    inserts when the setting is on and removes when it is off. *)
Theorem theme_file_follows_the_class :
  (forall pg,
     Background.toggleTheme false
       (Background.probe (Content.document (snd (Content.toggleDarkMode false pg))))
     = Background.NoAction)
  /\ (forall d m,
        Background.toggleTheme false
          (Background.probe (fst (AddDarkClass.toggleDarkModeOff d m)))
        = Background.NoAction)
  /\ (forall pg,
        Background.toggleTheme true
          (Background.probe (Content.document (snd (Content.toggleDarkMode true pg))))
        = Background.InsertCSS)
  /\ (forall d,
        Background.toggleTheme true (Background.probe (AddDarkClass.toggleDarkModeOn d))
        = Background.InsertCSS)
  /\ (forall isEnabled tabs tab action,
        In (tab, action) (combine tabs (Background.applyThemeToAllTabs isEnabled tabs)) ->
        action <> Background.NoAction ->
        Popup.isWebTab (Background.tab_url tab) = true
        /\ Dom.classList_contains "universal-dark-mode" (Background.tab_document tab) = true
        /\ action = if isEnabled then Background.InsertCSS else Background.RemoveCSS).
Proof.
  split; [| split; [| split; [| split]]].
  - intros pg. unfold Background.toggleTheme, Background.probe.
    cbn [Content.toggleDarkMode snd Content.document].
    rewrite classList_remove_contains. reflexivity.
  - intros d m. unfold Background.toggleTheme, Background.probe,
      AddDarkClass.toggleDarkModeOff, AddDarkClass.removeGeminiCssPatch. cbn [fst].
    change (Dom.classList_contains "universal-dark-mode"
              (Dom.removeById AddDarkClass.patchId
                 (Dom.classList_remove "universal-dark-mode" d)))
      with (Dom.classList_contains "universal-dark-mode"
              (Dom.classList_remove "universal-dark-mode" d)).
    rewrite classList_remove_contains. reflexivity.
  - intros pg. unfold Background.toggleTheme, Background.probe.
    cbn [Content.toggleDarkMode snd Content.document].
    rewrite classList_add_contains. reflexivity.
  - intros d. unfold Background.toggleTheme, Background.probe, AddDarkClass.toggleDarkModeOn.
    destruct (Dom.classList_contains "universal-dark-mode" d) eqn:E; cbn [negb].
    + rewrite E. reflexivity.
    + rewrite classList_add_contains. reflexivity.
  - intros isEnabled tabs tab action Hin Hact.
    unfold Background.applyThemeToAllTabs in Hin.
    induction tabs as [| t rest IH]; [destruct Hin |].
    cbn [map combine] in Hin. destruct Hin as [Heq | Hin]; [| exact (IH Hin)].
    injection Heq as Ht Ha. subst tab action.
    unfold Background.toggleTheme, Background.probe in *.
    destruct (Popup.isWebTab (Background.tab_url t)); [| contradiction].
    destruct (Dom.classList_contains "universal-dark-mode" (Background.tab_document t));
      destruct isEnabled; cbn in *; try contradiction; repeat split.
Qed.

(** ** The toggle of the popup *)

Lemma prefix_shorter (p q s : string) :
  prefix (p ++ q) s = true -> prefix p s = true.
Proof.
  revert s. induction p as [| c p IH]; intros s H; [destruct s; reflexivity |].
  destruct s as [| d s]; [discriminate |].
  cbn in *. destruct (Ascii.ascii_dec c d); [| discriminate]. exact (IH _ H).
Qed.

(** X24.  The toggle is sent to every page whose URL starts with [http],
    and to no other.  For a page [getPageType] calls [web] the change
    handler sends [TOGGLE_DARK_MODE] with the state of the switch; it
    sends it as well for some URLs [getPageType] calls [unknown].  For any
    other tab it reverts the switch and shows one of four notices: the
    fifth, [Dark mode is not available for this page], is never shown. *)
Theorem toggle_is_sent_to_http_pages (isEnabled : bool) (url : option string) :
  match Popup.onToggleChange isEnabled url with
  | Popup.SendToggle enabled =>
      enabled = isEnabled /\ exists u, url = Some u /\ prefix "http" u = true
  | Popup.Revert notice =>
      In notice unsupportedNotices
      /\ Popup.getPageType url <> "web"
      /\ match url with Some u => prefix "http" u = false | None => True end
  end
  /\ (Popup.getPageType url = "web" ->
      Popup.onToggleChange isEnabled url = Popup.SendToggle isEnabled)
  /\ Popup.onToggleChange isEnabled (Some "httpx:page") = Popup.SendToggle isEnabled
  /\ Popup.getPageType (Some "httpx:page") = "unknown".
Proof.
  assert (Hweb : forall u, Popup.getPageType (Some u) = "web" -> prefix "http" u = true).
  { intros u. unfold Popup.getPageType, JS.startsWith.
    destruct (negb (JS.truthy u)); [discriminate |].
    destruct (prefix "chrome://" u || prefix "edge://" u || prefix "about:" u);
      [discriminate |].
    destruct (prefix "chrome-extension://" u || prefix "moz-extension://" u);
      [discriminate |].
    destruct (prefix "file://" u); [discriminate |].
    destruct (prefix "http://" u) eqn:E1.
    - intros _. exact (prefix_shorter "http" "://" u E1).
    - destruct (prefix "https://" u) eqn:E2; [| discriminate].
      intros _. exact (prefix_shorter "http" "s://" u E2). }
  assert (Hsent : forall u, prefix "http" u = true -> Popup.isWebTab (Some u) = true).
  { intros u H. unfold Popup.isWebTab, JS.startsWith. rewrite H.
    destruct u; [discriminate H | reflexivity]. }
  split; [| split; [| split; reflexivity]].
  - unfold Popup.onToggleChange.
    destruct (Popup.isWebTab url) eqn:E.
    + split; [reflexivity |]. destruct url as [u |]; [| discriminate E].
      exists u. split; [reflexivity |].
      unfold Popup.isWebTab, JS.startsWith in E.
      apply andb_true_iff in E. destruct E as [_ E].
      apply orb_true_iff in E. destruct E as [E | E]; [exact E |].
      exact (prefix_shorter "http" "s" u E).
    + assert (Hno : match url with Some u => prefix "http" u = false | None => True end).
      { destruct url as [u |]; [| exact I].
        destruct (prefix "http" u) eqn:P; [| reflexivity].
        rewrite (Hsent u P) in E. discriminate E. }
      assert (Hnot : Popup.getPageType url <> "web").
      { destruct url as [u |]; [| discriminate].
        intros W. rewrite (Hweb u W) in Hno. discriminate Hno. }
      split; [| split; assumption].
      unfold Popup.getUnsupportedPageMessage, unsupportedNotices.
      destruct url as [u |]; [| cbn; tauto].
      revert Hnot. unfold Popup.getPageType.
      destruct (negb (JS.truthy u)); [cbn; tauto |].
      destruct (_ || _ || _); [cbn; tauto |].
      destruct (_ || _); [cbn; tauto |].
      destruct (JS.startsWith u "file://"); [cbn; tauto |].
      destruct (_ || _); [intros H; contradiction H; reflexivity | cbn; tauto].
  - intros W. unfold Popup.onToggleChange.
    destruct url as [u |]; [| discriminate W].
    rewrite (Hsent u (Hweb u W)). reflexivity.
Qed.

(** ** The analytics of the popup *)

Lemma round_percent (q : Q) :
  (0 <= q <= 1)%Q -> (0 <= JS.round (q * 100) <= 100)%Z.
Proof.
  intros [H0 H1]. unfold JS.round. split.
  - change 0%Z with (Qfloor 0). apply Qfloor_resp_le. lra.
  - assert (H : (Qfloor (q * 100 + 0.5) <= Qfloor (100 + 0.5))%Z)
      by (apply Qfloor_resp_le; lra).
    exact H.
Qed.

Lemma score_sum (l : list Popup.FixRecord) (acc : Q) :
  Forall scored l ->
  (acc <= fold_left (fun sum r => sum + Popup.successScore r) l acc
       <= acc + inject_Z (Z.of_nat (List.length l)))%Q.
Proof.
  intros H. revert acc. induction H as [| r l [Hr0 Hr1] _ IH]; intros acc.
  - cbn. unfold inject_Z. lra.
  - cbn [fold_left List.length]. destruct (IH (acc + Popup.successScore r)%Q) as [Hlo Hhi].
    rewrite Nat2Z.inj_succ, <- Z.add_1_r, inject_Z_plus.
    change (inject_Z 1) with 1%Q. split; lra.
Qed.

(** X25.  The numbers of [renderAILearningAnalytics].  On an empty log it
    shows a notice and no number.  Otherwise [totalFixes] is the length of
    the log, the success rate is a whole number between 0 and 100 and at
    most three issues are listed; the confidence is between 0 and 100 as
    well when every score of the log lies between 0 and 1, as the scores
    of the records [trackFixSuccess] of the popup writes do. *)
Theorem analytics_are_percentages (fixTracking : list Popup.FixRecord) :
  match Popup.renderAILearningAnalytics fixTracking with
  | None => fixTracking = []
  | Some shown =>
      fixTracking <> []
      /\ Popup.totalFixes shown = List.length fixTracking
      /\ (0 <= Popup.successRate shown <= 100)%Z
      /\ (List.length (Popup.topIssues shown) <= 3)%nat
      /\ (Forall scored fixTracking -> (0 <= Popup.avgConfidence shown <= 100)%Z)
  end
  /\ (forall now elementData geminiResponse fb log,
        Forall scored log ->
        Forall scored (fst (Popup.trackFixSuccess now elementData geminiResponse fb log))).
Proof.
  split.
  - destruct fixTracking as [| r0 rest]; [reflexivity |].
    unfold Popup.renderAILearningAnalytics.
    cbn [Popup.totalFixes Popup.successRate Popup.topIssues Popup.avgConfidence].
    assert (Hlen : (0 < List.length (r0 :: rest))%nat) by (cbn; lia).
    split; [discriminate |].
    set (fixTracking := r0 :: rest) in *.
    split; [reflexivity |].
    split; [| split].
    + apply round_percent. apply ratio_bounds; [apply filter_length_le | exact Hlen].
    + rewrite length_map, length_firstn. lia.
    + intros Hall.
      destruct (score_sum fixTracking 0%Q Hall) as [Hlo Hhi].
      apply round_percent.
      assert (Hpos : (0 < inject_Z (Z.of_nat (List.length fixTracking)))%Q).
      { rewrite <- (Zlt_Qlt 0). lia. }
      split.
      * apply Qle_shift_div_l; [exact Hpos | lra].
      * apply Qle_shift_div_r; [exact Hpos | lra].
  - intros now elementData geminiResponse fb log Hall.
    unfold Popup.trackFixSuccess. cbn [fst].
    assert (Hnew : Forall scored (log ++ [Popup.fixRecord now elementData geminiResponse fb])).
    { apply Forall_app. split; [exact Hall |]. constructor; [| constructor].
      unfold scored, Popup.fixRecord. cbn [Popup.successScore].
      destruct (String.eqb fb "positive"); [split; discriminate |].
      destruct (String.eqb fb "partial"); split; discriminate. }
    destruct (_ <? _)%nat; [| exact Hnew].
    unfold JS.splice_front. 
    apply Forall_forall. intros x Hx. rewrite Forall_forall in Hnew. apply Hnew.
    rewrite <- (firstn_skipn (List.length (log ++ [Popup.fixRecord now elementData geminiResponse fb]) - 100)
                  (log ++ [Popup.fixRecord now elementData geminiResponse fb])).
    apply in_or_app. right. exact Hx.
Qed.

(** ** Automatic reports *)

(** X26.  What the learning engine makes of an automatic report.  The
    description [generateAutoDescription] writes for the issues
    [detectDarkModeIssues] finds on an element, when there are any, is
    filed by [categorizeProlem] under [transparent_background] when the
    issue [transparent_background_dark_text] is among them, else under
    [poor_contrast] when [low_contrast] is, else under [text_visibility]
    when [light_background_dark_text] is, and else under
    [general_dark_mode]; never under [menu_issues]. *)
Theorem automatic_reports_are_never_menu_issues (pow : Q -> Q -> Q)
    (textContent : string) (style : Content.ComputedStyle)
    (tag elementType url : string) (automated refinement : bool) :
  let issues := Content.detectDarkModeIssues pow textContent style in
  let description :=
    Popup.generateAutoDescription
      {| Popup.tag := tag; Popup.elementType := elementType;
         Popup.detectedIssues := issues; Popup.url := url;
         Popup.automated := automated; Popup.refinement := refinement |} in
  issues = []
  \/ (Learning.categorizeProlem description = autoCategory issues
      /\ Learning.categorizeProlem description <> "menu_issues").
Proof.
  cbv zeta. unfold Content.detectDarkModeIssues. cbv zeta.
  repeat match goal with
         | |- context [if ?c then _ else _] =>
             lazymatch c with
             | true => fail
             | false => fail
             | _ => destruct c
             end
         end;
    first [ left; reflexivity
          | right; vm_compute; split; [reflexivity | discriminate] ].
Qed.

(** ** The export of the popup *)

Lemma pushText_field (x : string) (fs : list string) (rows : list (list string)) :
  pushText x (("" :: fs) :: rows) = (x :: fs) :: rows.
Proof.
  induction x as [| c x IH]; [reflexivity |].
  cbn [pushText]. rewrite IH. reflexivity.
Qed.

Lemma readCsv_quoted_end (r : string) :
  readCsv Quoted (String "034"%char r) = readCsv Closing r.
Proof. reflexivity. Qed.

Lemma readCsv_doubled (r : string) :
  readCsv Closing (String "034"%char r) = pushChar "034"%char (readCsv Quoted r).
Proof. reflexivity. Qed.

Lemma readCsv_quoted_char (c : ascii) (r : string) :
  Ascii.eqb c "034"%char = false ->
  readCsv Quoted (String c r) = pushChar c (readCsv Quoted r).
Proof. intros H. cbn [readCsv]. rewrite H. reflexivity. Qed.

Lemma readCsv_next_field (r : string) :
  readCsv Closing (String ","%char r) = newField (readCsv Plain r).
Proof. reflexivity. Qed.

Lemma readCsv_next_row (r : string) :
  readCsv Closing (String "010"%char r) = newRow (readCsv Plain r).
Proof. reflexivity. Qed.

Lemma readCsv_opening (r : string) :
  readCsv Plain (String "034"%char r) = readCsv Quoted r.
Proof. reflexivity. Qed.

Lemma read_escaped (x rest : string) :
  readCsv Quoted (JS.replaceAll "034"%char (JS.dq ++ JS.dq) x ++ JS.dq ++ rest)
  = pushText x (readCsv Closing rest).
Proof.
  induction x as [| c x IH]; [reflexivity |].
  cbn [JS.replaceAll pushText]. destruct (Ascii.eqb c "034"%char) eqn:E.
  - apply Ascii.eqb_eq in E. subst c.
    change ((JS.dq ++ JS.dq) ++ JS.replaceAll "034"%char (JS.dq ++ JS.dq) x)
      with (String "034"%char
              (String "034"%char (JS.replaceAll "034"%char (JS.dq ++ JS.dq) x))).
    cbn [String.append].
    rewrite readCsv_quoted_end, readCsv_doubled, IH. reflexivity.
  - cbn [String.append]. rewrite (readCsv_quoted_char _ _ E), IH. reflexivity.
Qed.

Lemma read_quoted (x rest : string) :
  readCsv Plain (Popup.quoted x ++ rest) = pushText x (readCsv Closing rest).
Proof.
  unfold Popup.quoted. rewrite <- read_escaped.
  change (JS.dq ++ ?t) with (String "034"%char t).
  cbn [String.append]. rewrite readCsv_opening, append_assoc. reflexivity.
Qed.

Lemma join_more (sep x y : string) (l : list string) :
  JS.join sep (x :: y :: l) = x ++ sep ++ JS.join sep (y :: l).
Proof. reflexivity. Qed.

Lemma join_one (sep x : string) : JS.join sep [x] = x.
Proof. reflexivity. Qed.

Lemma read_row (fields : list string) (rest : string) (others : list (list string)) :
  fields <> [] ->
  readCsv Closing rest = [""] :: others ->
  readCsv Plain (JS.join "," (map Popup.quoted fields) ++ rest) = fields :: others.
Proof.
  intros Hne Hrest. induction fields as [| x fields IH]; [contradiction |].
  destruct fields as [| y more].
  - cbn [map]. rewrite join_one, read_quoted, Hrest. apply pushText_field.
  - assert (IH' : readCsv Plain (JS.join "," (map Popup.quoted (y :: more)) ++ rest)
                  = (y :: more) :: others) by (apply IH; discriminate).
    cbn [map] in *. rewrite join_more, !append_assoc, read_quoted.
    cbn [String.append]. rewrite readCsv_next_field, IH'.
    cbn [newField]. apply pushText_field.
Qed.

Lemma read_rows (rows : list (list string)) :
  rows <> [] -> Forall (fun r => r <> []) rows ->
  readCsv Plain
    (JS.join JS.nl (map (fun r => JS.join "," (map Popup.quoted r)) rows))
  = rows.
Proof.
  intros Hne Hall. induction Hall as [| r rows Hr Hall IH]; [contradiction |].
  destruct rows as [| r2 more].
  - cbn [map]. rewrite join_one.
    rewrite <- (append_nil_r (JS.join "," (map Popup.quoted r))).
    apply read_row; [exact Hr | reflexivity].
  - cbn [map] in *. rewrite join_more.
    apply read_row; [exact Hr |].
    unfold JS.nl at 1. cbn [String.append]. rewrite readCsv_next_row.
    unfold newRow. f_equal. apply IH. discriminate.
Qed.

Lemma exportRows_spec (toISOString : Z -> option string) (arr : list Popup.FeedbackRow) :
  match Popup.exportRows toISOString arr with
  | Some rows =>
      Forall2 (fun f r => Popup.exportRow toISOString f = Some r) arr rows
      /\ Forall (fun r => r <> []) rows
  | None => exists f, In f arr /\ toISOString (Popup.row_timestamp f) = None
  end.
Proof.
  induction arr as [| f arr IH]; cbn [Popup.exportRows]; [split; constructor |].
  destruct (Popup.exportRow toISOString f) as [r |] eqn:E.
  - destruct (Popup.exportRows toISOString arr) as [rs |].
    + destruct IH as [H1 H2]. split; constructor; try assumption.
      unfold Popup.exportRow in E.
      destruct (toISOString (Popup.row_timestamp f)); [| discriminate].
      injection E as <-. discriminate.
    + destruct IH as (g & Hin & Hg). exists g. split; [right; exact Hin | exact Hg].
  - exists f. split; [left; reflexivity |].
    unfold Popup.exportRow in E.
    destruct (toISOString (Popup.row_timestamp f)); [discriminate | reflexivity].
Qed.

(** X27.  The export can be read back.  [handleExportFeedback] offers no
    file for an empty list, and throws exactly when the time stamp of some
    entry is no date.  Otherwise a reader of comma-separated text finds in
    the file it offers the header, and for every stored entry, in order,
    one record with its six fields as they were: the commas, line feeds
    and double quotes inside a field do not break the file. *)
Theorem export_reads_back (toISOString : Z -> option string)
    (arr : list Popup.FeedbackRow) :
  match Popup.handleExportFeedback toISOString arr with
  | Popup.NoData => arr = []
  | Popup.Threw => exists f, In f arr /\ toISOString (Popup.row_timestamp f) = None
  | Popup.Download csv =>
      exists rows,
        readCsv Plain csv = Popup.header :: rows
        /\ Forall2 (fun f r => Popup.exportRow toISOString f = Some r) arr rows
  end.
Proof.
  destruct arr as [| f0 rest]; [reflexivity |].
  unfold Popup.handleExportFeedback.
  pose proof (exportRows_spec toISOString (f0 :: rest)) as H.
  destruct (Popup.exportRows toISOString (f0 :: rest)) as [rows |]; [| exact H].
  destruct H as [H1 H2]. exists rows. split; [| exact H1].
  assert (Hne : rows <> []) by (inversion H1; discriminate).
  unfold Popup.csvText.
  pose proof (read_rows rows Hne H2) as Hread.
  remember (JS.join JS.nl (map (fun r => JS.join "," (map Popup.quoted r)) rows)) as body.
  cbn. rewrite Hread. reflexivity.
Qed.

(** A file with one awkward entry, written and read. *)
Lemma export_example :
  exists csv,
    Popup.handleExportFeedback sampleIso [awkwardRow] = Popup.Download csv
    /\ readCsv Plain csv
       = [ Popup.header;
           [ "DIV"; "menu|open"; "https://example.org/a,b";
             "the " ++ JS.dq ++ "menu" ++ JS.dq ++ "," ++ JS.nl ++ "again";
             "1970-01-01T00:00:00.000Z"; "true" ] ].
Proof. eexists. split; reflexivity. Qed.

(** ** The remarks on a selected element *)

Lemma lightness_bounds (col : string) (l : Q) :
  AddDarkClass.colorToLightness col = Some l -> (0 <= l <= 1)%Q.
Proof.
  assert (H : forall x, (0 <= Qmax 0 (Qmin 1 x) <= 1)%Q).
  { intros x. split; [apply Q.le_max_l |].
    apply Q.max_lub; [discriminate | apply Q.le_min_l]. }
  unfold AddDarkClass.colorToLightness.
  destruct (negb (JS.truthy col)); [intros [= <-]; split; discriminate |].
  destruct (JS.startsWith col "rgb").
  - destruct (JS.digitRuns col "") as [| v0 [| v1 [| v2 rest]]];
      intros [= <-]; apply H.
  - destruct (JS.startsWith col "#"); [| intros [= <-]; apply H].
    destruct (_ =? 6)%nat; [| intros [= <-]; apply H].
    destruct (JS.parseIntHex _); [| discriminate].
    destruct (JS.parseIntHex _); [| discriminate].
    destruct (JS.parseIntHex _); [| discriminate].
    intros [= <-]; apply H.
Qed.

Lemma both_light_are_close (a b : Q) :
  (0 <= a <= 1)%Q -> (0 <= b <= 1)%Q ->
  JS.Qgtb a 0.7 = true -> JS.Qgtb b 0.7 = true ->
  JS.Qltb (Qabs (a - b)) 0.3 = true.
Proof.
  intros [_ Ha] [_ Hb] Ga Gb.
  unfold JS.Qgtb, JS.Qltb in *. apply negb_true_iff in Ga, Gb. apply negb_true_iff.
  destruct (Qle_bool 0.3 (Qabs (a - b))) eqn:E; [exfalso | reflexivity].
  apply Qle_bool_iff in E.
  assert (Ha' : ~ (a <= 0.7)%Q) by (intros H; apply Qle_bool_iff in H; congruence).
  assert (Hb' : ~ (b <= 0.7)%Q) by (intros H; apply Qle_bool_iff in H; congruence).
  apply Qnot_le_lt in Ha', Hb'.
  revert E. apply Qabs_case; intros; lra.
Qed.

Lemma in_when (c : bool) (y x : string) :
  In x (if c then [y] else []) <-> c = true /\ y = x.
Proof.
  destruct c; cbn; split.
  - intros [H | []]. split; [reflexivity | exact H].
  - intros [_ H]. left. exact H.
  - intros [].
  - intros [H _]. discriminate H.
Qed.

(** X28.  Every remark made on a selected element is backed by the
    analysis loop.  For an element with a rendered box,
    [analyzeElementIssues] remarks on a transparent menu exactly when the
    problems [analyzeDarkModeIssues] collects for it include
    [transparent_menu_background]; when it remarks on a white background
    they include [white_background]; and when it remarks on poor contrast
    (both colours lighter than 0.7) they include [poor_contrast] (the
    lightnesses differ by less than 0.3).  On an element without a rendered
    box the loop collects nothing. *)
Theorem remarks_are_backed_by_the_loop (el : AddDarkClass.Node)
    (style : AddDarkClass.Style) (vw vh : Q) :
  let remarks := AddDarkClass.analyzeElementIssues el style vw vh in
  let problems := AddDarkClass.problemsOf el style vw vh in
  if Qeq_bool (AddDarkClass.rectWidth el) 0 || Qeq_bool (AddDarkClass.rectHeight el) 0
  then problems = []
  else
    (In "Transparent menu background makes text hard to read" remarks
     <-> In "transparent_menu_background" problems)
    /\ (In "White background should be dark in dark mode" remarks ->
        In "white_background" problems)
    /\ (In "Poor contrast between text and background" remarks ->
        In "poor_contrast" problems).
Proof.
  cbv zeta. unfold AddDarkClass.problemsOf, AddDarkClass.analyzeElementIssues.
  destruct (Qeq_bool (AddDarkClass.rectWidth el) 0
            || Qeq_bool (AddDarkClass.rectHeight el) 0); [reflexivity |].
  set (bg := AddDarkClass.backgroundColor style).
  set (fg := AddDarkClass.color style).
  set (menu := AddDarkClass.isLikelyMenu el style vw vh).
  set (contrast :=
         if JS.truthy bg && negb (String.eqb bg "rgba(0, 0, 0, 0)") && JS.truthy fg
         then match AddDarkClass.colorToLightness bg, AddDarkClass.colorToLightness fg with
              | Some bgLightness, Some textLightness =>
                  if JS.Qltb (Qabs (bgLightness - textLightness)) 0.3
                  then ["poor_contrast"] else []
              | _, _ => []
              end
         else []).
  set (light := JS.truthy fg && _ && JS.truthy bg && _).
  assert (Hclose : light = true -> contrast = ["poor_contrast"]).
  { subst light contrast. intros H.
    apply andb_true_iff in H. destruct H as [H Lb].
    apply andb_true_iff in H. destruct H as [H Tb].
    apply andb_true_iff in H. destruct H as [Tf Lf].
    destruct (AddDarkClass.colorToLightness fg) as [lf |] eqn:Ef; [| discriminate].
    destruct (AddDarkClass.colorToLightness bg) as [lb |] eqn:Eb; [| discriminate].
    assert (Hne : String.eqb bg "rgba(0, 0, 0, 0)" = false).
    { destruct (String.eqb_spec bg "rgba(0, 0, 0, 0)") as [E |]; [| reflexivity].
      rewrite E in Eb. vm_compute in Eb. injection Eb as <-.
      vm_compute in Lb. discriminate Lb. }
    rewrite Hne, Tb, Tf. cbn [negb andb].
    rewrite (both_light_are_close lb lf (lightness_bounds _ _ Eb) (lightness_bounds _ _ Ef));
      [reflexivity | assumption | assumption]. }
  assert (Hcontrast : forall x, In x contrast -> x = "poor_contrast").
  { subst contrast. intros x.
    destruct (JS.truthy bg && negb (String.eqb bg "rgba(0, 0, 0, 0)") && JS.truthy fg);
      [| cbn [In]; intros []].
    destruct (AddDarkClass.colorToLightness bg); [| cbn [In]; intros []].
    destruct (AddDarkClass.colorToLightness fg); [| cbn [In]; intros []].
    destruct (JS.Qltb _ _); cbn [In]; [| intros []].
    intros [<- | []]. reflexivity. }
  rewrite !in_app_iff, !in_when.
  split; [| split].
  - split.
    + intros [[H _] | [[_ H] | [_ H]]]; try discriminate H.
      left. split; [rewrite andb_comm; exact H | reflexivity].
    + intros [[H _] | [H | [[_ H] | [_ H]]]]; try discriminate H.
      * left. split; [rewrite andb_comm; exact H | reflexivity].
      * apply Hcontrast in H. discriminate H.
  - intros [[_ H] | [[H _] | [_ H]]]; try discriminate H.
    right. right. left. split; [| reflexivity].
    apply andb_true_iff in H. destruct H as [Tb Hin]. rewrite Tb, Hin. reflexivity.
  - intros [[_ H] | [[_ H] | [H _]]]; try discriminate H.
    right. left. rewrite (Hclose H). left. reflexivity.
Qed.
